(** * The key-value datastore plugin of clixon

    A shallow embedding of [datastore/keyvalue/clixon_keyvalue.c]: the
    database-file resolver [kv_db2file], the lock registry
    ([kv_lock], [kv_unlock], [kv_unlock_all], [kv_islocked]), the write
    engine ([put], [kv_put]), the read engine ([get], [kv_get]), the handle
    and its options ([kv_connect], [kv_getopt], [kv_setopt]) and the calls
    on whole database files ([kv_exists], [kv_create], [kv_delete],
    [kv_copy]), followed by the properties of these functions.

    C strings are [string], a [NULL] pointer is [None], an [int] is a [Z].
    A function that returns [0] for success and [-1], after [clicon_err],
    for failure is a function into [result]; the calls into the storage
    engine, which change the database file, live in the state-and-error
    monad [dbM]. What the file calls in the clixon library and in the
    storage engine is modelled from the specification, and marked so. *)

From stdpp Require Import base option list gmap strings sorting.
From Stdlib Require Import ZArith Ascii String.

Set Warnings "-register-all".

(** ** Errors *)

(** The categories this file passes to [clicon_err]. *)
Inductive clicon_category := OE_DB | OE_XML | OE_UNIX | OE_YANG | OE_PLUGIN.

(** What a failing call leaves behind: either this file called
    [clicon_err (category, errno, format, ...)] itself, and the record holds
    the category and the formatted message, or a callee returned its failure
    value and the file passed it on ([goto done]) without a message of its
    own.

    [Undefined fn] is no failure of that kind: the code calls [fn] in a way
    for which C defines no behaviour, and nothing is known of what the
    program does from there on. A result [Err (Undefined fn)] stands for no
    result at all; no property is stated of a run that reaches one, other
    than that it does. *)
Inductive clicon_error :=
| ClErr (category : clicon_category) (reason : string)
| Callee (fn : string)
| Undefined (fn : string).

Inductive result (A : Type) :=
| Ok (a : A)
| Err (e : clicon_error).
Arguments Ok {A} a.
Arguments Err {A} e.

#[global] Instance result_ret : MRet result := λ A a, Ok a.
#[global] Instance result_bind : MBind result := λ A B f m,
  match m with
  | Ok a => f a
  | Err e => Err e
  end.

(** [p == NULL] followed by [clicon_err] and [goto done]. *)
Definition nonnull {A} (p : option A) (e : clicon_error) : result A :=
  match p with
  | Some a => Ok a
  | None => Err e
  end.

(** The double quote, for the messages that print one. *)
Definition dquote : string := String (ascii_of_nat 34) EmptyString.

(** ** The schema: [yang_stmt] and [yang_spec]

    The schema model and its lookups ("find a top-level node by name, find a
    child data node, find a node's key-field declaration") belong to the
    clixon library and are only called in this file. *)

(** Modelled from the spec: the keywords of the statements this file looks
    at ([enum rfc_6020] of the clixon library). *)
Inductive yang_keyword :=
| Y_CONTAINER | Y_DEFAULT | Y_KEY | Y_LEAF | Y_LEAF_LIST | Y_LIST
| Y_MODULE | Y_SPEC | Y_TYPE.

#[global] Instance yang_keyword_eq_dec : EqDecision yang_keyword.
Proof. solve_decision. Defined.

(** Modelled from the spec: [yang_stmt] of the clixon library, "a typed
    definition (container / leaf / leaf-list / keyed list) describing one
    element of the configuration tree": a keyword, an argument and the
    sub-statements. The specification root [yang_spec] is a statement of
    keyword [Y_SPEC] over the modules. *)
Inductive yang_stmt := YangStmt {
  ys_keyword : yang_keyword;
  ys_argument : string;
  ys_stmt : list yang_stmt
}.

Abbreviation yang_spec := yang_stmt.

(** Modelled from the spec: [yang_datanode] of the clixon library, the
    statements that have a counterpart in a tree. *)
Definition yang_datanode (y : yang_stmt) : bool :=
  match ys_keyword y with
  | Y_CONTAINER | Y_LEAF | Y_LEAF_LIST | Y_LIST => true
  | _ => false
  end.

(** Modelled from the spec: [yang_find (yn, keyword, NULL)] of the clixon
    library, the first sub-statement of a keyword ("find a node's key-field
    declaration"). *)
Definition yang_find (yn : yang_stmt) (keyword : yang_keyword) : option yang_stmt :=
  snd <$> list_find (λ y, ys_keyword y = keyword) (ys_stmt yn).

(** Modelled from the spec: [yang_find_datanode (yn, name)] of the clixon
    library, the first data node called [name] ("find a child data node"). *)
Definition yang_find_datanode (yn : yang_stmt) (name : string) : option yang_stmt :=
  snd <$> list_find (λ y, yang_datanode y = true ∧ ys_argument y = name) (ys_stmt yn).

(** Modelled from the spec: [yang_find_topnode (ysp, name, YC_DATANODE)] of
    the clixon library ("find a top-level node by name"): the modules are
    searched in turn for a data node called [name]. *)
Fixpoint find_in_modules (ms : list yang_stmt) (name : string) : option yang_stmt :=
  match ms with
  | [] => None
  | m :: ms' =>
      match yang_find_datanode m name with
      | Some y => Some y
      | None => find_in_modules ms' name
      end
  end.

Definition yang_find_topnode (ysp : yang_spec) (name : string) : option yang_stmt :=
  find_in_modules (ys_stmt ysp) name.

(** ** Strings *)

(** [index (name, c)]: the text before the first [c], and the text after it
    when there is one ([restval], [NULL] otherwise). *)
Fixpoint index_split (c : ascii) (s : string) : string * option string :=
  match s with
  | EmptyString => (EmptyString, None)
  | String a s' =>
      if decide (a = c) then (EmptyString, Some s')
      else let '(n, r) := index_split c s' in (String a n, r)
  end.

(** Modelled from the spec: [clicon_strsep (string, delim, &nvec)] of the
    clixon library, which "splits the key on" a delimiter. Every delimiter
    starts a new element, so the vector has one element more than the string
    has delimiters; the element before a leading delimiter is empty. *)
Fixpoint clicon_strsep (s : string) (delim : ascii) : list string :=
  match s with
  | EmptyString => [EmptyString]
  | String a s' =>
      if decide (a = delim) then EmptyString :: clicon_strsep s' delim
      else match clicon_strsep s' delim with
           | h :: t => String a h :: t
           | [] => [String a EmptyString]
           end
  end.

(** Modelled from the spec: what the [%s] conversion of [cprintf] and of
    [uri_percent_encode] prints for a string argument; the spec is silent on
    a [NULL] argument (a node without body text), for which the C library the
    code is built against prints [(null)]. *)
Definition cstr (s : option string) : string := default "(null)" s.

(** ** Percent-encoding

    [uri_percent_encode] and [uri_percent_decode] are declared in the clixon
    library. The keys are the "api_path RFC3986" of the file's header. *)

(** The hexadecimal digit of a number below 16, and back. *)
Definition hexdigit (n : N) : ascii :=
  if (n <? 10)%N then ascii_of_N (48 + n) else ascii_of_N (55 + n).

Definition hexval (c : ascii) : option N :=
  let n := N_of_ascii c in
  if (48 <=? n)%N && (n <=? 57)%N then Some (n - 48)%N
  else if (65 <=? n)%N && (n <=? 70)%N then Some (n - 55)%N
  else if (97 <=? n)%N && (n <=? 102)%N then Some (n - 87)%N
  else None.

(** Modelled from the spec: the characters percent-encoding leaves as they
    are, the unreserved set of RFC 3986: letters, digits, [-], [.], [_] and
    [~]. *)
Definition uri_unreserved (c : ascii) : bool :=
  let n := N_of_ascii c in
  ((48 <=? n)%N && (n <=? 57)%N) || ((65 <=? n)%N && (n <=? 90)%N)
  || ((97 <=? n)%N && (n <=? 122)%N)
  || bool_decide (c = "-"%char) || bool_decide (c = "."%char)
  || bool_decide (c = "_"%char) || bool_decide (c = "~"%char).

(** Modelled from the spec: [uri_percent_encode], "reversible escaping of
    reserved characters": every character outside the unreserved set is
    written as [%] and two hexadecimal digits, so that a value cannot be
    confused with the [/], [=] and [,] of the path structure. *)
Fixpoint uri_percent_encode (s : string) : string :=
  match s with
  | EmptyString => EmptyString
  | String c s' =>
      if uri_unreserved c then String c (uri_percent_encode s')
      else String "%" (String (hexdigit (N_of_ascii c / 16))
                         (String (hexdigit (N_of_ascii c mod 16))
                            (uri_percent_encode s')))
  end.

(** Modelled from the spec: [uri_percent_decode], the inverse: each [%] that
    two hexadecimal digits follow is replaced by the character they number,
    everything else is left as it is. *)
Fixpoint uri_percent_decode (enc : string) : string :=
  match enc with
  | EmptyString => EmptyString
  | String c s' =>
      let plain := String c (uri_percent_decode s') in
      if decide (c = "%"%char) then
        match s' with
        | String h1 (String h2 s'') =>
            match hexval h1, hexval h2 with
            | Some a, Some b =>
                String (ascii_of_N (16 * a + b)) (uri_percent_decode s'')
            | _, _ => plain
            end
        | _ => plain
        end
      else plain
  end.

(** ** The tree: [cxobj]

    The in-memory tree and its primitives ("create node, find child, get/set
    body text") belong to the clixon library and are only called in this
    file. *)

(** Modelled from the spec: [enum cxobj_type] of the clixon library, the three
    types of node this file tells apart. *)
Inductive cxobj_type := CX_ELMNT | CX_ATTR | CX_BODY.

#[global] Instance cxobj_type_eq_dec : EqDecision cxobj_type.
Proof. solve_decision. Defined.

(** Modelled from the spec: [cxobj] of the clixon library. A node has a
    name, a type (element, attribute or body text), a value (for attributes
    and body text), the schema statement it was created for, and its children
    in order. *)
Inductive cxobj := Cxobj {
  x_name : string;
  x_type : cxobj_type;
  x_value : option string;
  x_spec : option yang_stmt;
  x_childvec : list cxobj
}.

(** Modelled from the spec: [xml_new_spec (name, parent, spec)] ("create
    node"), before the node is linked to the parent. *)
Definition xml_new_spec (name : string) (spec : yang_stmt) : cxobj :=
  Cxobj name CX_ELMNT None (Some spec) [].

(** Modelled from the spec: [xb = xml_new ("body", x);
    xml_type_set (xb, CX_BODY); xml_value_set (xb, val)] ("set body text"),
    before the node is linked to [x]. *)
Definition xml_new_body (val : string) : cxobj :=
  Cxobj "body" CX_BODY (Some val) None [].

(** Modelled from the spec: what [xml_new] and [xml_new_spec] do to the
    parent they are given: the new node becomes its last child. *)
Definition xml_addsub (xp xc : cxobj) : cxobj :=
  Cxobj (x_name xp) (x_type xp) (x_value xp) (x_spec xp) (x_childvec xp ++ [xc]).

(** Modelled from the spec: a change made through the pointer to the [i]-th
    child, seen from the parent. *)
Definition xml_child_set (xp : cxobj) (i : nat) (xc : cxobj) : cxobj :=
  Cxobj (x_name xp) (x_type xp) (x_value xp) (x_spec xp) (<[i := xc]> (x_childvec xp)).

(** Modelled from the spec: [xml_find (x, name)] ("find child"), the first
    child of that name, of whatever type (it is also how [xml_find_value]
    reaches the "operation" attribute in [put]), with its position. *)
Definition xml_find (x : cxobj) (name : string) : option (nat * cxobj) :=
  list_find (λ c, x_name c = name) (x_childvec x).

(** Modelled from the spec: [xml_find_value (x, name)], the value of the
    first child of that name. *)
Definition xml_find_value (x : cxobj) (name : string) : option string :=
  xml_find x name ≫= λ p, x_value (snd p).

(** Modelled from the spec: [xml_body (x)] ("get body text"), the value of
    the first body-text child. *)
Definition xml_body (x : cxobj) : option string :=
  list_find (λ c, x_type c = CX_BODY) (x_childvec x) ≫= λ p, x_value (snd p).

(** ** The storage engine

    The "sorted/pattern-queryable key-value storage engine" ([clixon_qdb.h]:
    [db_init], [db_delete], [db_set], [db_exists], [db_del], [db_regexp]) is
    an external collaborator of this file. *)

(** Modelled from the spec: a database file, represented by its content, a
    finite map from keys to values ("store entry: (canonical key, optional
    body value) pair"); the value written for a [NULL] body is [None]. *)
Abbreviation kvstore := (gmap string (option string)).

(** Modelled from the spec: the pairs of a scan, [struct db_pair] with its
    fields [dp_key] and [dp_val]. *)
Abbreviation db_pair := (string * option string)%type.

(** *** Key patterns

    [db_regexp] takes a "key regexp" (the test program at the end of the file
    calls [^.*$] the pattern that matches all). The fragment modelled is the
    one this file writes, [^], the key text, [.*] and [$]: a pattern is an
    optional [^], a sequence of pieces, and an optional [$]; a piece is a
    character or [.] (any character), possibly followed by [*]. The other
    operators of regular expressions are not modelled: a pattern that uses one
    is rejected by [regcomp], and the scan fails. *)

(** Modelled from the spec: what a piece of a pattern matches, any character
    or one character. *)
Inductive rx_atom := RxAny | RxChar (c : ascii).

(** Modelled from the spec: a compiled pattern ("an anchored pattern scan"):
    whether it begins with [^], its pieces, each starred or not, and whether
    it ends with [$]. *)
Record regex := Regex {
  rx_bol : bool;
  rx_pieces : list (rx_atom * bool);
  rx_eol : bool
}.

(** Modelled from the spec: the characters that are operators of regular
    expressions, apart from [.]. *)
Definition rx_operator (c : ascii) : bool :=
  bool_decide (c ∈ list_ascii_of_string "*^$[](){}|+?\").

(** Modelled from the spec: a character of a pattern as a piece; [.] stands
    for any character. *)
Definition rx_atom_of (c : ascii) : rx_atom :=
  if decide (c = "."%char) then RxAny else RxChar c.

(** Modelled from the spec: the pieces of a pattern, and whether it ends
    with [$]. *)
Fixpoint rx_parse (p : list ascii) : option (list (rx_atom * bool) * bool) :=
  match p with
  | [] => Some ([], false)
  | c :: p' =>
      if decide (c = "$"%char) then
        match p' with
        | [] => Some ([], true)
        | _ => None
        end
      else if rx_operator c then None
      else
        match p' with
        | star :: p'' =>
            if decide (star = "*"%char) then
              '(ps, eol) ← rx_parse p''; Some ((rx_atom_of c, true) :: ps, eol)
            else
              '(ps, eol) ← rx_parse p'; Some ((rx_atom_of c, false) :: ps, eol)
        | [] => Some ([(rx_atom_of c, false)], false)
        end
  end.

(** Modelled from the spec: compiling a pattern; [None] for a pattern
    outside the fragment. The empty pattern matches every key. *)
Definition regcomp (p : string) : option regex :=
  match list_ascii_of_string p with
  | c :: p' =>
      if decide (c = "^"%char) then
        '(ps, eol) ← rx_parse p'; Some (Regex true ps eol)
      else
        '(ps, eol) ← rx_parse (c :: p'); Some (Regex false ps eol)
  | [] => Some (Regex false [] false)
  end.

(** Modelled from the spec: a piece against a character. *)
Definition rx_atom_match (a : rx_atom) (c : ascii) : bool :=
  match a with
  | RxAny => true
  | RxChar c' => bool_decide (c = c')
  end.

(** Modelled from the spec: matching the pieces at the beginning of a text;
    a starred piece takes as many characters as the rest allows. *)
Fixpoint rx_match_here (ps : list (rx_atom * bool)) (eol : bool)
    (s : list ascii) {struct ps} : bool :=
  match ps with
  | [] => if eol then bool_decide (s = []) else true
  | (a, false) :: ps' =>
      match s with
      | c :: s' => rx_atom_match a c && rx_match_here ps' eol s'
      | [] => false
      end
  | (a, true) :: ps' =>
      (fix star (s : list ascii) : bool :=
         rx_match_here ps' eol s
         || match s with
            | c :: s' => rx_atom_match a c && star s'
            | [] => false
            end) s
  end.

(** Modelled from the spec: matching the pieces somewhere in a text. *)
Fixpoint rx_search (ps : list (rx_atom * bool)) (eol : bool)
    (s : list ascii) : bool :=
  rx_match_here ps eol s
  || match s with
     | _ :: s' => rx_search ps eol s'
     | [] => false
     end.

(** Modelled from the spec: whether a key matches a compiled pattern. *)
Definition regexec (r : regex) (key : string) : bool :=
  if rx_bol r then rx_match_here (rx_pieces r) (rx_eol r) (list_ascii_of_string key)
  else rx_search (rx_pieces r) (rx_eol r) (list_ascii_of_string key).

(** *** The state of a database file *)

(** A call that may change the database file and may fail; what was written
    before a failure stays written. *)
Definition dbM (A : Type) : Type := kvstore → result A * kvstore.

#[global] Instance dbM_ret : MRet dbM := λ A a s, (Ok a, s).
#[global] Instance dbM_bind : MBind dbM := λ A B f m s,
  match m s with
  | (Ok a, s') => f a s'
  | (Err e, s') => (Err e, s')
  end.

(** A call that does not touch the database, inside [dbM]. *)
Definition lift {A} (r : result A) : dbM A := λ s, (r, s).

(** Modelled from the spec: the order of the pairs of a scan, that of their
    keys (the store is "sorted"). *)
Definition pair_le (p q : db_pair) : Prop := String.leb (fst p) (fst q) = true.

#[global] Instance pair_le_dec : RelDecision pair_le.
Proof. intros p q. unfold pair_le. apply _. Defined.

(** Modelled from the spec: [db_init (file)] ("create a store"); the file
    holds nothing afterwards. *)
Definition db_init : dbM () := λ _, (Ok (), ∅).

(** Modelled from the spec: [db_delete (file)] ("delete a store"); nothing of
    the content is left. *)
Definition db_delete : dbM () := λ _, (Ok (), ∅).

(** Modelled from the spec: [db_exists (file, key)], whether the key is
    stored. *)
Definition db_exists (key : string) : dbM bool :=
  λ s, (Ok (bool_decide (is_Some (s !! key))), s).

(** Modelled from the spec: [db_set (file, key, val, len)] ("set a single
    key"); the key is inserted or overwritten. *)
Definition db_set (key : string) (val : option string) : dbM () :=
  λ s, (Ok (), <[key := val]> s).

(** Modelled from the spec: [db_del (file, key)] ("delete a single key");
    deleting an absent key does nothing and succeeds. *)
Definition db_del (key : string) : dbM () :=
  λ s, (Ok (), delete key s).

(** Modelled from the spec: [db_regexp (file, regexp, label, &pairs, 0)]
    ("enumerate keys by pattern"): the pairs whose key matches, in the order
    of their keys. *)
Definition db_regexp (regexp : string) : dbM (list db_pair) :=
  λ s, match regcomp regexp with
       | Some r =>
           (Ok (merge_sort pair_le
                  (filter (λ p, regexec r (fst p) = true) (map_to_list s))), s)
       | None => (Err (Callee "db_regexp"), s)
       end.

(** ** The handle and the database-file resolver *)

(** [struct kv_handle]; the magic number only serves the [assert] of the
    [handle] macro. *)
Record kv_handle := KvHandle {
  kh_dbdir : option string;
  kh_yangspec : option yang_spec
}.

(** [kv_db2file (kh, db, &filename)] *)
Definition kv_db2file (kh : kv_handle) (db : string) : result string :=
  match kh_dbdir kh with
  | None => Err (ClErr OE_XML "dbdir not set")
  | Some dir =>
      if negb (String.eqb db "running") && negb (String.eqb db "candidate")
         && negb (String.eqb db "startup") && negb (String.eqb db "tmp")
      then Err (ClErr OE_XML ("No such database: " +:+ db))
      else Ok (dir +:+ "/" +:+ db +:+ "_db")
  end.

(** ** The lock registry *)

(** The three static variables [_running_locked], [_candidate_locked] and
    [_startup_locked]: the session that holds the lock, [0] for none. *)
Record kv_locks := KvLocks {
  _running_locked : Z;
  _candidate_locked : Z;
  _startup_locked : Z
}.

(** The state of a fresh process. *)
Definition kv_locks_init : kv_locks := KvLocks 0 0 0.

(** [kv_lock (xh, db, pid)] *)
Definition kv_lock (db : string) (pid : Z) (l : kv_locks) : result () * kv_locks :=
  if String.eqb "running" db then
    (Ok (), KvLocks pid (_candidate_locked l) (_startup_locked l))
  else if String.eqb "candidate" db then
    (Ok (), KvLocks (_running_locked l) pid (_startup_locked l))
  else if String.eqb "startup" db then
    (Ok (), KvLocks (_running_locked l) (_candidate_locked l) pid)
  else (Err (ClErr OE_DB ("No such database: " +:+ db)), l).

(** [kv_unlock (xh, db)] *)
Definition kv_unlock (db : string) (l : kv_locks) : result () * kv_locks :=
  if String.eqb "running" db then
    (Ok (), KvLocks 0 (_candidate_locked l) (_startup_locked l))
  else if String.eqb "candidate" db then
    (Ok (), KvLocks (_running_locked l) 0 (_startup_locked l))
  else if String.eqb "startup" db then
    (Ok (), KvLocks (_running_locked l) (_candidate_locked l) 0)
  else (Err (ClErr OE_DB ("No such database: " +:+ db)), l).

(** [kv_unlock_all (xh, pid)]; it always returns [0]. *)
Definition kv_unlock_all (pid : Z) (l : kv_locks) : kv_locks :=
  let l1 := if decide (_running_locked l = pid)
            then KvLocks 0 (_candidate_locked l) (_startup_locked l) else l in
  let l2 := if decide (_candidate_locked l1 = pid)
            then KvLocks (_running_locked l1) 0 (_startup_locked l1) else l1 in
  if decide (_startup_locked l2 = pid)
  then KvLocks (_running_locked l2) (_candidate_locked l2) 0 else l2.

(** [kv_islocked (xh, db)]: the value returned, and the error logged when
    the name is none of the three ([retval] is then still [-1]). *)
Definition kv_islocked (db : string) (l : kv_locks) : Z * option clicon_error :=
  if String.eqb "running" db then (_running_locked l, None)
  else if String.eqb "candidate" db then (_candidate_locked l, None)
  else if String.eqb "startup" db then (_startup_locked l, None)
  else ((-1)%Z, Some (ClErr OE_DB ("No such database: " +:+ db))).

(** ** The write engine *)

Inductive operation_type :=
| OP_MERGE | OP_REPLACE | OP_CREATE | OP_DELETE | OP_REMOVE | OP_NONE.

#[global] Instance operation_type_eq_dec : EqDecision operation_type.
Proof. solve_decision. Defined.

(** Modelled from the spec: [xml_operation (opstr, &op)] of the clixon library
    reads the "operation" attribute, one of the six operation types. *)
Definition xml_operation (opstr : string) : result operation_type :=
  if String.eqb opstr "merge" then Ok OP_MERGE
  else if String.eqb opstr "replace" then Ok OP_REPLACE
  else if String.eqb opstr "create" then Ok OP_CREATE
  else if String.eqb opstr "delete" then Ok OP_DELETE
  else if String.eqb opstr "remove" then Ok OP_REMOVE
  else if String.eqb opstr "none" then Ok OP_NONE
  else Err (Callee "xml_operation").

(** Modelled from the spec: [yang_arg2cvec (ykey, " ")] of the clixon
    library, the "declared ordered key-field names": the argument of the
    [key] statement cut at the blanks. *)
Definition yang_arg2cvec (ykey : yang_stmt) (delim : ascii) : list string :=
  clicon_strsep (ys_argument ykey) delim.

(** Modelled from the spec: [ys->ys_cvec], the cache of the same vector
    that the schema loader fills for a list ("Use Y_LIST cache, see
    ys_populate_list()"); empty for a list without [key] statement. *)
Definition ys_cvec (ys : yang_stmt) : list string :=
  match yang_find ys Y_KEY with
  | Some ykey => yang_arg2cvec ykey " "
  | None => []
  end.

(** The loop of [append_listkeys] over the key names [cvk], from the [i]-th
    on: [ckey] grows by [=] or [,] and the encoded body of the key child. *)
Fixpoint append_listkeys_from (i : nat) (ckey : string) (xt : cxobj)
    (cvk : list string) : result string :=
  match cvk with
  | [] => Ok ckey
  | keyname :: cvk' =>
      xkey ← nonnull (xml_find xt keyname)
        (ClErr OE_XML ("XML list node " +:+ dquote +:+ x_name xt +:+ dquote
                       +:+ " does not have key " +:+ dquote +:+ keyname
                       +:+ dquote +:+ " child"));
      let bodyenc := uri_percent_encode (cstr (xml_body (snd xkey))) in
      let sep := match i with O => "=" | S _ => "," end in
      append_listkeys_from (S i) (ckey +:+ sep +:+ bodyenc) xt cvk'
  end.

(** [append_listkeys (ckey, xt, ys)] *)
Definition append_listkeys (ckey : string) (xt : cxobj) (ys : yang_stmt) : result string :=
  append_listkeys_from 0 ckey xt (ys_cvec ys).

(** The key of a node: [cprintf (cbxk, "%s/%s", xk0, xml_name (xt))] and the
    [switch (ys->ys_keyword)] that follows it in [put]. *)
Definition put_key (xt : cxobj) (ys : yang_stmt) (xk0 : string) : result string :=
  let cbxk := xk0 +:+ "/" +:+ x_name xt in
  match ys_keyword ys with
  | Y_LIST => append_listkeys cbxk xt ys
  | Y_LEAF_LIST => Ok (cbxk +:+ "=" +:+ uri_percent_encode (cstr (xml_body xt)))
  | _ => Ok cbxk
  end.

(** [for (i = 0; i < npairs; i++) db_del (dbfile, pairs[i].dp_key)] *)
Fixpoint db_del_pairs (pairs : list db_pair) : dbM () :=
  match pairs with
  | [] => mret ()
  | p :: pairs' => db_del (fst p);; db_del_pairs pairs'
  end.

(** The cases [OP_DELETE] (after its check) and [OP_REMOVE] of [put]; the
    result tells whether the recursion into the children is skipped. *)
Definition put_remove (ys : yang_stmt) (xk : string) : dbM bool :=
  match ys_keyword ys with
  | Y_LIST | Y_CONTAINER =>
      pairs ← db_regexp ("^" +:+ xk +:+ ".*$");
      db_del_pairs pairs;;
      mret true
  | _ => db_del xk;; mret false
  end.

(** The [switch (op)] of [put]: what is written for the node itself; the
    result tells whether the recursion into the children is skipped. *)
Definition put_write (ys : yang_stmt) (op : operation_type) (xk : string)
    (body : option string) : dbM bool :=
  match op with
  | OP_CREATE =>
      exists_ ← db_exists xk;
      if exists_ : bool then
        lift (Err (ClErr OE_DB ("OP_CREATE: " +:+ xk +:+ " already exists in database")))
      else db_set xk body;; mret false
  | OP_MERGE | OP_REPLACE => db_set xk body;; mret false
  | OP_DELETE =>
      exists_ ← db_exists xk;
      if exists_ : bool then put_remove ys xk
      else
        lift (Err (ClErr OE_DB ("OP_DELETE: " +:+ xk +:+ " does not exists in database")))
  | OP_REMOVE => put_remove ys xk
  | OP_NONE => mret false
  end.

(** The operation of a node: an "operation" attribute replaces the one
    handed down, for the node and for what is below it. *)
Definition put_op (xt : cxobj) (op : operation_type) : result operation_type :=
  match xml_find_value xt "operation" with
  | Some opstr => xml_operation opstr
  | None => Ok op
  end.

(** [put (dbfile, xt, ys, op, xk0)] *)
Fixpoint put (xt : cxobj) (ys : yang_stmt) (op : operation_type)
    (xk0 : string) {struct xt} : dbM () :=
  op ← lift (put_op xt op);
  xk ← lift (put_key xt ys xk0);
  skip ← put_write ys op xk (xml_body xt);
  if skip : bool then mret ()
  else
    (fix children (xs : list cxobj) : dbM () :=
       match xs with
       | [] => mret ()
       | x :: xs' =>
           match x_type x with
           | CX_ELMNT =>
               y ← lift (nonnull (yang_find_datanode ys (x_name x))
                           (ClErr OE_UNIX ("No yang node found: " +:+ x_name x)));
               put x y op xk;;
               children xs'
           | _ => children xs'
           end
       end) (x_childvec xt).

(** The loop of [kv_put] over the top-level elements. *)
Fixpoint kv_put_children (yspec : yang_spec) (op : operation_type)
    (xs : list cxobj) : dbM () :=
  match xs with
  | [] => mret ()
  | x :: xs' =>
      match x_type x with
      | CX_ELMNT =>
          ys ← lift (nonnull (yang_find_topnode yspec (x_name x))
                       (ClErr OE_UNIX ("No yang node found: " +:+ x_name x)));
          put x ys op "";;
          kv_put_children yspec op xs'
      | _ => kv_put_children yspec op xs'
      end
  end.

(** [kv_put (xh, db, op, xt)] *)
Definition kv_put (kh : kv_handle) (db : string) (op : operation_type)
    (xt : cxobj) : dbM () :=
  yspec ← lift (nonnull (kh_yangspec kh) (ClErr OE_YANG "No yang spec"));
  dbfilename ← lift (kv_db2file kh db);
  (if decide (op = OP_REPLACE) then db_delete;; db_init else mret ());;
  kv_put_children yspec op (x_childvec xt).

(** ** The read engine *)

(** [create_keyvalues (x, ykey, arg, keyname)]: a child called [keyname],
    created for the statement [ykey], with the body text [arg]. *)
Definition create_keyvalues (x : cxobj) (ykey : yang_stmt) (arg keyname : string) : cxobj :=
  xml_addsub x (xml_addsub (xml_new_spec keyname ykey) (xml_new_body arg)).

(** The first loop of the list case of [get] over the key names and the
    values: the conditions [[keyname='argdec']] printed after the name. *)
Fixpoint key_conditions (cvk valvec : list string) : list (string * string) :=
  match cvk, valvec with
  | keyname :: cvk', arg :: valvec' =>
      (keyname, uri_percent_decode arg) :: key_conditions cvk' valvec'
  | _, _ => []
  end.

(** The second loop: one key child for each key name and value. *)
Fixpoint create_keys (xc : cxobj) (ykey : yang_stmt) (cvk valvec : list string) : cxobj :=
  match cvk, valvec with
  | keyname :: cvk', arg :: valvec' =>
      create_keys (create_keyvalues xc ykey (uri_percent_decode arg) keyname)
        ykey cvk' valvec'
  | _, _ => xc
  end.

(** Modelled from the spec: one condition [[k='v']] of a path-query ("exact
    key-field match"): the node has a child element called [k] whose body
    text is [v]. *)
Definition xpath_condition (xc : cxobj) (cond : string * string) : Prop :=
  Exists (λ xk, x_type xk = CX_ELMNT ∧ x_name xk = fst cond
                ∧ xml_body xk = Some (snd cond)) (x_childvec xc).

(** Modelled from the spec: [xpath_first (x, "name[k1='v1'][k2='v2']")] of
    the clixon library, "a path-query selecting the existing instance by
    exact key-field match": the first child element called [name] that meets
    every condition. *)
Definition xpath_first (x : cxobj) (name : string)
    (conds : list (string * string)) : option (nat * cxobj) :=
  list_find (λ xc, x_type xc = CX_ELMNT ∧ x_name xc = name
                   ∧ Forall (xpath_condition xc) conds) (x_childvec x).

(** [x = xc; i++] and the rest of the loop, seen from the parent: the
    child the cursor moves to is either the [j]-th child of [x] or a node
    just linked to [x] as its last child; what the rest of [get] does below
    it happens in place. *)
Definition get_descend (x : cxobj) (found : option (nat * cxobj)) (xnew : cxobj)
    (rest : cxobj → result cxobj) : result cxobj :=
  match found with
  | Some (j, xc) => xc' ← rest xc; Ok (xml_child_set x j xc')
  | None => xc' ← rest xnew; Ok (xml_addsub x xc')
  end.

(** The [while (i < nvec)] loop of [get] and the lines after it. [vec] holds
    the elements from the [i]-th on; [y] is the statement of the previous
    element, [None] for [i == 1]; [x] is the cursor.

    The list case calls [uri_percent_decode (arg, &argdec)], twice: the
    encoded text first, then the place for the decoded text. The leaf-list
    case calls [uri_percent_decode (&argdec, restval)], the two the other way
    round: the address of [argdec] is handed over as the encoded text and the
    text [restval] as the place to store a pointer. The call does not set
    [argdec], which is declared without a value, is read by
    [xml_find (xc, argdec)] and is handed to [free]. C defines no behaviour
    for this, and the leaf-list case is [Undefined]. With no [=] in the
    element of a list, [restval] is [NULL]: [clicon_strsep], which receives
    it, fails. *)
Fixpoint get_vec (ys : yang_spec) (val : option string) (y : option yang_stmt)
    (vec : list string) (x : cxobj) {struct vec} : result cxobj :=
  match vec with
  | [] =>
      match val, xml_body x with
      | Some v, None => Ok (xml_addsub x (xml_new_body v))
      | _, _ => Ok x
      end
  | elem :: vec' =>
      let '(name, restval) := index_split "=" elem in
      y ← nonnull (match y with
                   | None => yang_find_topnode ys name
                   | Some y => yang_find_datanode y name
                   end)
            (ClErr OE_UNIX ("No yang node found: " +:+ name));
      match ys_keyword y with
      | Y_LEAF_LIST => Err (Undefined "uri_percent_decode")
      | Y_LIST =>
          ykey ← nonnull (yang_find y Y_KEY)
            (ClErr OE_XML ("get: List statement " +:+ dquote +:+ ys_argument y
                           +:+ dquote +:+ " has no key"));
          let cvk := yang_arg2cvec ykey " " in
          valvec ← nonnull ((λ r, clicon_strsep r ",") <$> restval) (Callee "clicon_strsep");
          if negb (List.length cvk =? List.length valvec)%nat then Ok x
          else
            get_descend x (xpath_first x name (key_conditions cvk valvec))
              (create_keys (xml_new_spec name y) ykey cvk valvec)
              (get_vec ys val (Some y) vec')
      | _ =>
          get_descend x (xml_find x name) (xml_new_spec name y)
            (get_vec ys val (Some y) vec')
      end
  end.

(** [get (dbname, ys, xk, val, xt)] *)
Definition get (ys : yang_spec) (xk : string) (val : option string)
    (xt : cxobj) : result cxobj :=
  if bool_decide (String.get 0 xk = Some "/"%char) then
    let vec := clicon_strsep xk "/" in
    if (List.length vec <? 2)%nat then Err (ClErr OE_XML ("Malformed key: " +:+ xk))
    else get_vec ys val None (tail vec) xt
  else Err (ClErr OE_DB ("Invalid key: " +:+ xk)).

(** Modelled from the spec: one step of "inject schema-declared default
    values for any optional field left unset": a leaf [y] with a [default]
    statement and no child of its name in [x] gets one. *)
Definition xml_default_leaf (x : cxobj) (y : yang_stmt) : cxobj :=
  match ys_keyword y, yang_find y Y_DEFAULT, xml_find x (ys_argument y) with
  | Y_LEAF, Some d, None =>
      xml_addsub x (xml_addsub (xml_new_spec (ys_argument y) y)
                      (xml_new_body (ys_argument d)))
  | _, _, _ => x
  end.

(** Modelled from the spec: [xml_default (x, arg)] of the clixon library,
    "inject schema-declared default values for any optional field left
    unset": under a container or a list, in the order of the schema. *)
Definition xml_default (x : cxobj) : cxobj :=
  match x_spec x with
  | Some ys =>
      match ys_keyword ys with
      | Y_CONTAINER | Y_LIST => foldl xml_default_leaf x (ys_stmt ys)
      | _ => x
      end
  | None => x
  end.

(** Modelled from the spec: a child element called [n]. *)
Definition xml_is_named (n : string) (c : cxobj) : Prop :=
  x_type c = CX_ELMNT ∧ x_name c = n.

(** Modelled from the spec: the children in "schema declaration order": the
    elements called as the first name come first, then those of the second,
    and so on; within a name, and among the children no name calls, the order
    stays. *)
Fixpoint order_by (names : list string) (cs : list cxobj) : list cxobj :=
  match names with
  | [] => cs
  | n :: names' =>
      filter (xml_is_named n) cs
        ++ order_by names' (filter (λ c, ¬ xml_is_named n c) cs)
  end.

(** Modelled from the spec: [xml_order (x, arg)] of the clixon library,
    "reorder each node's children to match schema declaration order". *)
Definition xml_order (x : cxobj) : cxobj :=
  Cxobj (x_name x) (x_type x) (x_value x) (x_spec x)
    match x_spec x with
    | Some ys =>
        order_by (ys_argument <$> filter (λ y, yang_datanode y = true) (ys_stmt ys))
          (x_childvec x)
    | None => x_childvec x
    end.

(** Modelled from the spec: [xml_apply (xt, CX_ELMNT, fn, arg)] of the clixon
    library, [fn] on every element below [xt], the root apart. [fn] is
    applied to a node after the nodes below it; for a function that only adds
    to the children of its node or reorders them, as the two applied in
    [kv_get], it makes no difference whether it comes before or after. *)
Fixpoint xml_apply_elmnt (fn : cxobj → cxobj) (x : cxobj) : cxobj :=
  fn (Cxobj (x_name x) (x_type x) (x_value x) (x_spec x)
        ((λ c, match x_type c with CX_ELMNT => xml_apply_elmnt fn c | _ => c end)
           <$> x_childvec x)).

Definition xml_apply (fn : cxobj → cxobj) (xt : cxobj) : cxobj :=
  Cxobj (x_name xt) (x_type xt) (x_value xt) (x_spec xt)
    ((λ c, match x_type c with CX_ELMNT => xml_apply_elmnt fn c | _ => c end)
       <$> x_childvec xt).

(** The loop of [kv_get] over the pairs of the scan. *)
Fixpoint kv_get_pairs (yspec : yang_spec) (pairs : list db_pair)
    (xt : cxobj) : result cxobj :=
  match pairs with
  | [] => Ok xt
  | p :: pairs' =>
      xt' ← get yspec (fst p) (snd p) xt;
      kv_get_pairs yspec pairs' xt'
  end.

(** [kv_get (xh, db, xpath, config, &xtop)] for the unrestricted query path,
    [xpath] being [NULL] or ["/"]. The calls into the clixon library after
    the loop are taken from the spec: with that path [xpath_vec] selects the
    root alone, so the root is marked, nothing is pruned, and the marks are
    cleared again; the "structural sanity pass" [xml_sanity] "must not fail"
    on the trees built here and is taken to pass. *)
Definition kv_get (kh : kv_handle) (db : string) : dbM cxobj :=
  dbfile ← lift (kv_db2file kh db);
  yspec ← lift (nonnull (kh_yangspec kh) (ClErr OE_YANG "No yang spec"));
  pairs ← db_regexp "";
  xt ← lift (kv_get_pairs yspec pairs (xml_new_spec "config" yspec));
  mret (xml_apply xml_order (xml_apply xml_default xt)).

(** * The vocabulary of the properties *)

(** Closing a decidable goal about concrete data by evaluation. *)
Ltac by_compute := apply (bool_decide_unpack _); vm_compute; exact I.

(** The cases of [kv_unlock_all] on the three owners. *)
Ltac unlock_all_cases :=
  unfold kv_unlock_all; cbn [_running_locked _candidate_locked _startup_locked];
  repeat (case_decide; cbn [_running_locked _candidate_locked _startup_locked] in *);
  first [reflexivity | congruence].

(** ** Database names *)

(** The names [kv_db2file] accepts. *)
Definition db_names : list string := ["running"; "candidate"; "startup"; "tmp"].

(** The names that have a lock. *)
Definition lockable : list string := ["running"; "candidate"; "startup"].

(** The resolution as the specification words it: an unknown name gives the
    unknown-database error, an unset directory the directory error, and
    anything else the path. *)
Definition resolve_as_specified (kh : kv_handle) (db : string) : Prop :=
  (db ∉ db_names →
     kv_db2file kh db = Err (ClErr OE_XML ("No such database: " +:+ db)))
  ∧ (kh_dbdir kh = None →
     kv_db2file kh db = Err (ClErr OE_XML "dbdir not set"))
  ∧ (db ∈ db_names → ∀ dir, kh_dbdir kh = Some dir →
     kv_db2file kh db = Ok (dir +:+ "/" +:+ db +:+ "_db")).

(** ** The write engine, step by step *)

(** The [while] loop at the end of [put] over the children [xs] of a node
    whose statement is [ys], operation [op] and key [xk]. *)
Fixpoint put_children (ys : yang_stmt) (op : operation_type) (xk : string)
    (xs : list cxobj) : dbM () :=
  match xs with
  | [] => mret ()
  | x :: xs' =>
      match x_type x with
      | CX_ELMNT =>
          y ← lift (nonnull (yang_find_datanode ys (x_name x))
                      (ClErr OE_UNIX ("No yang node found: " +:+ x_name x)));
          put x y op xk;;
          put_children ys op xk xs'
      | _ => put_children ys op xk xs'
      end
  end.

(** [put] on a database [s], one step after the other. *)
Definition put_steps (xt : cxobj) (ys : yang_stmt) (op : operation_type)
    (xk0 : string) (s : kvstore) : result () * kvstore :=
  match put_op xt op with
  | Err e => (Err e, s)
  | Ok op' =>
      match put_key xt ys xk0 with
      | Err e => (Err e, s)
      | Ok xk =>
          match put_write ys op' xk (xml_body xt) s with
          | (Err e, s') => (Err e, s')
          | (Ok true, s') => (Ok (), s')
          | (Ok false, s') => put_children ys op' xk (x_childvec xt) s'
          end
      end
  end.

(** The errors of the two existence checks of [put]. *)
Definition already_exists (xk : string) : clicon_error :=
  ClErr OE_DB ("OP_CREATE: " +:+ xk +:+ " already exists in database").

Definition does_not_exist (xk : string) : clicon_error :=
  ClErr OE_DB ("OP_DELETE: " +:+ xk +:+ " does not exists in database").

(** ** A schema and trees for the examples *)

(** An element with children, a leaf with body text, an attribute. *)
Definition xml_elem (name : string) (xs : list cxobj) : cxobj :=
  Cxobj name CX_ELMNT None None xs.

Definition xml_leaf (name body : string) : cxobj :=
  xml_elem name [xml_new_body body].

Definition xml_attr (name value : string) : cxobj :=
  Cxobj name CX_ATTR (Some value) None [].

(** A container [system] with the leaves [host] and [hostname] and a list
    [server] keyed by [name]; a list [interface] keyed by [name] whose leaf
    [mtu] has a default; a leaf-list [tag]. *)
Definition ex_server : yang_stmt :=
  YangStmt Y_LIST "server"
    [YangStmt Y_KEY "name" []; YangStmt Y_LEAF "name" []; YangStmt Y_LEAF "port" []].

Definition ex_system : yang_stmt :=
  YangStmt Y_CONTAINER "system"
    [YangStmt Y_LEAF "host" []; YangStmt Y_LEAF "hostname" []; ex_server].

Definition ex_interface : yang_stmt :=
  YangStmt Y_LIST "interface"
    [YangStmt Y_KEY "name" []; YangStmt Y_LEAF "name" [];
     YangStmt Y_LEAF "mtu" [YangStmt Y_DEFAULT "1500" []]].

Definition ex_tag : yang_stmt := YangStmt Y_LEAF_LIST "tag" [].

Definition ex_yspec : yang_spec :=
  YangStmt Y_SPEC "" [YangStmt Y_MODULE "example" [ex_system; ex_interface; ex_tag]].

Definition ex_kh : kv_handle := KvHandle (Some "/var/db") (Some ex_yspec).

(** ** Keys and patterns *)

(** A text without pattern operators: in a pattern, each of its characters
    stands for itself, except [.], which stands for any character. *)
Definition rx_literal (s : string) : bool :=
  forallb (λ c, negb (rx_operator c)) (list_ascii_of_string s).

(** [p] matches the beginning of [k], a [.] in [p] matching any character. *)
Fixpoint wild_prefix (p k : list ascii) : bool :=
  match p, k with
  | [], _ => true
  | _ :: _, [] => false
  | c :: p', d :: k' => rx_atom_match (rx_atom_of c) d && wild_prefix p' k'
  end.

(** The keys that the pattern [^xk.*$] selects. *)
Definition key_selected (xk k : string) : bool :=
  wild_prefix (list_ascii_of_string xk) (list_ascii_of_string k).

(** A name made of unreserved characters only, as every YANG identifier
    (letters, digits, [_], [-], [.]) is. *)
Definition plain_name (s : string) : bool :=
  forallb uri_unreserved (list_ascii_of_string s).

(** ** Removal, as the specification words it *)

(** Under [OP_REMOVE], whatever the kind of the node, every stored key that
    begins with the key of the node is deleted. *)
Definition remove_as_specified (xt : cxobj) (ys : yang_stmt) (op : operation_type)
    (xk0 : string) (s : kvstore) : Prop :=
  put_op xt op = Ok OP_REMOVE →
  ∀ xk, put_key xt ys xk0 = Ok xk →
  ∀ k, String.prefix xk k = true → snd (put xt ys op xk0 s) !! k = None.

(** A database with two leaves of [system], [host] and [hostname]. *)
Definition ex_hosts_db : kvstore :=
  <["/system/host" := Some "a"]> (<["/system/hostname" := Some "b"]> ∅).

(** Two interfaces, [eth0.1] and [eth001], as [kv_put] writes them. *)
Definition ex_two_interfaces : cxobj :=
  xml_elem "config"
    [xml_elem "interface" [xml_leaf "name" "eth0.1"; xml_leaf "mtu" "1400"];
     xml_elem "interface" [xml_leaf "name" "eth001"; xml_leaf "mtu" "9000"]].

Definition ex_interfaces_db : kvstore :=
  snd (kv_put ex_kh "running" OP_MERGE ex_two_interfaces ∅).

(** The request to remove the interface [eth0.1]. *)
Definition ex_remove_interface : cxobj :=
  xml_elem "config" [xml_elem "interface" [xml_leaf "name" "eth0.1"]].

(** ** The entries encoded from a tree *)

(** The elements among [xs], in order, each with what [f] gives for it. *)
Definition entries_of_children (f : cxobj → result (list db_pair)) :
    list cxobj → result (list db_pair) :=
  fix go (xs : list cxobj) : result (list db_pair) :=
    match xs with
    | [] => Ok []
    | x :: xs' =>
        match x_type x with
        | CX_ELMNT => es ← f x; es' ← go xs'; Ok (es ++ es')
        | _ => go xs'
        end
    end.

(** The store entries of a node and of what is below it: for each element,
    its key and its body, the node before its children. *)
Fixpoint put_entries (xt : cxobj) (ys : yang_stmt) (xk0 : string)
    {struct xt} : result (list db_pair) :=
  xk ← put_key xt ys xk0;
  rest ← entries_of_children
    (λ x, y ← nonnull (yang_find_datanode ys (x_name x))
                (ClErr OE_UNIX ("No yang node found: " +:+ x_name x));
          put_entries x y xk)
    (x_childvec xt);
  Ok ((xk, xml_body xt) :: rest).

(** The entries encoded from the tree handed to [kv_put]. *)
Definition kv_entries (yspec : yang_spec) (xt : cxobj) : result (list db_pair) :=
  entries_of_children
    (λ x, ys ← nonnull (yang_find_topnode yspec (x_name x))
                 (ClErr OE_UNIX ("No yang node found: " +:+ x_name x));
          put_entries x ys "")
    (x_childvec xt).

(** Writing the entries one after the other. *)
Definition db_set_entries (es : list db_pair) (s : kvstore) : kvstore :=
  foldl (λ m p, <[fst p := snd p]> m) s es.

(** [f] holds of every element among [xs]. *)
Definition elements_all (f : cxobj → bool) (xs : list cxobj) : bool :=
  forallb (λ c, match x_type c with CX_ELMNT => f c | _ => true end) xs.

(** No "operation" attribute of the node or below it selects anything but
    create, merge or replace. *)
Fixpoint writes_only (x : cxobj) : bool :=
  match xml_find_value x "operation" with
  | Some opstr => bool_decide (opstr ∈ ["create"; "merge"; "replace"])
  | None => true
  end && elements_all writes_only (x_childvec x).

(** [OP_REPLACE], as the specification words it: after a successful
    [kv_put], the keys of the database are those of the entries encoded from
    the tree. *)
Definition replace_as_specified (kh : kv_handle) (db : string) (xt : cxobj)
    (s : kvstore) : Prop :=
  ∀ s', kv_put kh db OP_REPLACE xt s = (Ok (), s') →
  ∃ yspec es, kh_yangspec kh = Some yspec ∧ kv_entries yspec xt = Ok es
              ∧ ∀ k, is_Some (s' !! k) ↔ k ∈ es.*1.

(** A tree whose leaf [host] carries the attribute [operation="remove"]. *)
Definition ex_host_removed : cxobj :=
  xml_elem "config"
    [xml_elem "system"
       [xml_elem "host" [xml_attr "operation" "remove"; xml_new_body "a"]]].

(** What [put] does to a tree without deleting operations: the entries of
    the tree are written, one after the other. *)
Definition put_writes (x : cxobj) : Prop :=
  ∀ ys op xk0 s s',
    op ∈ [OP_CREATE; OP_MERGE; OP_REPLACE] → writes_only x = true →
    put x ys op xk0 s = (Ok (), s') →
    ∃ es, put_entries x ys xk0 = Ok es ∧ s' = db_set_entries es s.

(** ** The keys of the database, seen from the schema *)

(** What the schema says of a stored key, element by element: it decodes; or
    it is given up at a list element whose number of values is not the
    number of key names of the list, the elements before it ([earlier], by
    name) having been resolved; or it fails with an error; or it has an
    element of a leaf-list, at which the behaviour of [get] is not
    defined. *)
Inductive key_status :=
| KeyDecodes
| KeySkipped (earlier : list string)
| KeyFails (e : clicon_error)
| KeyUndefined.

Definition status_below (name : string) (st : key_status) : key_status :=
  match st with
  | KeySkipped earlier => KeySkipped (name :: earlier)
  | _ => st
  end.

Fixpoint vec_status (ys : yang_spec) (y : option yang_stmt)
    (vec : list string) : key_status :=
  match vec with
  | [] => KeyDecodes
  | elem :: vec' =>
      let '(name, restval) := index_split "=" elem in
      match match y with
            | None => yang_find_topnode ys name
            | Some y => yang_find_datanode y name
            end with
      | None => KeyFails (ClErr OE_UNIX ("No yang node found: " +:+ name))
      | Some y' =>
          let below := status_below name (vec_status ys (Some y') vec') in
          match ys_keyword y' with
          | Y_LEAF_LIST => KeyUndefined
          | Y_LIST =>
              match yang_find y' Y_KEY, restval with
              | None, _ =>
                  KeyFails (ClErr OE_XML ("get: List statement " +:+ dquote
                                          +:+ ys_argument y' +:+ dquote
                                          +:+ " has no key"))
              | Some _, None => KeyFails (Callee "clicon_strsep")
              | Some ykey, Some r =>
                  if (List.length (yang_arg2cvec ykey " ")
                      =? List.length (clicon_strsep r ","))%nat
                  then below else KeySkipped []
              end
          | _ => below
          end
      end
  end.

Definition xk_status (ys : yang_spec) (xk : string) : key_status :=
  if bool_decide (String.get 0 xk = Some "/"%char)
  then vec_status ys None (tail (clicon_strsep xk "/"))
  else KeyFails (ClErr OE_DB ("Invalid key: " +:+ xk)).

Definition key_fails (st : key_status) : Prop :=
  match st with
  | KeyFails _ => True
  | _ => False
  end.

#[global] Instance key_fails_dec st : Decision (key_fails st).
Proof. destruct st; apply _. Defined.

(** The key is read: it decodes or it is given up. *)
Definition key_read (st : key_status) : Prop :=
  match st with
  | KeyDecodes | KeySkipped _ => True
  | _ => False
  end.

#[global] Instance key_read_dec st : Decision (key_read st).
Proof. destruct st; apply _. Defined.

(** The tree has a child called as the first name, which has a child called
    as the second, and so on. *)
Fixpoint has_chain (names : list string) (x : cxobj) : Prop :=
  match names with
  | [] => True
  | n :: names' => Exists (λ c, x_name c = n ∧ has_chain names' c) (x_childvec x)
  end.

#[global] Instance has_chain_dec names : ∀ x, Decision (has_chain names x).
Proof. induction names as [|n names IH]; intros x; cbn; apply _. Defined.

(** A database with one key of the list [server], which has one key name,
    that carries two values. *)
Definition ex_two_values_db : kvstore := {["/system/server=a,b" := None]}.

(** A database with one key that names no node of the schema. *)
Definition ex_unknown_db : kvstore := {["/system/nosuch" := Some "1"]}.

(** Where the cursor of [get] may move from [x] for the element [name]: to a
    child of [x] of that name. *)
Definition found_child (x : cxobj) (name : string)
    (found : option (nat * cxobj)) : Prop :=
  ∀ j xc, found = Some (j, xc) → x_childvec x !! j = Some xc ∧ x_name xc = name.

(** A function on nodes that keeps the name of its node and each of its
    children, as [xml_default] and [xml_order] do. *)
Definition keeps_children (fn : cxobj → cxobj) : Prop :=
  ∀ x, x_name (fn x) = x_name x ∧ ∀ c, c ∈ x_childvec x → c ∈ x_childvec (fn x).

(** [x'] is [x] with more below it: the same name, and every chain of [x]. *)
Definition xml_grows (x x' : cxobj) : Prop :=
  x_name x' = x_name x ∧ ∀ names, has_chain names x → has_chain names x'.

(** ** Reading back what was written *)

(** A tree without the schema pointers, to compare what was read with what
    was written. *)
Fixpoint xml_strip (x : cxobj) : cxobj :=
  Cxobj (x_name x) (x_type x) (x_value x) None (xml_strip <$> x_childvec x).

(** Two instances of the leaf-list [tag], with the values [a] and [body]. *)
Definition ex_two_tags : cxobj :=
  xml_elem "config" [xml_leaf "tag" "a"; xml_leaf "tag" "body"].

(** The database after the two instances have been written. *)
Definition ex_tags_db : kvstore :=
  <["/tag=a" := Some "a"]> (<["/tag=body" := Some "body"]> ∅).

(** ** Connecting, and the options of a handle *)

(** [kv_connect ()]: the handle is zeroed by [memset] before the magic number
    is set, so neither the directory nor the schema is set. *)
Definition kv_connect : kv_handle := KvHandle None None.

(** The value of an option, a [void *] whose type "is given by context": the
    schema for ["yangspec"], a string for ["dbdir"]; [None] is [NULL]. For
    any other name the pointer is not looked at. *)
Definition kv_optval_of (is_yangspec : bool) : Type :=
  if is_yangspec then option yang_spec else option string.

Definition kv_optval (optname : string) : Type :=
  kv_optval_of (String.eqb optname "yangspec").

Definition not_implemented (optname : string) : clicon_error :=
  ClErr OE_PLUGIN ("Option " +:+ optname +:+ " not implemented by plugin").

(** [kv_getopt (xh, optname, &value)] *)
Definition kv_getopt (kh : kv_handle) (optname : string) : result (kv_optval optname) :=
  match String.eqb optname "yangspec" as b
    return result (kv_optval_of b) with
  | true => Ok (kh_yangspec kh)
  | false =>
      if String.eqb optname "dbdir" then Ok (kh_dbdir kh)
      else Err (not_implemented optname)
  end.

(** [kv_setopt (xh, optname, value)]: for ["dbdir"], [strdup] is called, and
    the field assigned, only when [value] is not [NULL]. *)
Definition kv_setopt (kh : kv_handle) (optname : string) :
    kv_optval optname → result () * kv_handle :=
  match String.eqb optname "yangspec" as b
    return kv_optval_of b → result () * kv_handle with
  | true => λ value : option yang_spec, (Ok (), KvHandle (kh_dbdir kh) value)
  | false => λ value : option string,
      if String.eqb optname "dbdir" then
        match value with
        | Some dir => (Ok (), KvHandle (Some dir) (kh_yangspec kh))
        | None => (Ok (), kh)
        end
      else (Err (not_implemented optname), kh)
  end.

(** ** What a write may touch *)

(** [s'] holds a value at every key at which [s] holds one, and holds what
    [s] holds at every key that does not begin with [base]. *)
Definition written_under (base : string) (s s' : kvstore) : Prop :=
  ∀ k, (is_Some (s !! k) → is_Some (s' !! k))
       ∧ (String.prefix base k = false → s' !! k = s !! k).

(** A tree whose element [nosuch], below [system], has no statement in the
    schema of the examples. *)
Definition ex_unknown_child : cxobj :=
  xml_elem "system" [xml_leaf "host" "a"; xml_leaf "nosuch" "1"; xml_leaf "hostname" "b"].

(** No "operation" attribute of the node or below it selects anything but
    delete, remove or none. *)
Fixpoint removes_only (x : cxobj) : bool :=
  match xml_find_value x "operation" with
  | Some opstr => bool_decide (opstr ∈ ["delete"; "remove"; "none"])
  | None => true
  end && elements_all removes_only (x_childvec x).

(** The request to delete the leaf [host] of [system]. *)
Definition ex_delete_host : cxobj :=
  xml_elem "system"
    [xml_attr "operation" "none";
     xml_elem "host" [xml_attr "operation" "delete"; xml_new_body "a"]].

(** ** The key of a list entry, written and read *)

(** The character [c] does not occur in [s]. *)
Definition lacks (c : ascii) (s : string) : bool :=
  forallb (λ a, negb (bool_decide (a = c))) (list_ascii_of_string s).

(** The texts [append_listkeys] encodes for the element [xt]: for each key
    name, the body text of the child of that name, as [%s] prints it. *)
Definition key_values (xt : cxobj) (cvk : list string) : list string :=
  (λ keyname, cstr (xml_find xt keyname ≫= λ p, xml_body (snd p))) <$> cvk.

(** What [append_listkeys] appends for the encoded values [encs], the first
    of them being the [i]-th of the key. *)
Fixpoint key_text (i : nat) (encs : list string) : string :=
  match encs with
  | [] => ""
  | enc :: encs' =>
      match i with O => "=" | S _ => "," end +:+ enc +:+ key_text (S i) encs'
  end.

(** An entry of the list [y] with nothing but its keys: one child for each
    key name, made for the statement [ykey], with the value as body text. *)
Definition list_instance (name : string) (y ykey : yang_stmt)
    (cvk vals : list string) : cxobj :=
  Cxobj name CX_ELMNT None (Some y)
    (zip_with (λ keyname v, Cxobj keyname CX_ELMNT None (Some ykey) [xml_new_body v])
       cvk vals).

(** An interface whose name holds a slash and a comma. *)
Definition ex_interface_entry : cxobj :=
  xml_elem "interface" [xml_leaf "name" "eth0/1,2"; xml_leaf "mtu" "1400"].

(** No "operation" attribute of the node or below it selects anything but
    merge or replace. *)
Fixpoint upserts_only (x : cxobj) : bool :=
  match xml_find_value x "operation" with
  | Some opstr => bool_decide (opstr ∈ ["merge"; "replace"])
  | None => true
  end && elements_all upserts_only (x_childvec x).

(** What [put] does under merge or replace on such a tree, to any database:
    the same result, and the same entries written. *)
Definition put_upserts (x : cxobj) : Prop :=
  ∀ ys op xk0,
    op ∈ [OP_MERGE; OP_REPLACE] → upserts_only x = true →
    ∃ r es, ∀ s, put x ys op xk0 s = (r, db_set_entries es s).

(** ** The database files of a directory *)

(** The store files of the directory, each with what it holds, by path. The
    database that [kv_get] and [kv_put] read and write is the content of the
    file that the database name resolves to. *)
Abbreviation kvfiles := (gmap string kvstore).

(** Modelled from the spec: [lstat (filename, &sb)] ("check presence"); it
    fails when there is no file of that name. *)
Definition lstat (filename : string) (fs : kvfiles) : bool :=
  bool_decide (is_Some (fs !! filename)).

(** Modelled from the spec: [db_init (filename)], seen from the directory
    ("initialize an empty store"): the file is there afterwards and holds
    what [db_init] leaves in it. *)
Definition db_init_file (filename : string) (fs : kvfiles) : result () * kvfiles :=
  let '(r, s) := db_init (default ∅ (fs !! filename)) in
  (r, <[filename := s]> fs).

(** Modelled from the spec: [db_delete (filename)], seen from the directory
    ("destroy the store"): no file of that name is left. The spec does not
    say what the call returns when there was none; it is taken to succeed. *)
Definition db_delete_file (filename : string) (fs : kvfiles) : result () * kvfiles :=
  (Ok (), delete filename fs).

(** Modelled from the spec: [clicon_file_copy (src, target)] ("byte-copy the
    underlying store file"): the target holds afterwards what the source
    holds; without a source file the copy fails. *)
Definition clicon_file_copy (src target : string) (fs : kvfiles) :
    result () * kvfiles :=
  match fs !! src with
  | Some s => (Ok (), <[target := s]> fs)
  | None => (Err (Callee "clicon_file_copy"), fs)
  end.

(** [kv_exists (xh, db)]: [1] when the file is there, [0] when it is not. *)
Definition kv_exists (kh : kv_handle) (db : string) (fs : kvfiles) : result Z :=
  filename ← kv_db2file kh db;
  Ok (if lstat filename fs then 1%Z else 0%Z).

(** [kv_delete (xh, db)] *)
Definition kv_delete (kh : kv_handle) (db : string) (fs : kvfiles) :
    result () * kvfiles :=
  match kv_db2file kh db with
  | Ok filename => db_delete_file filename fs
  | Err e => (Err e, fs)
  end.

(** [kv_create (xh, db)] *)
Definition kv_create (kh : kv_handle) (db : string) (fs : kvfiles) :
    result () * kvfiles :=
  match kv_db2file kh db with
  | Ok filename => db_init_file filename fs
  | Err e => (Err e, fs)
  end.

(** [kv_copy (xh, from, to)] *)
Definition kv_copy (kh : kv_handle) (from to : string) (fs : kvfiles) :
    result () * kvfiles :=
  match kv_db2file kh from with
  | Ok fromfile =>
      match kv_db2file kh to with
      | Ok tofile => clicon_file_copy fromfile tofile fs
      | Err e => (Err e, fs)
      end
  | Err e => (Err e, fs)
  end.

(** A directory with the running database of the examples and nothing
    else. *)
Definition ex_files : kvfiles := {["/var/db/running_db" := ex_interfaces_db]}.

(** ** Trees with plain names, and trees by the operations they select *)

(** Every element of the tree has a plain name. *)
Fixpoint names_plain (x : cxobj) : bool :=
  plain_name (x_name x) && elements_all names_plain (x_childvec x).

(** No "operation" attribute of the node or below it has one of the values
    [bad]. *)
Fixpoint attrs_avoid (bad : list string) (x : cxobj) : bool :=
  match xml_find_value x "operation" with
  | Some opstr => bool_decide (opstr ∉ bad)
  | None => true
  end && elements_all (attrs_avoid bad) (x_childvec x).

(** A tree below [system] whose second child asks for the deletion of an
    entry. *)
Definition ex_delete_below : cxobj :=
  xml_elem "system"
    [xml_leaf "host" "a";
     xml_elem "hostname" [xml_attr "operation" "delete"; xml_new_body "b"]].

(** The body texts of the key children of [xt], [None] for a key child
    without body text or for none of that name. *)
Definition key_bodies (xt : cxobj) (cvk : list string) : list (option string) :=
  (λ keyname, xml_find xt keyname ≫= λ p, xml_body (snd p)) <$> cvk.

(** The interface of [ex_interface_entry] with another [mtu]. *)
Definition ex_interface_entry2 : cxobj :=
  xml_elem "interface" [xml_leaf "name" "eth0/1,2"; xml_leaf "mtu" "9000"].

(** An interface whose [mtu] carries the attribute [operation="none"]. *)
Definition ex_interface_quiet : cxobj :=
  xml_elem "interface"
    [xml_leaf "name" "eth1";
     xml_elem "mtu" [xml_attr "operation" "none"; xml_new_body "1400"]].

(** * Properties *)

(** ** The database-file resolver *)

Lemma eqb_decide (a b : string) : String.eqb a b = bool_decide (a = b).
Proof.
  destruct (String.eqb_spec a b); symmetry;
    [by apply bool_decide_eq_true | by apply bool_decide_eq_false].
Qed.

Lemma db_names_eqb db :
  negb (String.eqb db "running") && negb (String.eqb db "candidate")
  && negb (String.eqb db "startup") && negb (String.eqb db "tmp")
  = bool_decide (db ∉ db_names).
Proof.
  rewrite !eqb_decide. unfold db_names.
  destruct (decide (db = "running")) as [->|?]; [reflexivity|].
  destruct (decide (db = "candidate")) as [->|?]; [reflexivity|].
  destruct (decide (db = "startup")) as [->|?]; [reflexivity|].
  destruct (decide (db = "tmp")) as [->|?]; [reflexivity|].
  rewrite !bool_decide_eq_false_2 by done. simpl. symmetry.
  apply bool_decide_eq_true_2. rewrite !not_elem_of_cons.
  split_and!; try done. apply not_elem_of_nil.
Qed.

(** C7, as stated, fails: with no directory set and an unknown name, the
    directory error is reported, not the unknown-database error. *)
Lemma kv_db2file_unknown_name_without_dbdir :
  ¬ resolve_as_specified (KvHandle None None) "result".
Proof.
  intros [Hname _].
  assert (Hnot : "result" ∉ db_names) by by_compute.
  specialize (Hname Hnot). discriminate Hname.
Qed.

(** C7, amended: the directory is looked at first. With no directory set the
    resolution fails with the directory error, whatever the name; with a
    directory, an unknown name fails with the unknown-database error and one
    of the four names gives the path [<dir>/<name>_db]. *)
Theorem kv_db2file_resolves (kh : kv_handle) (db : string) :
  (kh_dbdir kh = None →
     kv_db2file kh db = Err (ClErr OE_XML "dbdir not set"))
  ∧ (∀ dir, kh_dbdir kh = Some dir → db ∉ db_names →
     kv_db2file kh db = Err (ClErr OE_XML ("No such database: " +:+ db)))
  ∧ (∀ dir, kh_dbdir kh = Some dir → db ∈ db_names →
     kv_db2file kh db = Ok (dir +:+ "/" +:+ db +:+ "_db")).
Proof.
  unfold kv_db2file. split_and!.
  - by intros ->.
  - intros dir -> Hdb. rewrite db_names_eqb. by rewrite bool_decide_eq_true_2.
  - intros dir -> Hdb. rewrite db_names_eqb. by rewrite bool_decide_eq_false_2; [|tauto].
Qed.

Lemma kv_db2file_resolves_witness :
  kv_db2file (KvHandle None None) "running" = Err (ClErr OE_XML "dbdir not set")
  ∧ kv_db2file (KvHandle (Some "/var/db") None) "result"
    = Err (ClErr OE_XML "No such database: result")
  ∧ kv_db2file (KvHandle (Some "/var/db") None) "candidate"
    = Ok "/var/db/candidate_db".
Proof.
  split_and!.
  - apply (proj1 (kv_db2file_resolves (KvHandle None None) "running")).
    reflexivity.
  - apply (proj1 (proj2 (kv_db2file_resolves (KvHandle (Some "/var/db") None) "result"))
             "/var/db"); [reflexivity | by_compute].
  - apply (proj2 (proj2 (kv_db2file_resolves (KvHandle (Some "/var/db") None) "candidate"))
             "/var/db"); [reflexivity | by_compute].
Defined.

(** ** The lock registry *)

Lemma lockable_cases db :
  db ∈ lockable → db = "running" ∨ db = "candidate" ∨ db = "startup".
Proof.
  unfold lockable. rewrite !elem_of_cons, elem_of_nil. tauto.
Qed.

Lemma kv_unlock_all_running pid c s :
  _running_locked (kv_unlock_all pid (KvLocks pid c s)) = 0%Z.
Proof. unlock_all_cases. Qed.

Lemma kv_unlock_all_candidate pid r s :
  _candidate_locked (kv_unlock_all pid (KvLocks r pid s)) = 0%Z.
Proof. unlock_all_cases. Qed.

Lemma kv_unlock_all_startup pid r c :
  _startup_locked (kv_unlock_all pid (KvLocks r c pid)) = 0%Z.
Proof. unlock_all_cases. Qed.

(** C8: for a lockable database and any owner, [kv_lock] succeeds and
    [kv_islocked] then returns that owner, whatever the lock held before;
    after [kv_unlock_all] for that owner [kv_islocked] returns 0; and
    [kv_lock] on ["tmp"] fails with the no-such-database error and leaves the
    registry as it was. *)
Theorem lock_bookkeeping (db : string) (pid : Z) (l : kv_locks)
    (Hdb : db ∈ lockable) :
  (∃ l', kv_lock db pid l = (Ok (), l')
         ∧ kv_islocked db l' = (pid, None)
         ∧ kv_islocked db (kv_unlock_all pid l') = (0%Z, None))
  ∧ kv_lock "tmp" pid l = (Err (ClErr OE_DB "No such database: tmp"), l).
Proof.
  split; [|reflexivity].
  destruct (lockable_cases db Hdb) as [-> | [-> | ->]];
    (eexists; split; [reflexivity|]; split; [reflexivity|]);
    unfold kv_islocked; simpl.
  - by rewrite kv_unlock_all_running.
  - by rewrite kv_unlock_all_candidate.
  - by rewrite kv_unlock_all_startup.
Qed.

Lemma lock_bookkeeping_witness :
  (∃ l', kv_lock "running" 5 kv_locks_init = (Ok (), l')
         ∧ kv_islocked "running" l' = (5%Z, None)
         ∧ kv_islocked "running" (kv_unlock_all 5 l') = (0%Z, None))
  ∧ kv_lock "tmp" 5 kv_locks_init
    = (Err (ClErr OE_DB "No such database: tmp"), kv_locks_init).
Proof.
  apply (lock_bookkeeping "running" 5 kv_locks_init). by_compute.
Defined.

(** C10: ["tmp"] is one of the names the resolver accepts, yet
    [kv_islocked] and [kv_unlock] reject it with the no-such-database error:
    [kv_islocked] returns -1, not 0, and [kv_unlock] fails and leaves the
    registry as it was. *)
Theorem tmp_has_no_lock (l : kv_locks) (dir : string) (yspec : option yang_spec) :
  kv_db2file (KvHandle (Some dir) yspec) "tmp" = Ok (dir +:+ "/tmp_db")
  ∧ kv_islocked "tmp" l = ((-1)%Z, Some (ClErr OE_DB "No such database: tmp"))
  ∧ fst (kv_islocked "tmp" l) ≠ 0%Z
  ∧ kv_unlock "tmp" l = (Err (ClErr OE_DB "No such database: tmp"), l).
Proof.
  split_and!; try reflexivity. simpl. lia.
Qed.

(** ** Percent-encoding *)

Lemma unreserved_not_percent (c : ascii) : uri_unreserved c = true → c ≠ "%"%char.
Proof. intros Hc ->. discriminate Hc. Qed.

Lemma hexval_hexdigit (c : ascii) :
  hexval (hexdigit (N_of_ascii c / 16)) = Some (N_of_ascii c / 16)%N
  ∧ hexval (hexdigit (N_of_ascii c mod 16)) = Some (N_of_ascii c mod 16)%N
  ∧ ascii_of_N (16 * (N_of_ascii c / 16) + N_of_ascii c mod 16) = c.
Proof. destruct c as [[] [] [] [] [] [] [] []]; vm_compute; done. Qed.

(** Decoding undoes encoding, whatever the characters of the value. *)
Lemma uri_percent_decode_encode (v : string) :
  uri_percent_decode (uri_percent_encode v) = v.
Proof.
  induction v as [|c v IH]; [done|]. cbn [uri_percent_encode].
  destruct (uri_unreserved c) eqn:Hc.
  - cbn [uri_percent_decode].
    rewrite decide_False by (by apply unreserved_not_percent). by rewrite IH.
  - destruct (hexval_hexdigit c) as (H1 & H2 & H3).
    cbn [uri_percent_decode]. rewrite decide_True by done.
    by rewrite H1, H2, H3, IH.
Qed.

(** ** The write engine *)

Lemma put_unfold xt ys op xk0 s :
  put xt ys op xk0 s = put_steps xt ys op xk0 s.
Proof.
  destruct xt as [name type value spec xs]. unfold put_steps.
  cbn -[put_op put_key put_write]. unfold mbind, dbM_bind, lift.
  destruct (put_op _ op) as [op'|e]; [|done].
  destruct (put_key _ ys xk0) as [xk|e]; [|done].
  destruct (put_write ys op' xk _ s) as [[[|]|e] s']; try done.
  cbn [x_childvec]. revert s'.
  induction xs as [|x xs IH]; intros s'; [done|].
  cbn -[put]. destruct (x_type x); try apply IH.
  unfold mbind, dbM_bind, lift.
  destruct (nonnull _ _) as [y|e]; [|done].
  destruct (put x y op' xk s') as [[[]|e] s'']; [apply IH|done].
Qed.

Lemma put_write_create_exists ys xk body s :
  is_Some (s !! xk) →
  put_write ys OP_CREATE xk body s = (Err (already_exists xk), s).
Proof.
  intros Hin. unfold put_write, db_exists, mbind, dbM_bind.
  by rewrite bool_decide_eq_true_2.
Qed.

Lemma put_write_delete_missing ys xk body s :
  s !! xk = None →
  put_write ys OP_DELETE xk body s = (Err (does_not_exist xk), s).
Proof.
  intros Hnone. unfold put_write, db_exists, mbind, dbM_bind.
  rewrite bool_decide_eq_false_2; [done|]. rewrite Hnone. by intros [? ?].
Qed.

Lemma put_write_merge ys xk body s :
  put_write ys OP_MERGE xk body s = (Ok false, <[xk := body]> s).
Proof. reflexivity. Qed.

Lemma db_del_pairs_ok pairs s : fst (db_del_pairs pairs s) = Ok ().
Proof.
  revert s. induction pairs as [|p pairs IH]; intros s; [done|].
  cbn. unfold mbind, dbM_bind, db_del. apply IH.
Qed.

(** Under [OP_REMOVE] the node's own step of a list or a container succeeds
    or fails with the pattern, whatever the database holds, and skips the
    children. *)
Lemma put_remove_subtree_fst ys xk s :
  ys_keyword ys = Y_LIST ∨ ys_keyword ys = Y_CONTAINER →
  fst (put_remove ys xk s)
  = match regcomp ("^" +:+ xk +:+ ".*$") with
    | Some _ => Ok true
    | None => Err (Callee "db_regexp")
    end.
Proof.
  intros Hkw. unfold put_remove.
  assert (Heq : ∀ (a b : dbM bool), fst (match ys_keyword ys with
            | Y_LIST | Y_CONTAINER => a | _ => b end s) = fst (a s))
    by (intros a b; destruct Hkw as [-> | ->]; done).
  rewrite Heq. unfold mbind, dbM_bind, db_regexp.
  destruct (regcomp _) as [r|]; [|done].
  pose proof (db_del_pairs_ok
    (merge_sort pair_le (filter (λ p, regexec r p.1 = true) (map_to_list s))) s) as Hok.
  destruct (db_del_pairs _ s) as [[[]|e] s']; simpl in *; [done|discriminate].
Qed.

Lemma put_remove_leaf ys xk s :
  ys_keyword ys ≠ Y_LIST → ys_keyword ys ≠ Y_CONTAINER →
  put_remove ys xk s = (Ok false, delete xk s).
Proof.
  intros H1 H2. unfold put_remove. by destruct (ys_keyword ys).
Qed.

(** C4: for a node whose key is [xk], [put] under [OP_CREATE] fails with the
    already-exists error when [xk] is in the database, and under [OP_DELETE]
    with the does-not-exist error when it is not, the database being left as
    it was; under [OP_MERGE] and [OP_REMOVE] the outcome of [put] (success,
    or the error reported) is the same whether [xk] is in the database or
    not. *)
Theorem put_existence_checks (xt : cxobj) (ys : yang_stmt) (op : operation_type)
    (xk0 xk : string) (s : kvstore) (v : option string)
    (Hkey : put_key xt ys xk0 = Ok xk) :
  (put_op xt op = Ok OP_CREATE → is_Some (s !! xk) →
     put xt ys op xk0 s = (Err (already_exists xk), s))
  ∧ (put_op xt op = Ok OP_DELETE → s !! xk = None →
     put xt ys op xk0 s = (Err (does_not_exist xk), s))
  ∧ (put_op xt op = Ok OP_MERGE ∨ put_op xt op = Ok OP_REMOVE →
     fst (put xt ys op xk0 (<[xk := v]> s))
     = fst (put xt ys op xk0 (delete xk s))).
Proof.
  split_and!.
  - intros Hop Hin. rewrite put_unfold. unfold put_steps.
    by rewrite Hop, Hkey, put_write_create_exists.
  - intros Hop Hnone. rewrite put_unfold. unfold put_steps.
    by rewrite Hop, Hkey, put_write_delete_missing.
  - intros [Hop | Hop]; rewrite !put_unfold; unfold put_steps; rewrite Hop, Hkey.
    + rewrite !put_write_merge. by rewrite insert_insert_eq, insert_delete_eq.
    + cbn [put_write].
      destruct (decide (ys_keyword ys = Y_LIST ∨ ys_keyword ys = Y_CONTAINER))
        as [Hkw | Hkw].
      * pose proof (put_remove_subtree_fst ys xk (<[xk := v]> s) Hkw) as H1.
        pose proof (put_remove_subtree_fst ys xk (delete xk s) Hkw) as H2.
        destruct (put_remove ys xk (<[xk := v]> s)) as [r1 s1].
        destruct (put_remove ys xk (delete xk s)) as [r2 s2].
        simpl in H1, H2. subst r1 r2. by destruct (regcomp _).
      * rewrite !put_remove_leaf by tauto.
        by rewrite delete_insert_eq, delete_delete_eq.
Qed.

Lemma put_existence_checks_witness :
  put (xml_leaf "port" "22") (YangStmt Y_LEAF "port" []) OP_CREATE "/system/server=a"
      {["/system/server=a/port" := Some "80"]}
  = (Err (already_exists "/system/server=a/port"),
     {["/system/server=a/port" := Some "80"]})
  ∧ put (xml_leaf "port" "22") (YangStmt Y_LEAF "port" []) OP_DELETE "/system/server=a" ∅
    = (Err (does_not_exist "/system/server=a/port"), ∅)
  ∧ fst (put (xml_leaf "port" "22") (YangStmt Y_LEAF "port" []) OP_MERGE "/system/server=a"
           (<["/system/server=a/port" := Some "80"]> ∅))
    = fst (put (xml_leaf "port" "22") (YangStmt Y_LEAF "port" []) OP_MERGE "/system/server=a"
             (delete "/system/server=a/port" ∅)).
Proof.
  split_and!.
  - apply (proj1 (put_existence_checks (xml_leaf "port" "22") (YangStmt Y_LEAF "port" [])
                    OP_CREATE "/system/server=a" "/system/server=a/port"
                    {["/system/server=a/port" := Some "80"]} None eq_refl));
      [reflexivity | by_compute].
  - apply (proj1 (proj2 (put_existence_checks (xml_leaf "port" "22")
                           (YangStmt Y_LEAF "port" []) OP_DELETE "/system/server=a"
                           "/system/server=a/port" ∅ None eq_refl)));
      reflexivity.
  - apply (proj2 (proj2 (put_existence_checks (xml_leaf "port" "22")
                           (YangStmt Y_LEAF "port" []) OP_MERGE "/system/server=a"
                           "/system/server=a/port" ∅ (Some "80") eq_refl))).
    left; reflexivity.
Defined.

(** ** Patterns *)

Lemma list_ascii_of_string_app (a b : string) :
  list_ascii_of_string (a +:+ b) = list_ascii_of_string a ++ list_ascii_of_string b.
Proof. induction a as [|c a IH]; [done|]. simpl. by f_equal. Qed.

Lemma rx_star_any_eol (k : list ascii) : rx_match_here [(RxAny, true)] true k = true.
Proof.
  induction k as [|c k IH]; [done|].
  cbn in *. by rewrite IH.
Qed.

Lemma rx_parse_literal (xk : list ascii) :
  forallb (λ c, negb (rx_operator c)) xk = true →
  rx_parse (xk ++ list_ascii_of_string ".*$")
  = Some (((λ c, (rx_atom_of c, false)) <$> xk) ++ [(RxAny, true)], true).
Proof.
  induction xk as [|c xk IH]; [done|].
  cbn [forallb]. rewrite andb_true_iff, negb_true_iff. intros [Hc Hxk].
  specialize (IH Hxk). cbn [app rx_parse fmap list_fmap].
  assert (Hdollar : c ≠ "$"%char) by (intros ->; discriminate Hc).
  rewrite decide_False by done. rewrite Hc.
  destruct xk as [|d xk].
  - reflexivity.
  - cbn [app]. cbn [forallb] in Hxk. rewrite andb_true_iff, negb_true_iff in Hxk.
    rewrite decide_False by (intros ->; by destruct Hxk).
    cbn [app] in IH. rewrite IH. done.
Qed.

Lemma regcomp_literal (xk : string) :
  rx_literal xk = true →
  regcomp ("^" +:+ xk +:+ ".*$")
  = Some (Regex true
            (((λ c, (rx_atom_of c, false)) <$> list_ascii_of_string xk)
               ++ [(RxAny, true)]) true).
Proof.
  intros Hlit. unfold regcomp.
  change ("^" +:+ xk +:+ ".*$") with (String "^" (xk +:+ ".*$")).
  cbn [list_ascii_of_string]. rewrite decide_True by done.
  rewrite list_ascii_of_string_app, rx_parse_literal by done. done.
Qed.

Lemma rx_match_literal (xk k : list ascii) :
  rx_match_here (((λ c, (rx_atom_of c, false)) <$> xk) ++ [(RxAny, true)]) true k
  = wild_prefix xk k.
Proof.
  revert k. induction xk as [|c xk IH]; intros k.
  - apply rx_star_any_eol.
  - destruct k as [|d k]; [done|]. cbn [fmap list_fmap app rx_match_here wild_prefix].
    by rewrite IH.
Qed.

(** The pattern [put] writes for a key selects the keys that begin with the
    key, up to the [.] of the key. *)
Lemma regexec_key (xk : string) (r : regex) (k : string) :
  rx_literal xk = true →
  regcomp ("^" +:+ xk +:+ ".*$") = Some r →
  regexec r k = key_selected xk k.
Proof.
  intros Hlit. rewrite regcomp_literal by done. intros [= <-].
  unfold regexec, key_selected. cbn [rx_bol rx_pieces rx_eol].
  apply rx_match_literal.
Qed.

Lemma rx_atom_match_self (c : ascii) : rx_atom_match (rx_atom_of c) c = true.
Proof.
  unfold rx_atom_of. case_decide; [done|]. cbn. by apply bool_decide_eq_true_2.
Qed.

Lemma prefix_key_selected (xk k : string) :
  String.prefix xk k = true → key_selected xk k = true.
Proof.
  unfold key_selected. revert k.
  induction xk as [|c xk IH]; intros k; [done|].
  destruct k as [|d k]; [done|]. cbn [String.prefix list_ascii_of_string wild_prefix].
  destruct (ascii_dec c d) as [<-|]; [|done].
  intros Hpre. by rewrite rx_atom_match_self, IH.
Qed.

(** Without a [.] in the key, the pattern selects exactly the keys that
    begin with it. *)
Lemma key_selected_no_dot (xk k : string) :
  "."%char ∉ list_ascii_of_string xk →
  key_selected xk k = String.prefix xk k.
Proof.
  unfold key_selected. revert k.
  induction xk as [|c xk IH]; intros k Hdot.
  - by destruct k.
  - cbn [list_ascii_of_string] in Hdot. apply not_elem_of_cons in Hdot as [Hc Hdot].
    destruct k as [|d k]; [done|].
    cbn [String.prefix list_ascii_of_string wild_prefix]. rewrite IH by done.
    unfold rx_atom_of. rewrite decide_False by done. cbn.
    destruct (ascii_dec c d) as [<-|Hne].
    + by rewrite bool_decide_eq_true_2.
    + by rewrite bool_decide_eq_false_2.
Qed.

(** ** Removing a subtree *)

Lemma db_del_pairs_run (pairs : list db_pair) (s : kvstore) :
  ∃ s', db_del_pairs pairs s = (Ok (), s')
        ∧ ∀ k, s' !! k = if decide (k ∈ pairs.*1) then None else s !! k.
Proof.
  revert s. induction pairs as [|p pairs IH]; intros s.
  - exists s. split; [done|]. intros k. rewrite decide_False; [done|]. apply not_elem_of_nil.
  - destruct (IH (delete p.1 s)) as (s' & Hrun & Hlook). exists s'. split.
    + cbn [db_del_pairs]. unfold mbind, dbM_bind, db_del. exact Hrun.
    + intros k. rewrite Hlook. cbn [fmap list_fmap].
      destruct (decide (k = p.1)) as [->|Hne].
      * rewrite lookup_delete_eq. rewrite (decide_True (P := _ ∈ _ :: _)) by apply list_elem_of_here.
        by case_decide.
      * rewrite lookup_delete_ne by done.
        destruct (decide (k ∈ pairs.*1)) as [Hin|Hnin].
        -- rewrite decide_True; [done|]. by apply list_elem_of_further.
        -- rewrite decide_False; [done|]. rewrite not_elem_of_cons. done.
Qed.

(** The keys of a scan: those of the database that the pattern matches. *)
Lemma db_regexp_keys (rx : string) (r : regex) (s : kvstore) :
  regcomp rx = Some r →
  ∃ pairs, db_regexp rx s = (Ok pairs, s)
           ∧ ∀ k, k ∈ pairs.*1 ↔ is_Some (s !! k) ∧ regexec r k = true.
Proof.
  intros Hrx. unfold db_regexp. rewrite Hrx. eexists. split; [done|].
  intros k. rewrite list_elem_of_fmap. split.
  - intros ([k' v] & -> & Hin). rewrite merge_sort_Permutation in Hin.
    apply list_elem_of_filter in Hin as [Hmatch Hin].
    apply elem_of_map_to_list in Hin. eauto.
  - intros [[v Hv] Hmatch]. exists (k, v). split; [done|].
    rewrite merge_sort_Permutation. apply list_elem_of_filter. split; [done|].
    by apply elem_of_map_to_list.
Qed.

(** Removing a list or a container whose key is [xk]: the keys that the
    pattern [^xk.*$] selects are deleted, the others stay, and the children
    are skipped. *)
Lemma put_remove_subtree (ys : yang_stmt) (xk : string) (s : kvstore) :
  ys_keyword ys = Y_LIST ∨ ys_keyword ys = Y_CONTAINER →
  rx_literal xk = true →
  put_remove ys xk s = (Ok true, filter (λ p, key_selected xk p.1 = false) s).
Proof.
  intros Hkw Hlit. unfold put_remove.
  assert (Heq : ∀ (a b : dbM bool), match ys_keyword ys with
            | Y_LIST | Y_CONTAINER => a | _ => b end s = a s)
    by (intros a b; destruct Hkw as [-> | ->]; done).
  rewrite Heq. clear Heq.
  destruct (db_regexp_keys _ _ s (regcomp_literal xk Hlit)) as (pairs & Hscan & Hkeys).
  destruct (db_del_pairs_run pairs s) as (s' & Hdel & Hlook).
  unfold mbind, dbM_bind. rewrite Hscan. cbv beta iota. rewrite Hdel.
  cbv beta iota. unfold mret, dbM_ret. f_equal.
  assert (Hsel : ∀ k, k ∈ pairs.*1 ↔ is_Some (s !! k) ∧ key_selected xk k = true).
  { intros k. rewrite Hkeys.
    by rewrite (regexec_key xk _ k Hlit (regcomp_literal xk Hlit)). }
  apply map_eq. intros k. rewrite Hlook, map_lookup_filter.
  case_decide as Hin.
  - apply Hsel in Hin as [[v Hv] Hmatch]. rewrite Hv. cbn.
    rewrite option_guard_decide, decide_False; [done|]. by rewrite Hmatch.
  - destruct (s !! k) as [v|] eqn:Hv; [|done]. cbn.
    rewrite option_guard_decide, decide_True; [done|].
    apply not_true_is_false. intros Hmatch. apply Hin, Hsel. eauto.
Qed.

(** *** The keys [put] builds contain no pattern operator *)

Lemma rx_literal_app (a b : string) :
  rx_literal (a +:+ b) = rx_literal a && rx_literal b.
Proof. unfold rx_literal. by rewrite list_ascii_of_string_app, forallb_app. Qed.

Lemma unreserved_not_operator (c : ascii) :
  uri_unreserved c = true → rx_operator c = false.
Proof. destruct c as [[] [] [] [] [] [] [] []]; vm_compute; congruence. Qed.

Lemma hexdigit_not_operator (c : ascii) :
  rx_operator (hexdigit (N_of_ascii c / 16)) = false
  ∧ rx_operator (hexdigit (N_of_ascii c mod 16)) = false.
Proof. destruct c as [[] [] [] [] [] [] [] []]; vm_compute; done. Qed.

Lemma uri_percent_encode_literal (v : string) : rx_literal (uri_percent_encode v) = true.
Proof.
  unfold rx_literal. induction v as [|c v IH]; [done|].
  cbn [uri_percent_encode]. destruct (uri_unreserved c) eqn:Hc.
  - cbn [list_ascii_of_string forallb]. by rewrite unreserved_not_operator, IH.
  - destruct (hexdigit_not_operator c) as [H1 H2].
    cbn [list_ascii_of_string forallb]. by rewrite H1, H2, IH.
Qed.

Lemma plain_name_literal (n : string) : plain_name n = true → rx_literal n = true.
Proof.
  unfold plain_name, rx_literal. rewrite !forallb_forall.
  intros Hn c Hc. by rewrite unreserved_not_operator by auto.
Qed.

Lemma append_listkeys_from_literal i ckey xt cvk xk :
  rx_literal ckey = true →
  append_listkeys_from i ckey xt cvk = Ok xk → rx_literal xk = true.
Proof.
  revert i ckey. induction cvk as [|keyname cvk IH]; intros i ckey Hlit.
  - by intros [= <-].
  - cbn [append_listkeys_from]. destruct (nonnull _ _) as [xkey|e]; [|done].
    cbn [mbind result_bind]. apply IH.
    rewrite !rx_literal_app, Hlit, uri_percent_encode_literal. by destruct i.
Qed.

(** Under a key without pattern operators, a node with a plain name gets a
    key without pattern operators. *)
Lemma put_key_literal xt ys xk0 xk :
  rx_literal xk0 = true → plain_name (x_name xt) = true →
  put_key xt ys xk0 = Ok xk → rx_literal xk = true.
Proof.
  intros H0 Hname. unfold put_key.
  assert (Hbase : rx_literal (xk0 +:+ "/" +:+ x_name xt) = true)
    by (rewrite !rx_literal_app, H0, (plain_name_literal (x_name xt)) by done;
        reflexivity).
  destruct (ys_keyword ys); try (by intros [= <-]).
  - intros [= <-].
    rewrite (rx_literal_app (xk0 +:+ "/" +:+ x_name xt)), Hbase.
    rewrite rx_literal_app, uri_percent_encode_literal. reflexivity.
  - by apply append_listkeys_from_literal.
Qed.

(** *** What [OP_REMOVE] does to a node *)

Lemma put_remove_list_or_container (xt : cxobj) (ys : yang_stmt)
    (op : operation_type) (xk0 xk : string) (s : kvstore) :
  put_op xt op = Ok OP_REMOVE → put_key xt ys xk0 = Ok xk →
  ys_keyword ys = Y_LIST ∨ ys_keyword ys = Y_CONTAINER → rx_literal xk = true →
  put xt ys op xk0 s = (Ok (), filter (λ p, key_selected xk p.1 = false) s).
Proof.
  intros Hop Hkey Hkw Hlit.
  rewrite put_unfold. unfold put_steps. rewrite Hop, Hkey. cbn [put_write].
  by rewrite put_remove_subtree.
Qed.

(** C2, as stated, fails for a leaf: removing [host] leaves [hostname] in the
    database, though its key begins with the key of [host]. *)
Lemma remove_leaf_keeps_longer_keys :
  ¬ remove_as_specified (xml_leaf "host" "a") (YangStmt Y_LEAF "host" [])
      OP_REMOVE "/system" ex_hosts_db.
Proof.
  intros Hspec.
  specialize (Hspec eq_refl "/system/host" eq_refl "/system/hostname" eq_refl).
  vm_compute in Hspec. discriminate Hspec.
Qed.

(** C2, amended: under [OP_REMOVE], for a list or a container, [put] deletes
    the keys the pattern of the node's key selects, among them every stored
    key that begins with the node's key, and returns without looking at the
    children; for a node of another kind (a leaf, a leaf-list) it deletes the
    node's own key only and goes on to the children. *)
Theorem put_remove_node (xt : cxobj) (ys : yang_stmt) (op : operation_type)
    (xk0 xk : string) (s : kvstore)
    (Hop : put_op xt op = Ok OP_REMOVE) (Hkey : put_key xt ys xk0 = Ok xk) :
  (ys_keyword ys = Y_LIST ∨ ys_keyword ys = Y_CONTAINER → rx_literal xk = true →
     put xt ys op xk0 s = (Ok (), filter (λ p, key_selected xk p.1 = false) s)
     ∧ ∀ k, String.prefix xk k = true → snd (put xt ys op xk0 s) !! k = None)
  ∧ (ys_keyword ys ≠ Y_LIST → ys_keyword ys ≠ Y_CONTAINER →
     put xt ys op xk0 s
     = put_children ys OP_REMOVE xk (x_childvec xt) (delete xk s)).
Proof.
  split.
  - intros Hkw Hlit.
    pose proof (put_remove_list_or_container xt ys op xk0 xk s Hop Hkey Hkw Hlit)
      as Hput.
    split; [done|]. intros k Hpre. rewrite Hput. cbn [snd].
    apply map_lookup_filter_None. right. intros v _. cbn [fst].
    by rewrite prefix_key_selected.
  - intros H1 H2. rewrite put_unfold. unfold put_steps. rewrite Hop, Hkey.
    cbn [put_write]. by rewrite put_remove_leaf.
Qed.

Lemma put_remove_node_witness :
  (put (xml_elem "system" []) ex_system OP_REMOVE "" ex_hosts_db = (Ok (), ∅)
   ∧ snd (put (xml_elem "system" []) ex_system OP_REMOVE "" ex_hosts_db)
       !! "/system/hostname" = None)
  ∧ put (xml_leaf "host" "a") (YangStmt Y_LEAF "host" []) OP_REMOVE "/system" ex_hosts_db
    = (Ok (), {["/system/hostname" := Some "b"]}).
Proof.
  split.
  - destruct (proj1 (put_remove_node (xml_elem "system" []) ex_system OP_REMOVE
                       "" "/system" ex_hosts_db eq_refl eq_refl))
      as [Hput Hgone]; [by right | reflexivity |].
    split; [|by apply Hgone].
    rewrite Hput. vm_compute. reflexivity.
  - rewrite (proj2 (put_remove_node (xml_leaf "host" "a") (YangStmt Y_LEAF "host" [])
                      OP_REMOVE "/system" "/system/host" ex_hosts_db eq_refl eq_refl))
      by done.
    vm_compute. reflexivity.
Defined.

(** Without a [.] in its key, removing a list or a container deletes the
    stored keys that begin with its key, and no other. *)
Lemma put_remove_exact_without_dot (xt : cxobj) (ys : yang_stmt)
    (op : operation_type) (xk0 xk : string) (s : kvstore) :
  put_op xt op = Ok OP_REMOVE → put_key xt ys xk0 = Ok xk →
  ys_keyword ys = Y_LIST ∨ ys_keyword ys = Y_CONTAINER →
  rx_literal xk = true → "."%char ∉ list_ascii_of_string xk →
  ∀ k, snd (put xt ys op xk0 s) !! k
       = if String.prefix xk k then None else s !! k.
Proof.
  intros Hop Hkey Hkw Hlit Hdot k.
  rewrite (put_remove_list_or_container xt ys op xk0 xk s Hop Hkey Hkw Hlit).
  cbn [snd]. rewrite map_lookup_filter. cbn [fst].
  rewrite key_selected_no_dot by done.
  destruct (s !! k) as [v|]; cbn; [|by destruct (String.prefix xk k)].
  rewrite option_guard_decide. destruct (String.prefix xk k); by case_decide.
Qed.

(** C3 fails on the code: with the interfaces [eth0.1] and [eth001] in the
    database, removing the list instance [eth0.1] empties the database: the
    entries of [eth001] are deleted too, though their keys do not begin with
    [/interface=eth0.1]. *)
Theorem remove_interface_deletes_unrelated :
  ex_interfaces_db !! "/interface=eth001/mtu" = Some (Some "9000")
  ∧ String.prefix "/interface=eth0.1" "/interface=eth001/mtu" = false
  ∧ put_key (xml_elem "interface" [xml_leaf "name" "eth0.1"]) ex_interface ""
    = Ok "/interface=eth0.1"
  ∧ kv_put ex_kh "running" OP_REMOVE ex_remove_interface ex_interfaces_db
    = (Ok (), ∅).
Proof. vm_compute. done. Qed.

(** ** Replacing the content of a database *)

Lemma cxobj_forall_ind (P : cxobj → Prop) :
  (∀ name type value spec xs, Forall P xs → P (Cxobj name type value spec xs)) →
  ∀ x, P x.
Proof.
  intros Hnode. fix IH 1. intros [name type value spec xs]. apply Hnode.
  induction xs as [|x xs IHxs]; constructor; [apply IH | exact IHxs].
Qed.

Lemma db_set_entries_app (es es' : list db_pair) (s : kvstore) :
  db_set_entries (es ++ es') s = db_set_entries es' (db_set_entries es s).
Proof. unfold db_set_entries. apply foldl_app. Qed.

Lemma db_set_entries_keys (es : list db_pair) (s : kvstore) (k : string) :
  is_Some (db_set_entries es s !! k) ↔ is_Some (s !! k) ∨ k ∈ es.*1.
Proof.
  revert s. induction es as [|[k' v'] es IH]; intros s.
  - cbn. rewrite elem_of_nil. tauto.
  - cbn [db_set_entries foldl fmap list_fmap fst snd].
    fold (db_set_entries es (<[k' := v']> s)). rewrite IH, elem_of_cons.
    destruct (decide (k = k')) as [->|Hne].
    + rewrite lookup_insert_eq. split; [auto|]. intros _. left. eauto.
    + rewrite lookup_insert_ne by done. tauto.
Qed.

Lemma db_set_entries_lookup (es : list db_pair) (s : kvstore) (k : string)
    (v : option string) :
  db_set_entries es s !! k = Some v → s !! k = Some v ∨ (k, v) ∈ es.
Proof.
  revert s. induction es as [|[k' v'] es IH]; intros s.
  - cbn. auto.
  - cbn [db_set_entries foldl fst snd].
    fold (db_set_entries es (<[k' := v']> s)). intros Hlook.
    destruct (IH _ Hlook) as [Hs | Hin].
    + destruct (decide (k = k')) as [->|Hne].
      * rewrite lookup_insert_eq in Hs. injection Hs as <-. right. apply list_elem_of_here.
      * rewrite lookup_insert_ne in Hs by done. auto.
    + right. by apply list_elem_of_further.
Qed.

Lemma put_entries_unfold xt ys xk0 :
  put_entries xt ys xk0
  = (xk ← put_key xt ys xk0;
     rest ← entries_of_children
       (λ x, y ← nonnull (yang_find_datanode ys (x_name x))
                   (ClErr OE_UNIX ("No yang node found: " +:+ x_name x));
             put_entries x y xk)
       (x_childvec xt);
     Ok ((xk, xml_body xt) :: rest)).
Proof. by destruct xt. Qed.

Lemma writes_only_unfold x :
  writes_only x
  = match xml_find_value x "operation" with
    | Some opstr => bool_decide (opstr ∈ ["create"; "merge"; "replace"])
    | None => true
    end && elements_all writes_only (x_childvec x).
Proof. by destruct x. Qed.

(** The operations that write the node: create, merge, replace. *)
Lemma put_op_writes xt op op' :
  op ∈ [OP_CREATE; OP_MERGE; OP_REPLACE] →
  match xml_find_value xt "operation" with
  | Some opstr => bool_decide (opstr ∈ ["create"; "merge"; "replace"])
  | None => true
  end = true →
  put_op xt op = Ok op' → op' ∈ [OP_CREATE; OP_MERGE; OP_REPLACE].
Proof.
  intros Hop Hattr. unfold put_op.
  destruct (xml_find_value xt "operation") as [opstr|]; [|by intros [= <-]].
  apply bool_decide_eq_true in Hattr.
  rewrite !elem_of_cons, elem_of_nil in Hattr.
  destruct Hattr as [-> | [-> | [-> | []]]]; intros [= <-];
    rewrite !elem_of_cons; auto.
Qed.

Lemma put_write_writes ys op xk body s r s' :
  op ∈ [OP_CREATE; OP_MERGE; OP_REPLACE] →
  put_write ys op xk body s = (Ok r, s') → r = false ∧ s' = <[xk := body]> s.
Proof.
  rewrite !elem_of_cons, elem_of_nil. intros [-> | [-> | [-> | []]]];
    cbn [put_write]; unfold mbind, dbM_bind, db_exists, db_set, lift, mret, dbM_ret.
  - case_bool_decide; [done|]. by intros [= <- <-].
  - by intros [= <- <-].
  - by intros [= <- <-].
Qed.

Lemma put_children_entries ys op xk xs :
  op ∈ [OP_CREATE; OP_MERGE; OP_REPLACE] →
  Forall put_writes xs → elements_all writes_only xs = true →
  ∀ s s', put_children ys op xk xs s = (Ok (), s') →
  ∃ es, entries_of_children
          (λ x, y ← nonnull (yang_find_datanode ys (x_name x))
                      (ClErr OE_UNIX ("No yang node found: " +:+ x_name x));
                put_entries x y xk) xs = Ok es
        ∧ s' = db_set_entries es s.
Proof.
  intros Hop Hall. induction Hall as [|x xs Hx _ IH]; intros Hw s s' Hput.
  - injection Hput as <-. by exists [].
  - cbn [elements_all forallb] in Hw. apply andb_true_iff in Hw as [Hwx Hw].
    cbn [put_children entries_of_children] in *.
    destruct (x_type x); try (by apply IH).
    unfold mbind at 1 2, dbM_bind, lift in Hput.
    destruct (nonnull _ _) as [y|e]; [|done]. cbn [mbind result_bind].
    destruct (put x y op xk s) as [[[]|e] s1] eqn:Hputx; [|done].
    destruct (Hx y op xk s s1 Hop Hwx Hputx) as (es & -> & ->).
    destruct (IH Hw _ _ Hput) as (es' & Hes' & ->).
    exists (es ++ es'). cbn [mbind result_bind] in *.
    fold (entries_of_children
            (λ x, y ← nonnull (yang_find_datanode ys (x_name x))
                        (ClErr OE_UNIX ("No yang node found: " +:+ x_name x));
                  put_entries x y xk)) in *.
    rewrite Hes'. by rewrite db_set_entries_app.
Qed.

(** [put] under create, merge or replace, on a tree whose attributes select
    nothing else, writes the entries of the tree. *)
Lemma put_writes_entries x : put_writes x.
Proof.
  induction x as [name type value spec xs IH] using cxobj_forall_ind.
  intros ys op xk0 s s' Hop Hw Hput.
  rewrite put_unfold in Hput. unfold put_steps in Hput.
  rewrite writes_only_unfold in Hw. apply andb_true_iff in Hw as [Hattr Hkids].
  destruct (put_op _ op) as [op'|e] eqn:Hop'; [|done].
  pose proof (put_op_writes _ _ _ Hop Hattr Hop') as Hwrites.
  destruct (put_key _ ys xk0) as [xk|e] eqn:Hkey; [|done].
  destruct (put_write ys op' xk _ s) as [[r|e] s1] eqn:Hwrite; [|done].
  destruct (put_write_writes _ _ _ _ _ _ _ Hwrites Hwrite) as [-> ->].
  destruct (put_children_entries ys op' xk _ Hwrites IH Hkids _ _ Hput)
    as (es & Hes & ->).
  exists ((xk, xml_body (Cxobj name type value spec xs)) :: es).
  rewrite put_entries_unfold, Hkey. cbn [mbind result_bind].
  cbn [x_childvec] in Hes |- *. by rewrite Hes.
Qed.

Lemma kv_put_children_entries yspec op xs :
  op ∈ [OP_CREATE; OP_MERGE; OP_REPLACE] → elements_all writes_only xs = true →
  ∀ s s', kv_put_children yspec op xs s = (Ok (), s') →
  ∃ es, entries_of_children
          (λ x, ys ← nonnull (yang_find_topnode yspec (x_name x))
                       (ClErr OE_UNIX ("No yang node found: " +:+ x_name x));
                put_entries x ys "") xs = Ok es
        ∧ s' = db_set_entries es s.
Proof.
  intros Hop. induction xs as [|x xs IH]; intros Hw s s' Hput.
  - injection Hput as <-. by exists [].
  - cbn [elements_all forallb] in Hw. apply andb_true_iff in Hw as [Hwx Hw].
    cbn [kv_put_children entries_of_children] in *.
    destruct (x_type x); try (by apply IH).
    unfold mbind at 1 2, dbM_bind, lift in Hput.
    destruct (nonnull _ _) as [ys|e]; [|done]. cbn [mbind result_bind].
    destruct (put x ys op "" s) as [[[]|e] s1] eqn:Hputx; [|done].
    destruct (put_writes_entries x ys op "" s s1 Hop Hwx Hputx) as (es & -> & ->).
    destruct (IH Hw _ _ Hput) as (es' & Hes' & ->).
    exists (es ++ es'). cbn [mbind result_bind] in *.
    fold (entries_of_children
            (λ x, ys ← nonnull (yang_find_topnode yspec (x_name x))
                         (ClErr OE_UNIX ("No yang node found: " +:+ x_name x));
                  put_entries x ys "")) in *.
    rewrite Hes'. by rewrite db_set_entries_app.
Qed.

(** C5, as stated, fails: a leaf that carries the attribute
    [operation="remove"] is part of the tree, and [kv_put] under [OP_REPLACE]
    succeeds without its entry in the database. *)
Lemma replace_skips_node_with_operation_remove :
  ¬ replace_as_specified ex_kh "running" ex_host_removed ∅.
Proof.
  intros Hspec.
  destruct (Hspec {["/system" := None]}) as (yspec & es & Hy & Hes & Hkeys);
    [vm_compute; reflexivity|].
  injection Hy as <-. vm_compute in Hes. injection Hes as <-.
  assert (Hin : is_Some (({["/system" := None]} : kvstore) !! "/system/host")).
  { apply Hkeys. cbn. apply list_elem_of_further, list_elem_of_here. }
  destruct Hin as [v Hv]. vm_compute in Hv. discriminate Hv.
Qed.

(** C5, amended: whatever the database held, a successful [kv_put] under
    [OP_REPLACE] leaves what it leaves on any other prior content (the
    database is deleted and initialised before the tree is applied, so no
    prior entry survives); and when no "operation" attribute in the tree
    selects anything but create, merge or replace, the database then holds
    exactly the entries encoded from the tree, written in the order of the
    tree. *)
Theorem kv_put_replace (kh : kv_handle) (db : string) (xt : cxobj) (s s' : kvstore)
    (Hput : kv_put kh db OP_REPLACE xt s = (Ok (), s')) :
  (∀ s0, kv_put kh db OP_REPLACE xt s0 = (Ok (), s'))
  ∧ (elements_all writes_only (x_childvec xt) = true →
     ∃ yspec es,
       kh_yangspec kh = Some yspec ∧ kv_entries yspec xt = Ok es
       ∧ s' = db_set_entries es ∅
       ∧ (∀ k, is_Some (s' !! k) ↔ k ∈ es.*1)
       ∧ (∀ k v, s' !! k = Some v → (k, v) ∈ es)).
Proof.
  unfold kv_put in *. unfold mbind at 1 2, dbM_bind, lift in Hput.
  unfold mbind at 1 2, dbM_bind, lift.
  destruct (kh_yangspec kh) as [yspec|]; [|done]. cbn [nonnull] in *.
  destruct (kv_db2file kh db) as [dbfilename|e]; [|done].
  rewrite decide_True in * by done.
  unfold mbind, dbM_bind, db_delete, db_init in *.
  split; [by intros s0|]. intros Hw.
  destruct (kv_put_children_entries yspec OP_REPLACE _
              ltac:(rewrite !elem_of_cons; auto) Hw _ _ Hput) as (es & Hes & ->).
  exists yspec, es. split_and!; try done.
  - intros k. rewrite db_set_entries_keys, lookup_empty.
    split; [intros [[? [=]]|?]; done | auto].
  - intros k v Hlook. apply db_set_entries_lookup in Hlook as [Hempty|?]; [|done].
    by rewrite lookup_empty in Hempty.
Qed.

Lemma kv_put_replace_witness :
  (∀ s0, kv_put ex_kh "running" OP_REPLACE ex_two_interfaces s0
         = (Ok (), ex_interfaces_db))
  ∧ ∃ yspec es,
      kh_yangspec ex_kh = Some yspec ∧ kv_entries yspec ex_two_interfaces = Ok es
      ∧ ex_interfaces_db = db_set_entries es ∅
      ∧ (∀ k, is_Some (ex_interfaces_db !! k) ↔ k ∈ es.*1)
      ∧ (∀ k v, ex_interfaces_db !! k = Some v → (k, v) ∈ es).
Proof.
  destruct (kv_put_replace ex_kh "running" ex_two_interfaces ex_hosts_db
              ex_interfaces_db) as [Hany Hentries].
  - vm_compute. reflexivity.
  - split; [exact Hany|]. apply Hentries. vm_compute. reflexivity.
Defined.

(** ** The read engine *)

(** *** The outcome of [get] is that of the schema's view of the key *)

Lemma get_descend_err x found xnew rest e :
  (∀ xc, rest xc = Err e) → get_descend x found xnew rest = Err e.
Proof.
  intros Hrest. unfold get_descend.
  destruct found as [[j xc]|]; by rewrite Hrest.
Qed.

Lemma get_descend_ok x found xnew rest :
  (∀ xc, ∃ xc', rest xc = Ok xc') → ∃ x', get_descend x found xnew rest = Ok x'.
Proof.
  intros Hrest. unfold get_descend.
  destruct found as [[j xc]|].
  - destruct (Hrest xc) as [xc' ->]. eauto.
  - destruct (Hrest xnew) as [xc' ->]. eauto.
Qed.

Section GetStatus.
Context (ys : yang_spec) (val : option string).

Lemma get_vec_status vec :
  ∀ y x,
    match vec_status ys y vec with
    | KeyFails e => get_vec ys val y vec x = Err e
    | KeyUndefined => get_vec ys val y vec x = Err (Undefined "uri_percent_decode")
    | _ => ∃ x', get_vec ys val y vec x = Ok x'
    end.
Proof.
  induction vec as [|elem vec IH]; intros y x.
  - cbn. destruct val, (xml_body x); eauto.
  - cbn [vec_status get_vec]. destruct (index_split "=" elem) as [name restval].
    destruct (match y with
              | None => yang_find_topnode ys name
              | Some y0 => yang_find_datanode y0 name
              end) as [y'|]; [|done].
    cbn [nonnull mbind result_bind].
    assert (Hbelow : ∀ found xnew,
      match status_below name (vec_status ys (Some y') vec) with
      | KeyFails e =>
          get_descend x found xnew (get_vec ys val (Some y') vec) = Err e
      | KeyUndefined =>
          get_descend x found xnew (get_vec ys val (Some y') vec)
          = Err (Undefined "uri_percent_decode")
      | _ => ∃ x', get_descend x found xnew (get_vec ys val (Some y') vec) = Ok x'
      end).
    { intros found xnew. pose proof (IH (Some y')) as Hrest.
      destruct (vec_status ys (Some y') vec) as [|earlier|e|]; cbn [status_below].
      - by apply get_descend_ok.
      - by apply get_descend_ok.
      - by apply get_descend_err.
      - by apply get_descend_err. }
    destruct (ys_keyword y'); try apply Hbelow.
    + done.
    + destruct (yang_find y' Y_KEY) as [ykey|]; [|done].
      destruct restval as [r|]; [|done].
      cbn [fmap option_fmap option_map nonnull mbind result_bind].
      destruct (_ =? _)%nat; cbn [negb]; [apply Hbelow | eauto].
Qed.

Lemma clicon_strsep_cons s delim : ∃ h t, clicon_strsep s delim = h :: t.
Proof.
  induction s as [|c s (h & t & IH)]; [by eexists _, _|].
  cbn. case_decide; [by eexists _, _|]. rewrite IH. by eexists _, _.
Qed.

Lemma clicon_strsep_slash xk :
  String.get 0 xk = Some "/"%char →
  (List.length (clicon_strsep xk "/") <? 2)%nat = false.
Proof.
  destruct xk as [|c xk]; [done|]. cbn [String.get]. intros [= ->].
  cbn. destruct (clicon_strsep_cons xk "/") as (h & t & ->). done.
Qed.

(** The outcome of [get] on a key, whatever the tree: an error when the
    schema's view of the key fails, and that error; none that is defined
    when the key has an element of a leaf-list; no error otherwise. *)
Lemma get_status xk x :
  match xk_status ys xk with
  | KeyFails e => get ys xk val x = Err e
  | KeyUndefined => get ys xk val x = Err (Undefined "uri_percent_decode")
  | _ => ∃ x', get ys xk val x = Ok x'
  end.
Proof.
  unfold xk_status, get. case_bool_decide as Hslash; [|done].
  rewrite clicon_strsep_slash by done. apply get_vec_status.
Qed.

End GetStatus.

(** *** The whole read *)

Lemma regexec_all (k : string) : regexec (Regex false [] false) k = true.
Proof. unfold regexec. cbn. by destruct (list_ascii_of_string k). Qed.

(** The scan of [kv_get] returns every pair of the database. *)
Lemma db_regexp_all (s : kvstore) :
  ∃ pairs, db_regexp "" s = (Ok pairs, s)
           ∧ ∀ k v, (k, v) ∈ pairs ↔ s !! k = Some v.
Proof.
  unfold db_regexp. cbn [regcomp list_ascii_of_string]. eexists. split; [done|].
  intros k v. rewrite merge_sort_Permutation, list_elem_of_filter, elem_of_map_to_list.
  cbn [fst]. rewrite regexec_all. tauto.
Qed.

(** The error of a key that fails is one that [get] reports. *)
Lemma vec_status_defined ys y vec fn : vec_status ys y vec ≠ KeyFails (Undefined fn).
Proof.
  revert y. induction vec as [|elem vec IH]; intros y; [done|].
  cbn [vec_status]. destruct (index_split "=" elem) as [name restval].
  destruct (match y with
            | None => yang_find_topnode ys name
            | Some y0 => yang_find_datanode y0 name
            end) as [y'|]; [|done].
  assert (Hbelow : status_below name (vec_status ys (Some y') vec)
                   ≠ KeyFails (Undefined fn)).
  { specialize (IH (Some y')). by destruct (vec_status ys (Some y') vec). }
  destruct (ys_keyword y'); try done.
  destruct (yang_find y' Y_KEY) as [ykey|]; [|done].
  destruct restval as [r|]; [|done]. by destruct (_ =? _)%nat.
Qed.

Lemma xk_status_defined ys xk fn : xk_status ys xk ≠ KeyFails (Undefined fn).
Proof. unfold xk_status. case_bool_decide; [apply vec_status_defined | done]. Qed.

Lemma kv_get_pairs_ok yspec pairs :
  Forall (λ p, key_read (xk_status yspec p.1)) pairs →
  ∀ xt, ∃ xt', kv_get_pairs yspec pairs xt = Ok xt'.
Proof.
  induction 1 as [|p pairs Hp _ IH]; intros xt; [by eexists|].
  cbn [kv_get_pairs]. pose proof (get_status yspec p.2 p.1 xt) as Hget.
  destruct (xk_status yspec p.1); try (by destruct Hp).
  - destruct Hget as [xt' ->]. apply IH.
  - destruct Hget as [xt' ->]. apply IH.
Qed.

Lemma kv_get_pairs_err yspec pairs :
  Forall (λ p, xk_status yspec p.1 ≠ KeyUndefined) pairs →
  Exists (λ p, key_fails (xk_status yspec p.1)) pairs →
  ∀ xt, ∃ p e, p ∈ pairs ∧ xk_status yspec p.1 = KeyFails e
               ∧ kv_get_pairs yspec pairs xt = Err e.
Proof.
  induction pairs as [|p pairs IH]; intros Hdef Hex xt;
    [by apply Exists_nil in Hex|].
  apply Forall_cons in Hdef as [Hp Hdef].
  cbn [kv_get_pairs]. pose proof (get_status yspec p.2 p.1 xt) as Hget.
  destruct (xk_status yspec p.1) as [|earlier|e|] eqn:Hst.
  - destruct Hget as [xt' ->]. apply Exists_cons in Hex as [Hfail|Hex].
    { by rewrite Hst in Hfail. }
    destruct (IH Hdef Hex xt') as (q & e & Hq & Hqst & Hrun).
    exists q, e. split_and!; [by apply list_elem_of_further | done | done].
  - destruct Hget as [xt' ->]. apply Exists_cons in Hex as [Hfail|Hex].
    { by rewrite Hst in Hfail. }
    destruct (IH Hdef Hex xt') as (q & e & Hq & Hqst & Hrun).
    exists q, e. split_and!; [by apply list_elem_of_further | done | done].
  - rewrite Hget. exists p, e. split_and!; [apply list_elem_of_here | done | done].
  - done.
Qed.

Lemma kv_get_unfold kh db dbfile yspec s :
  kv_db2file kh db = Ok dbfile → kh_yangspec kh = Some yspec →
  ∃ pairs, (∀ k v, (k, v) ∈ pairs ↔ s !! k = Some v)
    ∧ kv_get kh db s
      = match kv_get_pairs yspec pairs (xml_new_spec "config" yspec) with
        | Ok xt => (Ok (xml_apply xml_order (xml_apply xml_default xt)), s)
        | Err e => (Err e, s)
        end.
Proof.
  intros Hfile Hys. destruct (db_regexp_all s) as (pairs & Hscan & Hpairs).
  exists pairs. split; [done|].
  unfold kv_get. unfold mbind at 1 2 3, dbM_bind, lift.
  rewrite Hfile, Hys. cbn [nonnull]. rewrite Hscan.
  unfold mbind, dbM_bind, lift. by destruct (kv_get_pairs _ _ _).
Qed.

(** C6: a stored key that is given up at a list element with the wrong
    number of values makes [get] return without an error, and a read of a
    database whose keys all decode or are given up in this way succeeds; a
    key that fails (no leading [/], no schema node of that name, a list
    without key statement, a list element without value) makes [get] fail
    with that error, and a read of a database that holds such a key, and no
    key with an element of a leaf-list, fails with the error of such a key.
    Nothing is said of a key with an element of a leaf-list, at which the
    behaviour of [get] is not defined. *)
Theorem kv_get_skips_count_mismatch (kh : kv_handle) (db dbfile : string)
    (yspec : yang_spec) (s : kvstore)
    (Hfile : kv_db2file kh db = Ok dbfile) (Hys : kh_yangspec kh = Some yspec) :
  (∀ xk val xt earlier, xk_status yspec xk = KeySkipped earlier →
     ∃ xt', get yspec xk val xt = Ok xt')
  ∧ (∀ xk val xt e, xk_status yspec xk = KeyFails e →
       get yspec xk val xt = Err e ∧ ∀ fn, e ≠ Undefined fn)
  ∧ ((∀ xk, is_Some (s !! xk) → key_read (xk_status yspec xk)) →
     ∃ xt, kv_get kh db s = (Ok xt, s))
  ∧ ((∀ xk, is_Some (s !! xk) → xk_status yspec xk ≠ KeyUndefined) →
     ∀ xk, is_Some (s !! xk) → key_fails (xk_status yspec xk) →
     ∃ xk' e, is_Some (s !! xk') ∧ xk_status yspec xk' = KeyFails e
              ∧ kv_get kh db s = (Err e, s)).
Proof.
  split_and!.
  - intros xk val xt earlier Hst. pose proof (get_status yspec val xk xt) as Hget.
    by rewrite Hst in Hget.
  - intros xk val xt e Hst. pose proof (get_status yspec val xk xt) as Hget.
    rewrite Hst in Hget. split; [done|]. intros fn ->.
    by apply (xk_status_defined yspec xk fn).
  - intros Hall. destruct (kv_get_unfold kh db dbfile yspec s Hfile Hys)
      as (pairs & Hpairs & ->).
    destruct (kv_get_pairs_ok yspec pairs) with (xt := xml_new_spec "config" yspec)
      as [xt' ->]; [|by eexists].
    apply Forall_forall. intros [k v] Hin. apply Hall. apply Hpairs in Hin. eauto.
  - intros Hdef xk [v Hv] Hfail.
    destruct (kv_get_unfold kh db dbfile yspec s Hfile Hys) as (pairs & Hpairs & ->).
    destruct (kv_get_pairs_err yspec pairs) with (xt := xml_new_spec "config" yspec)
      as ([k' v'] & e & Hin & Hst & ->).
    { apply Forall_forall. intros [k w] Hin. apply Hdef. apply Hpairs in Hin. eauto. }
    { apply Exists_exists. exists (xk, v). split; [by apply Hpairs | done]. }
    exists k', e. split_and!; [|done|done]. apply Hpairs in Hin. eauto.
Qed.

Lemma kv_get_skips_count_mismatch_witness :
  (∃ xt', get ex_yspec "/system/server=a,b" None (xml_new_spec "config" ex_yspec)
          = Ok xt')
  ∧ get ex_yspec "/system/nosuch" (Some "1") (xml_new_spec "config" ex_yspec)
    = Err (ClErr OE_UNIX "No yang node found: nosuch")
  ∧ (∃ xt, kv_get ex_kh "running" ex_two_values_db = (Ok xt, ex_two_values_db))
  ∧ (∃ xk' e, is_Some (ex_unknown_db !! xk') ∧ xk_status ex_yspec xk' = KeyFails e
              ∧ kv_get ex_kh "running" ex_unknown_db = (Err e, ex_unknown_db)).
Proof.
  destruct (kv_get_skips_count_mismatch ex_kh "running" "/var/db/running_db"
              ex_yspec ex_two_values_db eq_refl eq_refl) as (Hskip & Hfail & Hread & _).
  destruct (kv_get_skips_count_mismatch ex_kh "running" "/var/db/running_db"
              ex_yspec ex_unknown_db eq_refl eq_refl) as (_ & _ & _ & Habort).
  split_and!.
  - apply (Hskip _ _ _ ["system"]). vm_compute. reflexivity.
  - apply Hfail. vm_compute. reflexivity.
  - apply Hread. intros xk [v Hv]. unfold ex_two_values_db in Hv.
    apply lookup_singleton_Some in Hv as [<- _]. vm_compute. tauto.
  - apply (Habort ltac:(intros xk [v Hv]; unfold ex_unknown_db in Hv;
                        apply lookup_singleton_Some in Hv as [<- _]; by vm_compute)
             "/system/nosuch"); [by_compute | vm_compute; exact I].
Defined.

(** *** What [get] leaves in the tree *)

Lemma has_chain_addsub names x xc :
  has_chain names x → has_chain names (xml_addsub x xc).
Proof.
  destruct names as [|n names]; [done|]. cbn. rewrite Exists_app. auto.
Qed.

Lemma has_chain_child_set names x j xc xc' :
  x_childvec x !! j = Some xc → xml_grows xc xc' →
  has_chain names x → has_chain names (xml_child_set x j xc').
Proof.
  intros Hj [Hname Hgrows]. destruct names as [|n names]; [done|]. cbn.
  rewrite !Exists_exists. intros (c & Hc & Hcn & Hchain).
  apply list_elem_of_lookup in Hc as [i Hi].
  destruct (decide (i = j)) as [->|Hne].
  - exists xc'. assert (c = xc) as -> by congruence. split_and!.
    + apply list_elem_of_lookup. exists j. apply list_lookup_insert_eq.
      by eapply lookup_lt_Some.
    + congruence.
    + by apply Hgrows.
  - exists c. split_and!; [|done|done].
    apply list_elem_of_lookup. exists i. by rewrite list_lookup_insert_ne.
Qed.

Lemma has_chain_new_child names x name xc' :
  x_name xc' = name → has_chain names xc' →
  has_chain (name :: names) (xml_addsub x xc').
Proof.
  intros Hname Hchain. cbn. rewrite Exists_app. right. by apply Exists_cons_hd.
Qed.

Lemma has_chain_set_child names x j xc name xc' :
  x_childvec x !! j = Some xc → x_name xc' = name → has_chain names xc' →
  has_chain (name :: names) (xml_child_set x j xc').
Proof.
  intros Hj Hname Hchain. cbn. rewrite Exists_exists. exists xc'. split; [|done].
  apply list_elem_of_lookup. exists j. apply list_lookup_insert_eq.
  by eapply lookup_lt_Some.
Qed.

Lemma xml_grows_refl x : xml_grows x x.
Proof. by split. Qed.

Lemma xml_grows_trans x y z : xml_grows x y → xml_grows y z → xml_grows x z.
Proof. intros [H1 H2] [H3 H4]. split; [congruence | auto]. Qed.

(** The three places the cursor may be found at are children of that name. *)
Lemma xml_find_found x name : found_child x name (xml_find x name).
Proof.
  intros j xc Hfind. unfold xml_find in Hfind.
  apply list_find_Some in Hfind as (Hj & Hname & _). done.
Qed.

Lemma xpath_first_found x name conds : found_child x name (xpath_first x name conds).
Proof.
  intros j xc Hfind. unfold xpath_first in Hfind.
  apply list_find_Some in Hfind as (Hj & (_ & Hname & _) & _). done.
Qed.

Lemma create_keys_name xc ykey cvk valvec :
  x_name (create_keys xc ykey cvk valvec) = x_name xc.
Proof.
  revert xc valvec. induction cvk as [|keyname cvk IH]; intros xc valvec; [done|].
  destruct valvec as [|arg valvec]; [done|]. cbn [create_keys]. by rewrite IH.
Qed.

(** What [get_descend] returns: the parent with the node the cursor went to,
    after the rest of the loop has run on it. *)
Lemma get_descend_inv x name found xnew rest x' :
  found_child x name found → x_name xnew = name →
  get_descend x found xnew rest = Ok x' →
  ∃ xc xc', rest xc = Ok xc' ∧ x_name xc = name
    ∧ ((∃ j, x_childvec x !! j = Some xc ∧ x' = xml_child_set x j xc')
       ∨ x' = xml_addsub x xc').
Proof.
  intros Hfound Hnew. unfold get_descend. destruct found as [[j xc]|].
  - destruct (Hfound j xc eq_refl) as [Hj Hname].
    destruct (rest xc) as [xc'|e] eqn:Hrest; [|done]. intros [= <-].
    exists xc, xc'. split_and!; [done|done|]. left. eauto.
  - destruct (rest xnew) as [xc'|e] eqn:Hrest; [|done]. intros [= <-].
    exists xnew, xc'. split_and!; [done|done|]. by right.
Qed.

Lemma get_descend_grows x name found xnew rest x' :
  found_child x name found → x_name xnew = name →
  (∀ xc xc', rest xc = Ok xc' → xml_grows xc xc') →
  get_descend x found xnew rest = Ok x' → xml_grows x x'.
Proof.
  intros Hfound Hnew Hrest Hget.
  destruct (get_descend_inv _ _ _ _ _ _ Hfound Hnew Hget)
    as (xc & xc' & Hrun & Hname & [(j & Hj & ->) | ->]).
  - split; [done|]. intros names. apply has_chain_child_set with xc; auto.
  - split; [done|]. intros names. apply has_chain_addsub.
Qed.

Section GetGrows.
Context (ys : yang_spec) (val : option string).

(** [get] only adds to the tree. *)
Lemma get_vec_grows vec :
  ∀ y x x', get_vec ys val y vec x = Ok x' → xml_grows x x'.
Proof.
  induction vec as [|elem vec IH]; intros y x x'.
  - cbn. destruct val, (xml_body x); intros [= <-];
      try apply xml_grows_refl.
    split; [done|]. intros names. apply has_chain_addsub.
  - cbn [get_vec]. destruct (index_split "=" elem) as [name restval].
    destruct (match y with
              | None => yang_find_topnode ys name
              | Some y0 => yang_find_datanode y0 name
              end) as [y'|]; [|done].
    cbn [nonnull mbind result_bind].
    destruct (ys_keyword y').
    all: try (apply (get_descend_grows x name);
              [apply xml_find_found | done | apply IH]).
    + done.
    + destruct (yang_find y' Y_KEY) as [ykey|]; [|done].
      destruct restval as [r|]; [|done].
      cbn [fmap option_fmap option_map nonnull mbind result_bind].
      destruct (negb _).
      * intros [= <-]. apply xml_grows_refl.
      * apply (get_descend_grows x name);
          [apply xpath_first_found | apply create_keys_name | apply IH].
Qed.

Lemma get_descend_chain x name found xnew rest x' names :
  found_child x name found → x_name xnew = name →
  (∀ xc xc', rest xc = Ok xc' → x_name xc' = x_name xc ∧ has_chain names xc') →
  get_descend x found xnew rest = Ok x' → has_chain (name :: names) x'.
Proof.
  intros Hfound Hnew Hrest Hget.
  destruct (get_descend_inv _ _ _ _ _ _ Hfound Hnew Hget)
    as (xc & xc' & Hrun & Hname & [(j & Hj & ->) | ->]);
    destruct (Hrest _ _ Hrun) as [Hname' Hchain].
  - apply has_chain_set_child with xc; [done|congruence|done].
  - apply has_chain_new_child; [congruence|done].
Qed.

Lemma status_below_skipped name st earlier :
  status_below name st = KeySkipped earlier →
  ∃ names, st = KeySkipped names ∧ earlier = name :: names.
Proof. destruct st; try done. intros [= <-]. eauto. Qed.

(** When [get] gives a key up, the nodes of the elements before the list
    element are in the tree. *)
Lemma get_vec_chain vec :
  ∀ y x x' earlier,
    vec_status ys y vec = KeySkipped earlier →
    get_vec ys val y vec x = Ok x' → has_chain earlier x'.
Proof.
  induction vec as [|elem vec IH]; intros y x x' earlier; [done|].
  cbn [vec_status get_vec]. destruct (index_split "=" elem) as [name restval].
  destruct (match y with
            | None => yang_find_topnode ys name
            | Some y0 => yang_find_datanode y0 name
            end) as [y'|]; [|done].
  cbn [nonnull mbind result_bind].
  assert (Hbelow : ∀ found xnew,
    found_child x name found → x_name xnew = name →
    status_below name (vec_status ys (Some y') vec) = KeySkipped earlier →
    get_descend x found xnew (get_vec ys val (Some y') vec) = Ok x' →
    has_chain earlier x').
  { intros found xnew Hfound Hnew Hst Hget.
    apply status_below_skipped in Hst as (names & Hst & ->).
    apply (get_descend_chain x name found xnew
             (get_vec ys val (Some y') vec) x' names Hfound Hnew); [|done].
    intros xc xc' Hrun. split; [|by eapply IH].
    by apply get_vec_grows in Hrun as [? _]. }
  destruct (ys_keyword y').
  all: try (apply Hbelow; [apply xml_find_found | done]).
  - done.
  - destruct (yang_find y' Y_KEY) as [ykey|]; [|done].
    destruct restval as [r|]; [|done].
    cbn [fmap option_fmap option_map nonnull mbind result_bind].
    destruct (_ =? _)%nat; cbn [negb].
    + apply Hbelow; [apply xpath_first_found | apply create_keys_name].
    + by intros [= <-] _.
Qed.

Lemma get_grows xk x x' : get ys xk val x = Ok x' → xml_grows x x'.
Proof.
  unfold get. case_bool_decide; [|done].
  destruct (_ <? _)%nat; [done|]. apply get_vec_grows.
Qed.

Lemma get_chain xk x x' earlier :
  xk_status ys xk = KeySkipped earlier →
  get ys xk val x = Ok x' → has_chain earlier x'.
Proof.
  unfold xk_status, get. case_bool_decide; [|done].
  destruct (_ <? _)%nat; [done|]. apply get_vec_chain.
Qed.

End GetGrows.

Lemma kv_get_pairs_grows yspec pairs :
  ∀ xt xt', kv_get_pairs yspec pairs xt = Ok xt' → xml_grows xt xt'.
Proof.
  induction pairs as [|p pairs IH]; intros xt xt'.
  - intros [= <-]. apply xml_grows_refl.
  - cbn [kv_get_pairs]. destruct (get yspec p.1 p.2 xt) as [xt1|e] eqn:Hget; [|done].
    cbn [mbind result_bind]. intros Hrun.
    eapply xml_grows_trans; [by eapply get_grows | by apply IH].
Qed.

Lemma kv_get_pairs_chain yspec pairs xk val earlier :
  (xk, val) ∈ pairs → xk_status yspec xk = KeySkipped earlier →
  ∀ xt xt', kv_get_pairs yspec pairs xt = Ok xt' → has_chain earlier xt'.
Proof.
  intros Hin Hst. induction pairs as [|p pairs IH]; intros xt xt';
    [by apply elem_of_nil in Hin|].
  cbn [kv_get_pairs]. destruct (get yspec p.1 p.2 xt) as [xt1|e] eqn:Hget; [|done].
  cbn [mbind result_bind]. intros Hrun.
  apply elem_of_cons in Hin as [<- | Hin].
  - apply (kv_get_pairs_grows _ _ _ _ Hrun). by eapply get_chain.
  - by eapply IH.
Qed.

(** *** Defaults and ordering keep what is in the tree *)

Lemma chain_step_fmap (g : cxobj → cxobj) n names cs :
  (∀ c, x_name (g c) = x_name c) →
  (∀ c, has_chain names c → has_chain names (g c)) →
  Exists (λ c, x_name c = n ∧ has_chain names c) cs →
  Exists (λ c, x_name c = n ∧ has_chain names c) (g <$> cs).
Proof.
  intros Hname Hchain. rewrite !Exists_exists. intros (c & Hc & Hn & Hnames).
  exists (g c). split_and!; [by apply list_elem_of_fmap_2 | by rewrite Hname | auto].
Qed.

Lemma xml_default_leaf_extends x y :
  x_name (xml_default_leaf x y) = x_name x
  ∧ ∃ extra, x_childvec (xml_default_leaf x y) = x_childvec x ++ extra.
Proof.
  unfold xml_default_leaf.
  destruct (ys_keyword y), (yang_find y Y_DEFAULT), (xml_find x (ys_argument y));
    (split; [done|]); try (by exists []; rewrite app_nil_r).
  by eexists.
Qed.

Lemma xml_default_leaves_extends ys_ x :
  x_name (foldl xml_default_leaf x ys_) = x_name x
  ∧ ∃ extra, x_childvec (foldl xml_default_leaf x ys_) = x_childvec x ++ extra.
Proof.
  revert x. induction ys_ as [|y ys_ IH]; intros x.
  - split; [done|]. exists []. by rewrite app_nil_r.
  - cbn [foldl]. destruct (IH (xml_default_leaf x y)) as (Hname & extra & Hkids).
    destruct (xml_default_leaf_extends x y) as (Hname' & extra' & Hkids').
    split; [congruence|]. exists (extra' ++ extra).
    by rewrite Hkids, Hkids', <- app_assoc.
Qed.

Lemma xml_default_extends x :
  x_name (xml_default x) = x_name x
  ∧ ∃ extra, x_childvec (xml_default x) = x_childvec x ++ extra.
Proof.
  unfold xml_default.
  assert (Hplain : x_name x = x_name x ∧ ∃ extra, x_childvec x = x_childvec x ++ extra)
    by (split; [done|]; exists []; by rewrite app_nil_r).
  destruct (x_spec x) as [ys|]; [|done].
  destruct (ys_keyword ys); try done; apply xml_default_leaves_extends.
Qed.

Lemma order_by_perm names cs : order_by names cs ≡ₚ cs.
Proof.
  revert cs. induction names as [|n names IH]; intros cs; [done|].
  cbn [order_by]. rewrite IH. apply filter_app_complement.
Qed.

Lemma xml_default_keeps : keeps_children xml_default.
Proof.
  intros x. destruct (xml_default_extends x) as (Hname & extra & Hkids).
  split; [done|]. intros c Hc. rewrite Hkids. apply elem_of_app. by left.
Qed.

Lemma xml_order_keeps : keeps_children xml_order.
Proof.
  intros x. split; [done|]. intros c Hc. unfold xml_order. cbn [x_childvec].
  destruct (x_spec x); [by rewrite order_by_perm | done].
Qed.

Lemma xml_apply_elmnt_name fn x :
  keeps_children fn → x_name (xml_apply_elmnt fn x) = x_name x.
Proof. intros Hfn. destruct x. cbn [xml_apply_elmnt]. by rewrite (proj1 (Hfn _)). Qed.

Lemma xml_apply_elmnt_chain fn names :
  keeps_children fn →
  ∀ x, has_chain names x → has_chain names (xml_apply_elmnt fn x).
Proof.
  intros Hfn. induction names as [|n names IH]; intros x; [done|].
  cbn [has_chain]. rewrite !Exists_exists. intros (c & Hc & Hn & Hnames).
  destruct x as [name type value spec xs]. cbn [xml_apply_elmnt x_childvec] in *.
  eexists. split; [apply Hfn; cbn [x_childvec]; by apply list_elem_of_fmap_2|].
  destruct (x_type c); [|done|done].
  split; [by rewrite xml_apply_elmnt_name | by apply IH].
Qed.

Lemma xml_apply_chain (fn : cxobj → cxobj) names xt :
  keeps_children fn → has_chain names xt → has_chain names (xml_apply fn xt).
Proof.
  intros Hfn. destruct names as [|n names]; [done|].
  cbn [has_chain xml_apply x_childvec]. apply chain_step_fmap.
  - intros c. destruct (x_type c); [by apply xml_apply_elmnt_name | done | done].
  - intros c. destruct (x_type c); [by apply xml_apply_elmnt_chain | done | done].
Qed.

(** C9: when a stored key is given up at a list element with the wrong
    number of values, the nodes of the elements before it are in the tree
    [get] leaves, and in the tree [kv_get] returns; so the tree read from a
    database that holds such a key with elements before the list element
    has children, which the tree read from the empty database has not. *)
Theorem skipped_key_leaves_nodes (kh : kv_handle) (db dbfile : string)
    (yspec : yang_spec) (s : kvstore) (xk : string) (earlier : list string)
    (Hfile : kv_db2file kh db = Ok dbfile) (Hys : kh_yangspec kh = Some yspec)
    (Hin : is_Some (s !! xk)) (Hst : xk_status yspec xk = KeySkipped earlier) :
  (∀ val x, ∃ x', get yspec xk val x = Ok x' ∧ has_chain earlier x')
  ∧ (∀ xt, kv_get kh db s = (Ok xt, s) →
       has_chain earlier xt ∧ (earlier ≠ [] → x_childvec xt ≠ []))
  ∧ ∃ xt0, kv_get kh db ∅ = (Ok xt0, ∅) ∧ x_childvec xt0 = [].
Proof.
  split_and!.
  - intros val x. pose proof (get_status yspec val xk x) as Hget.
    rewrite Hst in Hget. destruct Hget as [x' Hget]. exists x'.
    split; [done|]. by eapply get_chain.
  - intros xt. destruct (kv_get_unfold kh db dbfile yspec s Hfile Hys)
      as (pairs & Hpairs & ->).
    destruct (kv_get_pairs _ _ _) as [xt1|e] eqn:Hrun; [|done]. intros [= <-].
    assert (Hchain : has_chain earlier
                       (xml_apply xml_order (xml_apply xml_default xt1))).
    { apply xml_apply_chain; [apply xml_order_keeps|].
      apply xml_apply_chain; [apply xml_default_keeps|].
      destruct Hin as [val Hval].
      apply (kv_get_pairs_chain yspec pairs xk val earlier)
        with (xt := xml_new_spec "config" yspec);
        [by apply Hpairs | done | done]. }
    split; [done|]. destruct earlier as [|n names]; [done|]. intros _ Hnil.
    cbn [has_chain] in Hchain. rewrite Hnil in Hchain. by apply Exists_nil in Hchain.
  - destruct (kv_get_unfold kh db dbfile yspec ∅ Hfile Hys) as (pairs & Hpairs & ->).
    destruct pairs as [|[k v] pairs].
    + eexists. split; [done|]. done.
    + exfalso. specialize (Hpairs k v). rewrite lookup_empty in Hpairs.
      pose proof (proj1 Hpairs (list_elem_of_here _ _)) as Habs. discriminate Habs.
Qed.

Lemma skipped_key_leaves_nodes_witness :
  (∀ val x, ∃ x', get ex_yspec "/system/server=a,b" val x = Ok x'
                  ∧ has_chain ["system"] x')
  ∧ (∀ xt, kv_get ex_kh "running" ex_two_values_db = (Ok xt, ex_two_values_db) →
       has_chain ["system"] xt ∧ (["system"] ≠ [] → x_childvec xt ≠ []))
  ∧ ∃ xt0, kv_get ex_kh "running" ∅ = (Ok xt0, ∅) ∧ x_childvec xt0 = [].
Proof.
  apply (skipped_key_leaves_nodes ex_kh "running" "/var/db/running_db" ex_yspec
           ex_two_values_db "/system/server=a,b" ["system"]).
  - reflexivity.
  - reflexivity.
  - by_compute.
  - vm_compute. reflexivity.
Defined.

(** *** Reading back what was written *)

(** The two interfaces come back as they were written. *)
Example interfaces_read_back :
  ∃ xt, kv_get ex_kh "running" ex_interfaces_db = (Ok xt, ex_interfaces_db)
        ∧ xml_strip xt = ex_two_interfaces.
Proof. eexists. split; vm_compute; reflexivity. Qed.

(** Whatever the schema, the value and the tree: at an element that the
    schema makes a leaf-list, [get] reaches the call of [uri_percent_decode]
    of the leaf-list case. *)
Lemma get_vec_leaf_list ys val y elem vec x ylist :
  match y with
  | None => yang_find_topnode ys (index_split "=" elem).1
  | Some y => yang_find_datanode y (index_split "=" elem).1
  end = Some ylist →
  ys_keyword ylist = Y_LEAF_LIST →
  get_vec ys val y (elem :: vec) x = Err (Undefined "uri_percent_decode").
Proof.
  intros Hy Hkw. cbn [get_vec]. destruct (index_split "=" elem) as [name restval].
  cbn [fst] in Hy. rewrite Hy. cbn [nonnull mbind result_bind]. by rewrite Hkw.
Qed.

(** C1 fails on the code: the two instances [a] and [body] of the leaf-list
    [tag] are written, each under its own key, but they are not read back.
    On either key, whatever the value and the tree, [get] reaches the
    leaf-list case, where [uri_percent_decode] is called with its two
    arguments the other way round than in the list case and [argdec] is read
    and freed without having been set: the read of the database has no
    defined result, where the round trip asks for the tree written. *)
Theorem leaf_list_not_read_back :
  kv_put ex_kh "candidate" OP_MERGE ex_two_tags ∅ = (Ok (), ex_tags_db)
  ∧ (∀ val x, get ex_yspec "/tag=a" val x = Err (Undefined "uri_percent_decode"))
  ∧ (∀ val x, get ex_yspec "/tag=body" val x = Err (Undefined "uri_percent_decode"))
  ∧ kv_get ex_kh "candidate" ex_tags_db
    = (Err (Undefined "uri_percent_decode"), ex_tags_db).
Proof.
  split_and!.
  - vm_compute. reflexivity.
  - intros val x. by apply (get_vec_leaf_list ex_yspec val None "tag=a" [] x ex_tag).
  - intros val x. by apply (get_vec_leaf_list ex_yspec val None "tag=body" [] x ex_tag).
  - vm_compute. reflexivity.
Qed.

(** * Further properties *)

(** ** The lock registry, one lock at a time *)

Lemma eqb_ne (a b : string) : a ≠ b → String.eqb a b = false.
Proof. intros Hne. by apply String.eqb_neq. Qed.

(** X1: [kv_lock] and [kv_unlock] change the lock they name and no other:
    for any other name [kv_islocked] answers as before, whether the call
    succeeded or not; and after [kv_unlock] of a lockable database
    [kv_islocked] returns 0 for it. *)
Theorem kv_lock_unlock_frame (db db' : string) (pid : Z) (l : kv_locks)
    (Hne : db' ≠ db) :
  kv_islocked db' (snd (kv_lock db pid l)) = kv_islocked db' l
  ∧ kv_islocked db' (snd (kv_unlock db l)) = kv_islocked db' l
  ∧ (db ∈ lockable → kv_unlock db l = (Ok (), snd (kv_unlock db l))
                     ∧ kv_islocked db (snd (kv_unlock db l)) = (0%Z, None)).
Proof.
  assert (Hother : ∀ l1 : kv_locks,
    (String.eqb "running" db = false → _running_locked l1 = _running_locked l) →
    (String.eqb "candidate" db = false → _candidate_locked l1 = _candidate_locked l) →
    (String.eqb "startup" db = false → _startup_locked l1 = _startup_locked l) →
    kv_islocked db' l1 = kv_islocked db' l).
  { intros l1 Hr Hc Hs. unfold kv_islocked.
    destruct (String.eqb_spec "running" db') as [<-|_];
      [by rewrite Hr by (by apply eqb_ne)|].
    destruct (String.eqb_spec "candidate" db') as [<-|_];
      [by rewrite Hc by (by apply eqb_ne)|].
    destruct (String.eqb_spec "startup" db') as [<-|_];
      [by rewrite Hs by (by apply eqb_ne)|].
    done. }
  split_and!.
  - apply Hother; unfold kv_lock; intros Hdb;
      repeat (destruct (String.eqb _ db); try done).
  - apply Hother; unfold kv_unlock; intros Hdb;
      repeat (destruct (String.eqb _ db); try done).
  - intros Hdb. by destruct (lockable_cases db Hdb) as [-> | [-> | ->]].
Qed.

Lemma kv_lock_unlock_frame_witness :
  kv_islocked "candidate" (snd (kv_lock "running" 7 (KvLocks 1 2 3)))
  = kv_islocked "candidate" (KvLocks 1 2 3)
  ∧ kv_islocked "candidate" (snd (kv_unlock "running" (KvLocks 1 2 3)))
    = kv_islocked "candidate" (KvLocks 1 2 3)
  ∧ kv_islocked "running" (snd (kv_unlock "running" (KvLocks 1 2 3))) = (0%Z, None).
Proof.
  destruct (kv_lock_unlock_frame "running" "candidate" 7 (KvLocks 1 2 3))
    as (Hlock & Hunlock & Hzero); [by_compute|].
  split_and!; [exact Hlock | exact Hunlock |]. apply Hzero. by_compute.
Defined.

(** X2: [kv_unlock_all] releases the locks of its owner and no other: for
    each of the three databases [kv_islocked] then returns 0 when the owner
    was [pid], and the owner as before when it was another. *)
Theorem kv_unlock_all_releases_own (db : string) (pid : Z) (l : kv_locks)
    (Hdb : db ∈ lockable) :
  kv_islocked db (kv_unlock_all pid l)
  = (if decide (fst (kv_islocked db l) = pid) then 0%Z else fst (kv_islocked db l),
     None).
Proof.
  destruct l as [r c s].
  destruct (lockable_cases db Hdb) as [-> | [-> | ->]];
    unfold kv_islocked, kv_unlock_all;
    cbn [String.eqb Ascii.eqb Bool.eqb fst _running_locked _candidate_locked _startup_locked];
    repeat (case_decide;
            cbn [_running_locked _candidate_locked _startup_locked] in *);
    first [reflexivity | congruence].
Qed.

Lemma kv_unlock_all_releases_own_witness :
  kv_islocked "running" (kv_unlock_all 5 (KvLocks 5 6 5)) = (0%Z, None)
  ∧ kv_islocked "candidate" (kv_unlock_all 5 (KvLocks 5 6 5)) = (6%Z, None).
Proof.
  split.
  - apply (kv_unlock_all_releases_own "running" 5 (KvLocks 5 6 5)). by_compute.
  - apply (kv_unlock_all_releases_own "candidate" 5 (KvLocks 5 6 5)). by_compute.
Defined.

(** X3: the three lock calls accept the same names: on ["running"],
    ["candidate"] and ["startup"] none of them fails; on any other name
    [kv_lock] and [kv_unlock] fail with the no-such-database error and leave
    the registry as it was, and [kv_islocked] logs that error and returns
    -1. *)
Theorem lock_calls_accept_lockable (db : string) (pid : Z) (l : kv_locks) :
  (db ∈ lockable →
     fst (kv_lock db pid l) = Ok () ∧ fst (kv_unlock db l) = Ok ()
     ∧ snd (kv_islocked db l) = None)
  ∧ (db ∉ lockable →
     kv_lock db pid l = (Err (ClErr OE_DB ("No such database: " +:+ db)), l)
     ∧ kv_unlock db l = (Err (ClErr OE_DB ("No such database: " +:+ db)), l)
     ∧ kv_islocked db l
       = ((-1)%Z, Some (ClErr OE_DB ("No such database: " +:+ db)))).
Proof.
  split.
  - intros Hdb. by destruct (lockable_cases db Hdb) as [-> | [-> | ->]].
  - unfold lockable. rewrite !not_elem_of_cons. intros (Hr & Hc & Hs & _).
    unfold kv_lock, kv_unlock, kv_islocked.
    by rewrite !eqb_ne by done.
Qed.

Lemma lock_calls_accept_lockable_witness :
  (fst (kv_lock "startup" 7 kv_locks_init) = Ok ()
   ∧ fst (kv_unlock "startup" kv_locks_init) = Ok ()
   ∧ snd (kv_islocked "startup" kv_locks_init) = None)
  ∧ kv_lock "result" 7 kv_locks_init
    = (Err (ClErr OE_DB "No such database: result"), kv_locks_init)
  ∧ kv_unlock "result" kv_locks_init
    = (Err (ClErr OE_DB "No such database: result"), kv_locks_init)
  ∧ kv_islocked "result" kv_locks_init
    = ((-1)%Z, Some (ClErr OE_DB "No such database: result")).
Proof.
  split.
  - apply (proj1 (lock_calls_accept_lockable "startup" 7 kv_locks_init)). by_compute.
  - apply (proj2 (lock_calls_accept_lockable "result" 7 kv_locks_init)). by_compute.
Defined.

(** ** One file for each database *)

Lemma append_inj_l (a b c : string) : a +:+ b = a +:+ c → b = c.
Proof. induction a as [|ch a IH]; cbn; [done|]. intros [= H]. auto. Qed.

Lemma db_names_cases db :
  db ∈ db_names → db = "running" ∨ db = "candidate" ∨ db = "startup" ∨ db = "tmp".
Proof.
  unfold db_names. rewrite !elem_of_cons, elem_of_nil. tauto.
Qed.

Lemma kv_db2file_ok kh db f :
  kv_db2file kh db = Ok f →
  ∃ dir, kh_dbdir kh = Some dir ∧ db ∈ db_names ∧ f = dir +:+ "/" +:+ db +:+ "_db".
Proof.
  unfold kv_db2file. destruct (kh_dbdir kh) as [dir|]; [|done].
  rewrite db_names_eqb. case_bool_decide as Hdb; [done|]. intros [= <-].
  exists dir. split_and!; try done; by apply dec_stable.
Qed.

Lemma kv_db2file_inj kh db1 db2 f :
  kv_db2file kh db1 = Ok f → kv_db2file kh db2 = Ok f → db1 = db2.
Proof.
  intros (dir & Hdir & Hdb1 & ->)%kv_db2file_ok (dir' & Hdir' & Hdb2 & Heq)%kv_db2file_ok.
  rewrite Hdir in Hdir'. injection Hdir' as <-.
  apply append_inj_l in Heq.
  destruct (db_names_cases _ Hdb1) as [-> | [-> | [-> | ->]]];
    destruct (db_names_cases _ Hdb2) as [-> | [-> | [-> | ->]]];
    first [reflexivity | discriminate Heq].
Qed.

(** X4: with one handle, two database names that resolve to the same file
    are the same name: no two databases share a file. *)
Theorem kv_db2file_injective (kh : kv_handle) (db1 db2 f : string)
    (H1 : kv_db2file kh db1 = Ok f) (H2 : kv_db2file kh db2 = Ok f) :
  db1 = db2.
Proof. exact (kv_db2file_inj kh db1 db2 f H1 H2). Qed.

Lemma kv_db2file_injective_witness : "running" = "running".
Proof.
  apply (kv_db2file_injective ex_kh "running" "running" "/var/db/running_db");
    reflexivity.
Defined.

(** ** Connecting, and the options of a handle *)

(** X5: an option set with [kv_setopt] is the one [kv_getopt] returns, and
    setting one option leaves the other as it was; the schema can be set to
    [NULL], but [kv_setopt] of ["dbdir"] with [NULL] succeeds and keeps the
    directory the handle had. *)
Theorem kv_setopt_getopt (kh : kv_handle) (yspec : option yang_spec) (dir : string) :
  (∃ kh', kv_setopt kh "yangspec" yspec = (Ok (), kh')
          ∧ kv_getopt kh' "yangspec" = Ok yspec
          ∧ kv_getopt kh' "dbdir" = kv_getopt kh "dbdir")
  ∧ (∃ kh', kv_setopt kh "dbdir" (Some dir) = (Ok (), kh')
            ∧ kv_getopt kh' "dbdir" = Ok (Some dir)
            ∧ kv_getopt kh' "yangspec" = kv_getopt kh "yangspec")
  ∧ kv_setopt kh "dbdir" None = (Ok (), kh).
Proof.
  split_and!; [eexists; split_and!; reflexivity .. | reflexivity].
Qed.

(** X6: any option name but ["yangspec"] and ["dbdir"] is refused by
    [kv_getopt] and by [kv_setopt] with the error "Option <name> not
    implemented by plugin" of category [OE_PLUGIN], and [kv_setopt] leaves the
    handle as it was. *)
Theorem kv_option_not_implemented (kh : kv_handle) (optname : string)
    (value : kv_optval optname)
    (Hy : optname ≠ "yangspec") (Hd : optname ≠ "dbdir") :
  kv_getopt kh optname
  = Err (ClErr OE_PLUGIN ("Option " +:+ optname +:+ " not implemented by plugin"))
  ∧ kv_setopt kh optname value
    = (Err (ClErr OE_PLUGIN ("Option " +:+ optname +:+ " not implemented by plugin")),
       kh).
Proof.
  revert value. unfold kv_getopt, kv_setopt, kv_optval.
  rewrite (eqb_ne optname "dbdir") by done.
  generalize (eqb_ne optname "yangspec" Hy).
  by destruct (String.eqb optname "yangspec").
Qed.

Lemma kv_option_not_implemented_witness :
  kv_getopt ex_kh "xpath"
  = Err (ClErr OE_PLUGIN "Option xpath not implemented by plugin")
  ∧ kv_setopt ex_kh "xpath" (Some "/")
    = (Err (ClErr OE_PLUGIN "Option xpath not implemented by plugin"), ex_kh).
Proof.
  apply (kv_option_not_implemented ex_kh "xpath" (Some "/")); by_compute.
Defined.

(** X7: a handle fresh from [kv_connect] has neither option set; setting the
    directory and the schema on it, in either order, gives the same handle,
    which resolves each of the four database names to [<dir>/<name>_db]. *)
Theorem kv_connect_setopt (dir : string) (yspec : yang_spec) (db : string)
    (Hdb : db ∈ db_names) :
  kv_getopt kv_connect "dbdir" = Ok None
  ∧ kv_getopt kv_connect "yangspec" = Ok None
  ∧ ∃ kh, snd (kv_setopt (snd (kv_setopt kv_connect "dbdir" (Some dir)))
                 "yangspec" (Some yspec)) = kh
          ∧ snd (kv_setopt (snd (kv_setopt kv_connect "yangspec" (Some yspec)))
                   "dbdir" (Some dir)) = kh
          ∧ kv_getopt kh "dbdir" = Ok (Some dir)
          ∧ kv_getopt kh "yangspec" = Ok (Some yspec)
          ∧ kv_db2file kh db = Ok (dir +:+ "/" +:+ db +:+ "_db").
Proof.
  split_and!; try reflexivity. eexists. split_and!; try reflexivity.
  cbn. by destruct (db_names_cases db Hdb) as [-> | [-> | [-> | ->]]].
Qed.

Lemma kv_connect_setopt_witness :
  kv_getopt kv_connect "dbdir" = Ok None
  ∧ kv_getopt kv_connect "yangspec" = Ok None
  ∧ ∃ kh, snd (kv_setopt (snd (kv_setopt kv_connect "dbdir" (Some "/var/db")))
                 "yangspec" (Some ex_yspec)) = kh
          ∧ snd (kv_setopt (snd (kv_setopt kv_connect "yangspec" (Some ex_yspec)))
                   "dbdir" (Some "/var/db")) = kh
          ∧ kv_getopt kh "dbdir" = Ok (Some "/var/db")
          ∧ kv_getopt kh "yangspec" = Ok (Some ex_yspec)
          ∧ kv_db2file kh "startup" = Ok "/var/db/startup_db".
Proof.
  apply (kv_connect_setopt "/var/db" ex_yspec "startup"). by_compute.
Defined.

(** ** What [kv_put] and [kv_get] check before they touch the database *)

(** X8: without a schema [kv_put] fails with "No yang spec" whatever the
    database name and the directory, and a database name that does not
    resolve makes [kv_get] fail with the error of the resolver, as it does
    [kv_put] when a schema is set; [kv_get] looks for the schema only once
    the name is resolved. In each case the database is left as it was: under
    [OP_REPLACE] too, nothing is wiped. *)
Theorem kv_put_get_checks (kh : kv_handle) (db : string) (op : operation_type)
    (xt : cxobj) (s : kvstore) :
  (kh_yangspec kh = None →
     kv_put kh db op xt s = (Err (ClErr OE_YANG "No yang spec"), s))
  ∧ (∀ e, kv_db2file kh db = Err e →
       kv_get kh db s = (Err e, s)
       ∧ (kh_yangspec kh ≠ None → kv_put kh db op xt s = (Err e, s)))
  ∧ (∀ f, kv_db2file kh db = Ok f → kh_yangspec kh = None →
       kv_get kh db s = (Err (ClErr OE_YANG "No yang spec"), s)).
Proof.
  unfold kv_put, kv_get, mbind, dbM_bind, lift. split_and!.
  - by intros ->.
  - intros e ->. split; [done|]. by destruct (kh_yangspec kh).
  - by intros f -> ->.
Qed.

Lemma kv_put_get_checks_witness :
  kv_put (KvHandle None None) "result" OP_REPLACE ex_two_interfaces ex_hosts_db
  = (Err (ClErr OE_YANG "No yang spec"), ex_hosts_db)
  ∧ kv_get (KvHandle None None) "result" ex_hosts_db
    = (Err (ClErr OE_XML "dbdir not set"), ex_hosts_db)
  ∧ kv_put ex_kh "result" OP_REPLACE ex_two_interfaces ex_hosts_db
    = (Err (ClErr OE_XML "No such database: result"), ex_hosts_db)
  ∧ kv_get (KvHandle (Some "/var/db") None) "running" ex_hosts_db
    = (Err (ClErr OE_YANG "No yang spec"), ex_hosts_db).
Proof.
  split_and!.
  - apply (proj1 (kv_put_get_checks (KvHandle None None) "result" OP_REPLACE
                    ex_two_interfaces ex_hosts_db)). reflexivity.
  - apply (proj1 (proj2 (kv_put_get_checks (KvHandle None None) "result" OP_REPLACE
                           ex_two_interfaces ex_hosts_db))). reflexivity.
  - apply (proj1 (proj2 (kv_put_get_checks ex_kh "result" OP_REPLACE
                           ex_two_interfaces ex_hosts_db))); [reflexivity | done].
  - apply (proj2 (proj2 (kv_put_get_checks (KvHandle (Some "/var/db") None) "running"
                           OP_REPLACE ex_two_interfaces ex_hosts_db))
             "/var/db/running_db"); reflexivity.
Defined.

Lemma kv_put_children_skip yspec op pre xs s :
  Forall (λ c, x_type c ≠ CX_ELMNT) pre →
  kv_put_children yspec op (pre ++ xs) s = kv_put_children yspec op xs s.
Proof.
  induction 1 as [|c pre Hc _ IH]; [done|].
  cbn [app kv_put_children]. by destruct (x_type c).
Qed.

Lemma kv_put_checked kh db op xt s yspec f :
  kh_yangspec kh = Some yspec → kv_db2file kh db = Ok f →
  kv_put kh db op xt s
  = kv_put_children yspec op (x_childvec xt) (if decide (op = OP_REPLACE) then ∅ else s).
Proof.
  intros Hy Hf. unfold kv_put, mbind, dbM_bind, lift. rewrite Hy, Hf.
  cbn [nonnull]. by case_decide.
Qed.

(** X9: once the schema and the file name are found, [kv_put] under
    [OP_REPLACE] does to any database what it does to an empty one, whether
    it succeeds or fails; so when the first element of the tree has no
    statement in the schema, the call fails with "No yang node found" and
    the database is left empty: what it held is not restored. *)
Theorem kv_put_replace_fails_wiped (kh : kv_handle) (db : string) (xt : cxobj)
    (s : kvstore) (yspec : yang_spec) (f : string)
    (Hy : kh_yangspec kh = Some yspec) (Hf : kv_db2file kh db = Ok f) :
  kv_put kh db OP_REPLACE xt s = kv_put kh db OP_REPLACE xt ∅
  ∧ (∀ pre x xs,
       x_childvec xt = pre ++ x :: xs →
       Forall (λ c, x_type c ≠ CX_ELMNT) pre → x_type x = CX_ELMNT →
       yang_find_topnode yspec (x_name x) = None →
       kv_put kh db OP_REPLACE xt s
       = (Err (ClErr OE_UNIX ("No yang node found: " +:+ x_name x)), ∅)).
Proof.
  rewrite !(kv_put_checked kh db _ xt _ yspec f Hy Hf).
  split; [done|]. intros pre x xs -> Hpre Hx Hnone.
  rewrite kv_put_children_skip by done. cbn [kv_put_children].
  rewrite Hx. unfold mbind, dbM_bind, lift. by rewrite Hnone.
Qed.

Lemma kv_put_replace_fails_wiped_witness :
  kv_put ex_kh "running" OP_REPLACE (xml_elem "config" [xml_leaf "nosuch" "1"])
    ex_hosts_db
  = (Err (ClErr OE_UNIX "No yang node found: nosuch"), ∅).
Proof.
  apply (proj2 (kv_put_replace_fails_wiped ex_kh "running"
                  (xml_elem "config" [xml_leaf "nosuch" "1"]) ex_hosts_db
                  ex_yspec "/var/db/running_db" eq_refl eq_refl)
           [] (xml_leaf "nosuch" "1") []); try reflexivity.
  constructor.
Defined.

(** X10: a tree with no element below its root writes nothing: [kv_put]
    succeeds, under [OP_REPLACE] the database is left empty, and under any
    other operation it is left as it was. *)
Theorem kv_put_no_elements (kh : kv_handle) (db : string) (op : operation_type)
    (xt : cxobj) (s : kvstore) (yspec : yang_spec) (f : string)
    (Hy : kh_yangspec kh = Some yspec) (Hf : kv_db2file kh db = Ok f)
    (Hxt : Forall (λ c, x_type c ≠ CX_ELMNT) (x_childvec xt)) :
  kv_put kh db op xt s = (Ok (), if decide (op = OP_REPLACE) then ∅ else s).
Proof.
  rewrite (kv_put_checked kh db _ xt _ yspec f Hy Hf).
  rewrite <- (app_nil_r (x_childvec xt)). by rewrite kv_put_children_skip.
Qed.

Lemma kv_put_no_elements_witness :
  kv_put ex_kh "running" OP_REPLACE (xml_elem "config" []) ex_hosts_db = (Ok (), ∅)
  ∧ kv_put ex_kh "running" OP_MERGE (xml_elem "config" []) ex_hosts_db
    = (Ok (), ex_hosts_db).
Proof.
  split.
  - apply (kv_put_no_elements ex_kh "running" OP_REPLACE (xml_elem "config" [])
             ex_hosts_db ex_yspec "/var/db/running_db"); try reflexivity.
    constructor.
  - apply (kv_put_no_elements ex_kh "running" OP_MERGE (xml_elem "config" [])
             ex_hosts_db ex_yspec "/var/db/running_db"); try reflexivity.
    constructor.
Defined.

(** ** What a write may touch *)

Lemma prefix_nil b : String.prefix "" b = true.
Proof. by destruct b. Qed.

Lemma prefix_cons c a b : String.prefix (String c a) (String c b) = String.prefix a b.
Proof. cbn. by destruct (Ascii.ascii_dec c c). Qed.

Lemma prefix_refl a : String.prefix a a = true.
Proof. induction a as [|c a IH]; [apply prefix_nil | by rewrite prefix_cons]. Qed.

Lemma prefix_app a b : String.prefix a (a +:+ b) = true.
Proof.
  induction a as [|c a IH]; [apply prefix_nil|].
  change (String c a +:+ b) with (String c (a +:+ b)). by rewrite prefix_cons.
Qed.

Lemma prefix_trans a b c :
  String.prefix a b = true → String.prefix b c = true → String.prefix a c = true.
Proof.
  revert b c. induction a as [|x a IH]; intros b c; [intros; apply prefix_nil|].
  destruct b as [|y b], c as [|z c]; cbn; try done.
  destruct (Ascii.ascii_dec x y) as [->|]; [|done].
  destruct (Ascii.ascii_dec y z) as [->|]; [|done]. apply IH.
Qed.

Lemma prefix_not a b k :
  String.prefix a b = true → String.prefix a k = false → String.prefix b k = false.
Proof.
  intros Hab Hak. destruct (String.prefix b k) eqn:Hbk; [|done].
  by rewrite (prefix_trans a b k Hab Hbk) in Hak.
Qed.

Lemma prefix_longer a c b : String.prefix (a +:+ String c b) a = false.
Proof.
  induction a as [|d a IH]; [done|].
  change (String d a +:+ String c b) with (String d (a +:+ String c b)).
  by rewrite prefix_cons.
Qed.

Lemma append_assoc (a b c : string) : (a +:+ b) +:+ c = a +:+ (b +:+ c).
Proof.
  induction a as [|x a IH]; [done|].
  change (String x (a +:+ b) +:+ c = String x (a +:+ (b +:+ c))).
  change (String x ((a +:+ b) +:+ c) = String x (a +:+ (b +:+ c))). by rewrite IH.
Qed.

Lemma written_under_refl base s : written_under base s s.
Proof. by intros k. Qed.

Lemma written_under_trans base s1 s2 s3 :
  written_under base s1 s2 → written_under base s2 s3 → written_under base s1 s3.
Proof.
  intros H12 H23 k. destruct (H12 k) as [Hs12 Hf12], (H23 k) as [Hs23 Hf23].
  split; [auto|]. intros Hk. by rewrite Hf23, Hf12.
Qed.

Lemma written_under_mono base base' s s' :
  String.prefix base base' = true → written_under base' s s' → written_under base s s'.
Proof.
  intros Hpre Hw k. destruct (Hw k) as [Hs Hf]. split; [done|].
  intros Hk. apply Hf. by apply (prefix_not base).
Qed.

Lemma written_under_insert base xk v s :
  String.prefix base xk = true → written_under base s (<[xk := v]> s).
Proof.
  intros Hpre k. split.
  - intros Hk. destruct (decide (k = xk)) as [->|Hne].
    + rewrite lookup_insert_eq. eauto.
    + by rewrite lookup_insert_ne.
  - intros Hk. rewrite lookup_insert_ne; [done|]. intros ->. congruence.
Qed.

Lemma append_listkeys_from_prefix i ckey xt cvk xk :
  append_listkeys_from i ckey xt cvk = Ok xk → String.prefix ckey xk = true.
Proof.
  revert i ckey. induction cvk as [|keyname cvk IH]; intros i ckey; cbn.
  - intros [= <-]. apply prefix_refl.
  - destruct (xml_find xt keyname) as [xkey|]; [|done]. cbn. intros Hrest.
    apply (prefix_trans _ _ _ (prefix_app ckey _) (IH _ _ Hrest)).
Qed.

(** The key of a node begins with the key above it, a slash and the name of
    the node. *)
Lemma put_key_prefix xt ys xk0 xk :
  put_key xt ys xk0 = Ok xk → String.prefix (xk0 +:+ "/" +:+ x_name xt) xk = true.
Proof.
  unfold put_key.
  destruct (ys_keyword ys); try (intros [= <-]; apply prefix_refl).
  - intros [= <-]. apply prefix_app.
  - apply append_listkeys_from_prefix.
Qed.

Lemma put_write_cases ys op xk body s :
  op ∈ [OP_CREATE; OP_MERGE; OP_REPLACE] →
  (∃ e, put_write ys op xk body s = (Err e, s))
  ∨ put_write ys op xk body s = (Ok false, <[xk := body]> s).
Proof.
  rewrite !elem_of_cons, elem_of_nil. intros [-> | [-> | [-> | []]]];
    cbn [put_write]; unfold mbind, dbM_bind, db_exists, db_set, lift, mret, dbM_ret;
    [|by right..].
  case_bool_decide; [left; eauto | by right].
Qed.

Lemma put_children_under ys op xk xs :
  op ∈ [OP_CREATE; OP_MERGE; OP_REPLACE] →
  Forall (λ x, ∀ ys op xk0 s,
            op ∈ [OP_CREATE; OP_MERGE; OP_REPLACE] → writes_only x = true →
            written_under (xk0 +:+ "/" +:+ x_name x) s (snd (put x ys op xk0 s))) xs →
  elements_all writes_only xs = true →
  ∀ s, written_under (xk +:+ "/") s (snd (put_children ys op xk xs s)).
Proof.
  intros Hop Hall. induction Hall as [|x xs Hx _ IH]; intros Hw s.
  - apply written_under_refl.
  - cbn [elements_all forallb] in Hw. apply andb_true_iff in Hw as [Hwx Hw].
    cbn [put_children]. destruct (x_type x); try (by apply IH).
    unfold mbind at 1 2, dbM_bind, lift.
    destruct (nonnull _ _) as [y|e]; [|apply written_under_refl].
    specialize (Hx y op xk s Hop Hwx).
    apply (written_under_mono (xk +:+ "/")) in Hx;
      [|rewrite <- append_assoc; apply prefix_app].
    destruct (put x y op xk s) as [[[]|e] s1]; [|exact Hx].
    exact (written_under_trans _ _ _ _ Hx (IH Hw s1)).
Qed.

Lemma put_under x :
  ∀ ys op xk0 s,
    op ∈ [OP_CREATE; OP_MERGE; OP_REPLACE] → writes_only x = true →
    written_under (xk0 +:+ "/" +:+ x_name x) s (snd (put x ys op xk0 s)).
Proof.
  induction x as [name type value spec xs IH] using cxobj_forall_ind.
  intros ys op xk0 s Hop Hw.
  rewrite put_unfold. unfold put_steps.
  rewrite writes_only_unfold in Hw. apply andb_true_iff in Hw as [Hattr Hkids].
  destruct (put_op _ op) as [op'|e] eqn:Hop'; [|apply written_under_refl].
  pose proof (put_op_writes _ _ _ Hop Hattr Hop') as Hwrites.
  destruct (put_key _ ys xk0) as [xk|e] eqn:Hkey; [|apply written_under_refl].
  apply put_key_prefix in Hkey.
  destruct (put_write_cases ys op' xk (xml_body (Cxobj name type value spec xs)) s Hwrites)
    as [[e ->] | ->]; [apply written_under_refl|].
  apply (written_under_trans _ _ (<[xk := xml_body (Cxobj name type value spec xs)]> s)).
  - by apply written_under_insert.
  - apply (written_under_mono _ (xk +:+ "/")).
    + apply (prefix_trans _ _ _ Hkey), prefix_app.
    + by apply put_children_under.
Qed.

(** X11: under create, merge or replace, on a tree in which no "operation"
    attribute selects anything else, [put], whether it succeeds or fails,
    takes no key out of the database, and changes nothing at the keys that do
    not begin with the key above the node, a slash and the name of the
    node. *)
Theorem put_writes_under_own_key (x : cxobj) (ys : yang_stmt) (op : operation_type)
    (xk0 k : string) (s : kvstore)
    (Hop : op ∈ [OP_CREATE; OP_MERGE; OP_REPLACE])
    (Hx : writes_only x = true) :
  (is_Some (s !! k) → is_Some (snd (put x ys op xk0 s) !! k))
  ∧ (String.prefix (xk0 +:+ "/" +:+ x_name x) k = false →
     snd (put x ys op xk0 s) !! k = s !! k).
Proof. exact (put_under x ys op xk0 s Hop Hx k). Qed.

Lemma put_writes_under_own_key_witness :
  is_Some (snd (put ex_unknown_child ex_system OP_MERGE "" ex_interfaces_db)
             !! "/interface=eth001")
  ∧ snd (put ex_unknown_child ex_system OP_MERGE "" ex_interfaces_db)
      !! "/interface=eth001/mtu"
    = ex_interfaces_db !! "/interface=eth001/mtu".
Proof.
  split.
  - apply (proj1 (put_writes_under_own_key ex_unknown_child ex_system OP_MERGE ""
                    "/interface=eth001" ex_interfaces_db
                    ltac:(by_compute) ltac:(by_compute))).
    by_compute.
  - apply (proj2 (put_writes_under_own_key ex_unknown_child ex_system OP_MERGE ""
                    "/interface=eth001/mtu" ex_interfaces_db
                    ltac:(by_compute) ltac:(by_compute))).
    by_compute.
Defined.

(** *** Keys no longer than the key above are left alone *)

Lemma string_length_app (a b : string) :
  String.length (a +:+ b) = (String.length a + String.length b)%nat.
Proof.
  induction a as [|c a IH]; [done|].
  change (String c a +:+ b) with (String c (a +:+ b)). cbn [String.length].
  by rewrite IH.
Qed.

Lemma list_ascii_length (s : string) :
  List.length (list_ascii_of_string s) = String.length s.
Proof. induction s as [|c s IH]; [done|]. cbn. by rewrite IH. Qed.

Lemma prefix_length a b :
  String.prefix a b = true → (String.length a ≤ String.length b)%nat.
Proof.
  revert b. induction a as [|c a IH]; intros b; [cbn; lia|].
  destruct b as [|d b]; [done|]. cbn [String.prefix String.length].
  destruct (Ascii.ascii_dec c d); [|done]. intros Hpre%IH. lia.
Qed.

Lemma wild_prefix_length p k :
  wild_prefix p k = true → (List.length p ≤ List.length k)%nat.
Proof.
  revert k. induction p as [|c p IH]; intros k; [cbn; lia|].
  destruct k as [|d k]; [done|]. cbn [wild_prefix List.length].
  intros [_ Hrest%IH]%andb_true_iff. lia.
Qed.

Lemma key_selected_length xk k :
  key_selected xk k = true → (String.length xk ≤ String.length k)%nat.
Proof.
  unfold key_selected. intros Hsel%wild_prefix_length.
  by rewrite !list_ascii_length in Hsel.
Qed.

(** The key of a node is longer than the key above it. *)
Lemma put_key_longer xt ys xk0 xk :
  put_key xt ys xk0 = Ok xk → (String.length xk0 < String.length xk)%nat.
Proof.
  intros Hpre%put_key_prefix%prefix_length.
  rewrite string_length_app in Hpre.
  change ("/" +:+ x_name xt) with (String "/" (x_name xt)) in Hpre.
  cbn [String.length] in Hpre. lia.
Qed.

Lemma put_remove_shorter ys xk s k :
  rx_literal xk = true → (String.length k < String.length xk)%nat →
  snd (put_remove ys xk s) !! k = s !! k.
Proof.
  intros Hlit Hk.
  destruct (decide (ys_keyword ys = Y_LIST ∨ ys_keyword ys = Y_CONTAINER)) as [Hkw|Hkw].
  - rewrite put_remove_subtree by done. cbn [snd]. rewrite map_lookup_filter.
    destruct (s !! k) as [v|]; [|done]. cbn.
    rewrite option_guard_decide, decide_True; [done|].
    apply not_true_is_false. intros Hsel%key_selected_length. lia.
  - rewrite put_remove_leaf by tauto. cbn [snd].
    rewrite lookup_delete_ne; [done|]. intros ->. lia.
Qed.

Lemma put_write_shorter ys op xk body s k :
  rx_literal xk = true → (String.length k < String.length xk)%nat →
  snd (put_write ys op xk body s) !! k = s !! k.
Proof.
  intros Hlit Hk.
  pose proof (put_remove_shorter ys xk s k Hlit Hk) as Hrem.
  assert (Hset : (<[xk := body]> s) !! k = s !! k)
    by (rewrite lookup_insert_ne; [done|]; intros ->; lia).
  destruct op; cbn [put_write];
    unfold mbind, dbM_bind, db_exists, db_set, lift, mret, dbM_ret; try done.
  - by case_bool_decide.
  - by case_bool_decide.
Qed.

Lemma names_plain_unfold x :
  names_plain x = plain_name (x_name x) && elements_all names_plain (x_childvec x).
Proof. by destruct x. Qed.

Lemma put_children_shorter ys op xk xs :
  rx_literal xk = true →
  Forall (λ x, ∀ ys op xk0 s k,
            rx_literal xk0 = true → names_plain x = true →
            (String.length k ≤ String.length xk0)%nat →
            snd (put x ys op xk0 s) !! k = s !! k) xs →
  elements_all names_plain xs = true →
  ∀ s k, (String.length k ≤ String.length xk)%nat →
         snd (put_children ys op xk xs s) !! k = s !! k.
Proof.
  intros Hlit Hall. induction Hall as [|x xs Hx _ IH]; intros Hn s k Hk; [done|].
  cbn [elements_all forallb] in Hn. apply andb_true_iff in Hn as [Hnx Hn].
  cbn [put_children]. destruct (x_type x); try (by apply IH).
  unfold mbind at 1 2, dbM_bind, lift.
  destruct (nonnull _ _) as [y|e]; [|done].
  specialize (Hx y op xk s k Hlit Hnx Hk).
  destruct (put x y op xk s) as [[[]|e] s1]; [|exact Hx].
  cbn [snd] in Hx. by rewrite IH.
Qed.

(** Under a key without pattern operators, on a tree with plain names,
    [put] leaves alone every key that is not longer than the key above the
    node, whatever the operations. *)
Lemma put_shorter x :
  ∀ ys op xk0 s k,
    rx_literal xk0 = true → names_plain x = true →
    (String.length k ≤ String.length xk0)%nat →
    snd (put x ys op xk0 s) !! k = s !! k.
Proof.
  induction x as [name type value spec xs IH] using cxobj_forall_ind.
  intros ys op xk0 s k Hlit Hn Hk.
  rewrite names_plain_unfold in Hn. apply andb_true_iff in Hn as [Hname Hkids].
  rewrite put_unfold. unfold put_steps.
  destruct (put_op _ op) as [op'|e]; [|done].
  destruct (put_key _ ys xk0) as [xk|e] eqn:Hkey; [|done].
  pose proof (put_key_longer _ _ _ _ Hkey) as Hlonger.
  pose proof (put_key_literal _ _ _ _ Hlit Hname Hkey) as Hlit'.
  pose proof (put_write_shorter ys op' xk
                (xml_body (Cxobj name type value spec xs)) s k Hlit' ltac:(lia))
    as Hwrite.
  destruct (put_write ys op' xk _ s) as [[[|]|e] s1]; try exact Hwrite.
  cbn [snd x_childvec] in *. rewrite <- Hwrite.
  apply put_children_shorter; [done | done | done | lia].
Qed.

(** X12: under a key without pattern operators, for a node without
    "operation" attribute in a tree with plain names: under merge or
    replace, or under create with no entry at its key, the entry of the node
    is in the database after [put], whether [put] succeeds or fails below the
    node and whatever the operations selected below it: what was written
    before a failure is not taken back. *)
Theorem put_keeps_what_was_written (x : cxobj) (ys : yang_stmt) (op : operation_type)
    (xk0 xk : string) (s : kvstore)
    (Hop : op ∈ [OP_CREATE; OP_MERGE; OP_REPLACE])
    (Hnew : op = OP_CREATE → s !! xk = None)
    (Hattr : xml_find_value x "operation" = None)
    (Hlit : rx_literal xk0 = true)
    (Hnames : names_plain x = true)
    (Hkey : put_key x ys xk0 = Ok xk) :
  snd (put x ys op xk0 s) !! xk = Some (xml_body x).
Proof.
  rewrite names_plain_unfold in Hnames. apply andb_true_iff in Hnames as [Hname Hkids].
  pose proof (put_key_literal _ _ _ _ Hlit Hname Hkey) as Hlit'.
  rewrite put_unfold. unfold put_steps, put_op. rewrite Hattr, Hkey.
  assert (Hwrite : put_write ys op xk (xml_body x) s
                   = (Ok false, <[xk := xml_body x]> s)).
  { destruct (put_write_cases ys op xk (xml_body x) s Hop) as [[e He] | ->]; [|done].
    revert He. rewrite !elem_of_cons, elem_of_nil in Hop.
    destruct Hop as [-> | [-> | [-> | []]]]; [|done..].
    cbn [put_write]. unfold mbind, dbM_bind, db_exists.
    rewrite bool_decide_eq_false_2; [done|]. rewrite Hnew by done. by intros [? ?]. }
  rewrite Hwrite.
  rewrite (put_children_shorter ys op xk (x_childvec x) Hlit'
             ltac:(apply Forall_forall; intros; by apply put_shorter) Hkids _ xk)
    by lia.
  apply lookup_insert_eq.
Qed.

Lemma put_keeps_what_was_written_witness :
  put ex_delete_below ex_system OP_MERGE "" ex_interfaces_db
  = (Err (does_not_exist "/system/hostname"),
     snd (put ex_delete_below ex_system OP_MERGE "" ex_interfaces_db))
  ∧ snd (put ex_delete_below ex_system OP_MERGE "" ex_interfaces_db) !! "/system"
    = Some None.
Proof.
  split; [vm_compute; reflexivity|].
  apply (put_keeps_what_was_written ex_delete_below ex_system OP_MERGE "" "/system"
           ex_interfaces_db); try (vm_compute; reflexivity); try done. by_compute.
Defined.

(** ** What a removal may touch *)

Lemma removes_only_unfold x :
  removes_only x
  = match xml_find_value x "operation" with
    | Some opstr => bool_decide (opstr ∈ ["delete"; "remove"; "none"])
    | None => true
    end && elements_all removes_only (x_childvec x).
Proof. by destruct x. Qed.

Lemma put_op_removes xt op op' :
  op ∈ [OP_DELETE; OP_REMOVE; OP_NONE] →
  match xml_find_value xt "operation" with
  | Some opstr => bool_decide (opstr ∈ ["delete"; "remove"; "none"])
  | None => true
  end = true →
  put_op xt op = Ok op' → op' ∈ [OP_DELETE; OP_REMOVE; OP_NONE].
Proof.
  intros Hop Hattr. unfold put_op.
  destruct (xml_find_value xt "operation") as [opstr|]; [|by intros [= <-]].
  apply bool_decide_eq_true in Hattr.
  rewrite !elem_of_cons, elem_of_nil in Hattr.
  destruct Hattr as [-> | [-> | [-> | []]]]; intros [= <-];
    rewrite !elem_of_cons; auto.
Qed.

Lemma db_del_pairs_subseteq pairs s : snd (db_del_pairs pairs s) ⊆ s.
Proof.
  destruct (db_del_pairs_run pairs s) as (s' & -> & Hlook).
  apply map_subseteq_spec. intros k v. cbn [snd]. rewrite Hlook. by case_decide.
Qed.

Lemma put_remove_subseteq ys xk s : snd (put_remove ys xk s) ⊆ s.
Proof.
  assert (Hsub : snd ((pairs ← db_regexp ("^" +:+ xk +:+ ".*$");
                       db_del_pairs pairs;; mret true) s) ⊆ s).
  { unfold mbind, dbM_bind, db_regexp.
    destruct (regcomp _) as [r|]; [|done].
    pose proof (db_del_pairs_subseteq
                  (merge_sort pair_le
                     (filter (λ p, regexec r (fst p) = true) (map_to_list s))) s) as Hdel.
    by destruct (db_del_pairs _ s) as [[[]|e] s1]. }
  assert (Hleaf : snd ((db_del xk;; mret false) s) ⊆ s) by apply delete_subseteq.
  unfold put_remove. by destruct (ys_keyword ys).
Qed.

Lemma put_write_subseteq ys op xk body s :
  op ∈ [OP_DELETE; OP_REMOVE; OP_NONE] → snd (put_write ys op xk body s) ⊆ s.
Proof.
  rewrite !elem_of_cons, elem_of_nil. intros [-> | [-> | [-> | []]]];
    cbn [put_write]; [|apply put_remove_subseteq|done].
  unfold mbind, dbM_bind, db_exists, lift.
  case_bool_decide; [apply put_remove_subseteq|done].
Qed.

Lemma put_children_subseteq ys op xk xs :
  op ∈ [OP_DELETE; OP_REMOVE; OP_NONE] →
  Forall (λ x, ∀ ys op xk0 s,
            op ∈ [OP_DELETE; OP_REMOVE; OP_NONE] → removes_only x = true →
            snd (put x ys op xk0 s) ⊆ s) xs →
  elements_all removes_only xs = true →
  ∀ s, snd (put_children ys op xk xs s) ⊆ s.
Proof.
  intros Hop Hall. induction Hall as [|x xs Hx _ IH]; intros Hw s; [done|].
  cbn [elements_all forallb] in Hw. apply andb_true_iff in Hw as [Hwx Hw].
  cbn [put_children]. destruct (x_type x); try (by apply IH).
  unfold mbind at 1 2, dbM_bind, lift.
  destruct (nonnull _ _) as [y|e]; [|done].
  specialize (Hx y op xk s Hop Hwx).
  destruct (put x y op xk s) as [[[]|e] s1]; [|exact Hx].
  etrans; [apply (IH Hw s1) | exact Hx].
Qed.

Lemma put_subseteq x :
  ∀ ys op xk0 s,
    op ∈ [OP_DELETE; OP_REMOVE; OP_NONE] → removes_only x = true →
    snd (put x ys op xk0 s) ⊆ s.
Proof.
  induction x as [name type value spec xs IH] using cxobj_forall_ind.
  intros ys op xk0 s Hop Hw.
  rewrite put_unfold. unfold put_steps.
  rewrite removes_only_unfold in Hw. apply andb_true_iff in Hw as [Hattr Hkids].
  destruct (put_op _ op) as [op'|e] eqn:Hop'; [|done].
  pose proof (put_op_removes _ _ _ Hop Hattr Hop') as Hremoves.
  destruct (put_key _ ys xk0) as [xk|e]; [|done].
  pose proof (put_write_subseteq ys op' xk
                (xml_body (Cxobj name type value spec xs)) s Hremoves) as Hwrite.
  destruct (put_write ys op' xk _ s) as [[[|]|e] s1]; try exact Hwrite.
  etrans; [by apply put_children_subseteq | exact Hwrite].
Qed.

(** X13: under delete, remove or none, on a tree in which no "operation"
    attribute selects anything else, [put], whether it succeeds or fails,
    adds no entry to the database and changes the value of none: every entry
    the database holds afterwards, it held before. *)
Theorem put_removal_adds_nothing (x : cxobj) (ys : yang_stmt) (op : operation_type)
    (xk0 k : string) (v : option string) (s : kvstore)
    (Hop : op ∈ [OP_DELETE; OP_REMOVE; OP_NONE])
    (Hx : removes_only x = true)
    (Hk : snd (put x ys op xk0 s) !! k = Some v) :
  s !! k = Some v.
Proof.
  by apply (proj1 (map_subseteq_spec _ _) (put_subseteq x ys op xk0 s Hop Hx) k v).
Qed.

Lemma put_removal_adds_nothing_witness :
  ex_hosts_db !! "/system/hostname" = Some (Some "b").
Proof.
  apply (put_removal_adds_nothing ex_delete_host ex_system OP_DELETE ""
           "/system/hostname" (Some "b") ex_hosts_db); by_compute.
Defined.

Example delete_host_run :
  put ex_delete_host ex_system OP_DELETE "" ex_hosts_db
  = (Ok (), {["/system/hostname" := Some "b"]}).
Proof. vm_compute. reflexivity. Qed.

(** ** The key of a list entry, written and read *)

Lemma append_nil_r (a : string) : a +:+ "" = a.
Proof.
  induction a as [|c a IH]; [done|].
  change (String c (a +:+ "") = String c a). by rewrite IH.
Qed.

Lemma lacks_app c a b : lacks c (a +:+ b) = lacks c a && lacks c b.
Proof. unfold lacks. by rewrite list_ascii_of_string_app, forallb_app. Qed.

Lemma lacks_cons c a s :
  lacks c (String a s) = negb (bool_decide (a = c)) && lacks c s.
Proof. done. Qed.

Lemma unreserved_not_separator (c : ascii) :
  uri_unreserved c = true → c ≠ "/"%char ∧ c ≠ "="%char ∧ c ≠ ","%char.
Proof. destruct c as [[] [] [] [] [] [] [] []]; vm_compute; intros; split_and!; congruence. Qed.

Lemma hexdigit_not_separator (c d : ascii) :
  d ∈ ["/"; "="; ","]%char →
  hexdigit (N_of_ascii c / 16) ≠ d ∧ hexdigit (N_of_ascii c mod 16) ≠ d.
Proof.
  rewrite !elem_of_cons, elem_of_nil. intros [-> | [-> | [-> | []]]];
    destruct c as [[] [] [] [] [] [] [] []]; vm_compute; split; congruence.
Qed.

(** An encoded value holds none of the separators of a key. *)
Lemma uri_percent_encode_lacks (d : ascii) (v : string) :
  d ∈ ["/"; "="; ","]%char → lacks d (uri_percent_encode v) = true.
Proof.
  intros Hd. induction v as [|c v IH]; [done|].
  cbn [uri_percent_encode]. destruct (uri_unreserved c) eqn:Hc.
  - rewrite lacks_cons, IH, bool_decide_eq_false_2; [done|].
    destruct (unreserved_not_separator c Hc) as (H1 & H2 & H3).
    rewrite !elem_of_cons, elem_of_nil in Hd.
    by destruct Hd as [-> | [-> | [-> | []]]].
  - destruct (hexdigit_not_separator c d Hd) as [H1 H2].
    rewrite !lacks_cons, IH, !bool_decide_eq_false_2; [done | done | done |].
    rewrite !elem_of_cons, elem_of_nil in Hd.
    by destruct Hd as [-> | [-> | [-> | []]]].
Qed.

Lemma plain_name_lacks (d : ascii) (n : string) :
  d ∈ ["/"; "="; ","]%char → plain_name n = true → lacks d n = true.
Proof.
  intros Hd. unfold plain_name, lacks. rewrite !forallb_forall. intros Hn c Hc.
  destruct (unreserved_not_separator c (Hn c Hc)) as (H1 & H2 & H3).
  rewrite bool_decide_eq_false_2; [done|].
  rewrite !elem_of_cons, elem_of_nil in Hd.
  by destruct Hd as [-> | [-> | [-> | []]]].
Qed.

Lemma index_split_app c a r :
  lacks c a = true → index_split c (a +:+ String c r) = (a, Some r).
Proof.
  induction a as [|x a IH]; intros Ha.
  - change ("" +:+ String c r) with (String c r). cbn [index_split].
    by rewrite decide_True.
  - rewrite lacks_cons in Ha. apply andb_true_iff in Ha as [Hx Ha].
    apply negb_true_iff, bool_decide_eq_false in Hx.
    change (String x a +:+ String c r) with (String x (a +:+ String c r)).
    cbn [index_split]. rewrite decide_False by done. by rewrite IH.
Qed.

Lemma clicon_strsep_lacks d a : lacks d a = true → clicon_strsep a d = [a].
Proof.
  induction a as [|x a IH]; intros Ha; [done|].
  rewrite lacks_cons in Ha. apply andb_true_iff in Ha as [Hx Ha].
  apply negb_true_iff, bool_decide_eq_false in Hx.
  cbn [clicon_strsep]. rewrite decide_False by done. by rewrite IH.
Qed.

Lemma clicon_strsep_app d a r :
  lacks d a = true → clicon_strsep (a +:+ String d r) d = a :: clicon_strsep r d.
Proof.
  induction a as [|x a IH]; intros Ha.
  - change ("" +:+ String d r) with (String d r). cbn [clicon_strsep].
    by rewrite decide_True.
  - rewrite lacks_cons in Ha. apply andb_true_iff in Ha as [Hx Ha].
    apply negb_true_iff, bool_decide_eq_false in Hx.
    change (String x a +:+ String d r) with (String x (a +:+ String d r)).
    cbn [clicon_strsep]. rewrite decide_False by done. by rewrite IH.
Qed.

(** The values of a key, cut at the commas, are the encoded values. *)
Lemma clicon_strsep_key_text i enc encs :
  Forall (λ e, lacks "," e = true) (enc :: encs) →
  clicon_strsep (enc +:+ key_text (S i) encs) "," = enc :: encs.
Proof.
  revert i enc. induction encs as [|enc' encs IH]; intros i enc Hall.
  - cbn [key_text]. rewrite append_nil_r. apply clicon_strsep_lacks.
    by apply Forall_cons in Hall as [? _].
  - apply Forall_cons in Hall as [Henc Hall]. cbn [key_text].
    change ("," +:+ enc' +:+ key_text (S (S i)) encs)
      with (String "," (enc' +:+ key_text (S (S i)) encs)).
    rewrite clicon_strsep_app by done. by rewrite IH.
Qed.

(** The key [append_listkeys] builds: the text it is given and the encoded
    values of the key children. *)
Lemma append_listkeys_from_ok i ckey xt cvk xk :
  append_listkeys_from i ckey xt cvk = Ok xk →
  xk = ckey +:+ key_text i (uri_percent_encode <$> key_values xt cvk).
Proof.
  revert i ckey. induction cvk as [|keyname cvk IH]; intros i ckey.
  - intros [= <-]. cbn. by rewrite append_nil_r.
  - cbn [append_listkeys_from key_values fmap list_fmap key_text].
    destruct (xml_find xt keyname) as [xkey|]; [|done].
    cbn [nonnull mbind result_bind option_bind]. intros Hrest.
    rewrite (IH _ _ Hrest). unfold key_values. by rewrite !append_assoc.
Qed.

Lemma key_text_lacks d i encs :
  d ≠ "="%char → d ≠ ","%char → Forall (λ e, lacks d e = true) encs →
  lacks d (key_text i encs) = true.
Proof.
  intros H1 H2 Hall. revert i. induction Hall as [|enc encs Henc _ IH]; intros i; [done|].
  cbn [key_text]. rewrite !lacks_app, Henc, IH.
  destruct i; unfold lacks; cbn; by rewrite bool_decide_eq_false_2.
Qed.

Lemma key_values_encoded d xt cvk :
  d ∈ ["/"; "="; ","]%char →
  Forall (λ e, lacks d e = true) (uri_percent_encode <$> key_values xt cvk).
Proof.
  intros Hd. apply Forall_fmap, Forall_forall. intros v _.
  by apply uri_percent_encode_lacks.
Qed.

(** The key of an entry of a list: the key above it, a slash, the name, and
    the encoded values of the key children, of which there is at least
    one. *)
Lemma put_key_list xt y ykey xk0 xk :
  ys_keyword y = Y_LIST → yang_find y Y_KEY = Some ykey →
  put_key xt y xk0 = Ok xk →
  ∃ enc encs,
    uri_percent_encode <$> key_values xt (yang_arg2cvec ykey " ") = enc :: encs
    ∧ xk = xk0 +:+ "/" +:+ x_name xt +:+ "=" +:+ enc +:+ key_text 1 encs.
Proof.
  intros Hkw Hkey. unfold put_key, append_listkeys, ys_cvec. rewrite Hkw, Hkey.
  intros Hxk%append_listkeys_from_ok. revert Hxk.
  unfold yang_arg2cvec.
  destruct (clicon_strsep_cons (ys_argument ykey) " ") as (k & ks & ->).
  cbn [key_values fmap list_fmap key_text]. intros ->.
  eexists _, _. split; [reflexivity|]. by rewrite !append_assoc.
Qed.

Lemma create_keys_instance xc ykey cvk vals :
  create_keys xc ykey cvk (uri_percent_encode <$> vals)
  = Cxobj (x_name xc) (x_type xc) (x_value xc) (x_spec xc)
      (x_childvec xc
       ++ zip_with (λ keyname v, Cxobj keyname CX_ELMNT None (Some ykey) [xml_new_body v])
            cvk vals).
Proof.
  revert xc vals. induction cvk as [|keyname cvk IH]; intros xc vals.
  - cbn. rewrite app_nil_r. by destruct xc.
  - destruct vals as [|v vals].
    + cbn. rewrite app_nil_r. by destruct xc.
    + cbn [fmap list_fmap create_keys zip_with]. rewrite IH.
      rewrite uri_percent_decode_encode.
      cbn [create_keyvalues xml_addsub xml_new_spec x_name x_type x_value x_spec
             x_childvec app].
      by rewrite <- app_assoc.
Qed.

Lemma list_instance_body name y ykey cvk vals :
  xml_body (list_instance name y ykey cvk vals) = None.
Proof.
  unfold xml_body, list_instance. cbn [x_childvec].
  assert (Hnone : list_find (λ c, x_type c = CX_BODY)
            (zip_with (λ keyname v, Cxobj keyname CX_ELMNT None (Some ykey) [xml_new_body v])
               cvk vals) = None); [|by rewrite Hnone].
  apply list_find_None, Forall_forall.
  intros c (k & v & -> & _)%elem_of_zip_with. done.
Qed.

(** What [get] makes of the key [put] builds for an entry of a list at the
    top of the schema: an entry with the texts [append_listkeys] has
    encoded. *)
Lemma list_key_decoded (yspec : yang_spec) (y ykey : yang_stmt) (xt : cxobj)
    (xk : string) (val : option string)
    (Hy : yang_find_topnode yspec (x_name xt) = Some y)
    (Hkw : ys_keyword y = Y_LIST)
    (Hkey : yang_find y Y_KEY = Some ykey)
    (Hname : plain_name (x_name xt) = true)
    (Hxk : put_key xt y "" = Ok xk) :
  let cvk := yang_arg2cvec ykey " " in
  let entry := list_instance (x_name xt) y ykey cvk (key_values xt cvk) in
  get yspec xk val (xml_new_spec "config" yspec)
  = Ok (xml_addsub (xml_new_spec "config" yspec)
          match val with
          | Some v => xml_addsub entry (xml_new_body v)
          | None => entry
          end).
Proof.
  intros cvk entry.
  destruct (put_key_list xt y ykey "" xk Hkw Hkey Hxk) as (enc & encs & Hencs & ->).
  pose proof (key_values_encoded "/" xt cvk ltac:(by_compute)) as Hslash.
  pose proof (key_values_encoded "," xt cvk ltac:(by_compute)) as Hcomma.
  fold cvk in Hencs. rewrite Hencs in Hslash, Hcomma.
  set (rest := enc +:+ key_text 1 encs).
  set (elem := x_name xt +:+ String "=" rest).
  change ("" +:+ "/" +:+ x_name xt +:+ "=" +:+ rest) with (String "/" elem).
  assert (Helem : lacks "/" elem = true).
  { unfold elem, rest. rewrite lacks_app, lacks_cons, lacks_app.
    rewrite (plain_name_lacks "/" (x_name xt)) by (done || by_compute).
    apply Forall_cons in Hslash as [-> Hslash].
    by rewrite key_text_lacks. }
  unfold get. rewrite bool_decide_eq_true_2 by done.
  cbn [clicon_strsep]. rewrite decide_True by done.
  rewrite (clicon_strsep_lacks "/" elem Helem).
  cbn [List.length Nat.ltb Nat.leb tail get_vec].
  unfold elem at 1. rewrite index_split_app by (apply plain_name_lacks; done || by_compute).
  rewrite Hy. cbn [nonnull mbind result_bind]. rewrite Hkw, Hkey.
  cbn [nonnull mbind result_bind fmap option_fmap option_map].
  fold cvk.
  assert (Hvalvec : clicon_strsep rest "," = uri_percent_encode <$> key_values xt cvk)
    by (unfold rest; by rewrite (clicon_strsep_key_text 0 enc encs Hcomma)).
  rewrite !Hvalvec, length_fmap. unfold key_values at 1. rewrite length_fmap.
  rewrite Nat.eqb_refl. cbn [negb].
  unfold xpath_first. cbn [xml_new_spec x_childvec list_find get_descend].
  rewrite create_keys_instance.
  cbn [xml_new_spec x_name x_type x_value x_spec x_childvec app get_vec].
  fold (list_instance (x_name xt) y ykey cvk (key_values xt cvk)). fold entry.
  unfold entry at 1. rewrite list_instance_body. fold entry.
  by destruct val.
Qed.

Lemma key_values_bodies xt cvk :
  key_values xt cvk = cstr <$> key_bodies xt cvk.
Proof. unfold key_values, key_bodies. by rewrite <- list_fmap_compose. Qed.

Lemma cstr_some (vals : list string) : cstr <$> (Some <$> vals) = vals.
Proof.
  rewrite <- list_fmap_compose. rewrite <- (list_fmap_id vals) at 2.
  by apply list_fmap_ext.
Qed.

(** X14: for an entry of a list at the top of the schema, with a plain name,
    whose key children all have body text: the key [put] builds for it is
    read back by [get]. On the bare root, [get] with that key creates the
    entry with, for each key name of the list, a child that holds the body
    text of the key child of the entry written, whatever characters that
    text is made of; a value stored with the key becomes the body of the
    entry. *)
Theorem list_key_read_back (yspec : yang_spec) (y ykey : yang_stmt) (xt : cxobj)
    (xk : string) (val : option string) (vals : list string)
    (Hy : yang_find_topnode yspec (x_name xt) = Some y)
    (Hkw : ys_keyword y = Y_LIST)
    (Hkey : yang_find y Y_KEY = Some ykey)
    (Hname : plain_name (x_name xt) = true)
    (Hvals : key_bodies xt (yang_arg2cvec ykey " ") = Some <$> vals)
    (Hxk : put_key xt y "" = Ok xk) :
  get yspec xk val (xml_new_spec "config" yspec)
  = Ok (xml_addsub (xml_new_spec "config" yspec)
          match val with
          | Some v =>
              xml_addsub
                (list_instance (x_name xt) y ykey (yang_arg2cvec ykey " ") vals)
                (xml_new_body v)
          | None => list_instance (x_name xt) y ykey (yang_arg2cvec ykey " ") vals
          end).
Proof.
  pose proof (list_key_decoded yspec y ykey xt xk val Hy Hkw Hkey Hname Hxk) as Hget.
  cbv zeta in Hget. by rewrite key_values_bodies, Hvals, cstr_some in Hget.
Qed.

Lemma list_key_read_back_witness :
  get ex_yspec "/interface=eth0%2F1%2C2" None (xml_new_spec "config" ex_yspec)
  = Ok (xml_addsub (xml_new_spec "config" ex_yspec)
          (list_instance "interface" ex_interface (YangStmt Y_KEY "name" [])
             ["name"] ["eth0/1,2"])).
Proof.
  apply (list_key_read_back ex_yspec ex_interface (YangStmt Y_KEY "name" [])
           ex_interface_entry "/interface=eth0%2F1%2C2" None ["eth0/1,2"]);
    vm_compute; reflexivity.
Defined.

Lemma key_split n1 n2 r1 r2 :
  lacks "=" n1 = true → lacks "=" n2 = true →
  n1 +:+ String "=" r1 = n2 +:+ String "=" r2 → n1 = n2 ∧ r1 = r2.
Proof.
  intros H1 H2 Heq.
  pose proof (index_split_app "=" n1 r1 H1) as Hs1.
  rewrite Heq, (index_split_app "=" n2 r2 H2) in Hs1. by injection Hs1 as -> ->.
Qed.

Lemma encoded_inj (vs1 vs2 : list string) :
  uri_percent_encode <$> vs1 = uri_percent_encode <$> vs2 → vs1 = vs2.
Proof.
  intros Heq. apply (f_equal (fmap uri_percent_decode)) in Heq.
  rewrite <- !list_fmap_compose in Heq.
  rewrite !(list_fmap_ext (uri_percent_decode ∘ uri_percent_encode) id) in Heq
    by (intros; apply uri_percent_decode_encode).
  by rewrite !list_fmap_id in Heq.
Qed.

(** Under one key and one statement, two elements with plain names that
    [put] gives the same key have the same name and, as [%s] prints them,
    the same body text for a leaf-list and the same texts in their key
    children for a list. *)
Lemma put_key_same_printed (y : yang_stmt) (x1 x2 : cxobj) (xk0 xk : string)
    (Hn1 : plain_name (x_name x1) = true) (Hn2 : plain_name (x_name x2) = true)
    (H1 : put_key x1 y xk0 = Ok xk) (H2 : put_key x2 y xk0 = Ok xk) :
  x_name x1 = x_name x2
  ∧ (ys_keyword y = Y_LEAF_LIST → cstr (xml_body x1) = cstr (xml_body x2))
  ∧ (∀ ykey, ys_keyword y = Y_LIST → yang_find y Y_KEY = Some ykey →
       key_values x1 (yang_arg2cvec ykey " ") = key_values x2 (yang_arg2cvec ykey " ")).
Proof.
  destruct (ys_keyword y) eqn:Hkw;
    try (split_and!; [|done|done];
         revert H1 H2; unfold put_key; rewrite Hkw; intros [= <-] [= Heq];
         by apply append_inj_l, append_inj_l in Heq).
  - (* leaf-list *)
    revert H1 H2. unfold put_key. rewrite Hkw. intros [= <-] [= Heq].
    rewrite !append_assoc in Heq. apply append_inj_l, append_inj_l in Heq.
    apply key_split in Heq as [Hname Hbody];
      try (apply plain_name_lacks; done || by_compute).
    split_and!; [done | | done]. intros _.
    apply (f_equal uri_percent_decode) in Hbody.
    by rewrite !uri_percent_decode_encode in Hbody.
  - (* list *)
    destruct (yang_find y Y_KEY) as [ykey|] eqn:Hkey.
    + destruct (put_key_list x1 y ykey xk0 xk Hkw Hkey H1) as (e1 & es1 & He1 & Hxk1).
      destruct (put_key_list x2 y ykey xk0 xk Hkw Hkey H2) as (e2 & es2 & He2 & Hxk2).
      rewrite Hxk1 in Hxk2. apply append_inj_l, append_inj_l in Hxk2.
      apply key_split in Hxk2 as [Hname Hrest];
        try (apply plain_name_lacks; done || by_compute).
      split_and!; [done | done |]. intros ? _ [= <-].
      apply encoded_inj. rewrite He1, He2.
      pose proof (key_values_encoded "," x1 (yang_arg2cvec ykey " ") ltac:(by_compute))
        as Hc1.
      pose proof (key_values_encoded "," x2 (yang_arg2cvec ykey " ") ltac:(by_compute))
        as Hc2.
      rewrite He1 in Hc1. rewrite He2 in Hc2.
      rewrite <- (clicon_strsep_key_text 0 e1 es1 Hc1).
      rewrite <- (clicon_strsep_key_text 0 e2 es2 Hc2). by rewrite Hrest.
    + split_and!; [|done|done].
      revert H1 H2. unfold put_key, append_listkeys, ys_cvec. rewrite Hkw, Hkey.
      intros [= <-] [= Heq]. by apply append_inj_l, append_inj_l in Heq.
Qed.

(** A missing body is printed [(null)]: an element without body text and
    one with the body text [(null)] get the same key. *)
Example null_body_same_key :
  put_key (xml_elem "tag" []) ex_tag "" = put_key (xml_leaf "tag" "(null)") ex_tag "".
Proof. reflexivity. Qed.

Lemma cstr_inj (l1 l2 : list (option string)) :
  Forall is_Some l1 → Forall is_Some l2 → cstr <$> l1 = cstr <$> l2 → l1 = l2.
Proof.
  intros H1. revert l2. induction H1 as [|b1 l1 [v1 ->] _ IH]; intros l2 H2.
  - by destruct l2.
  - destruct H2 as [|b2 l2 [v2 ->] H2]; [done|].
    cbn [fmap list_fmap cstr default]. intros [= -> Heq]. f_equal. by apply IH.
Qed.

(** X15: under one key and one statement, two elements with plain names
    that [put] gives the same key have the same name; when both have body
    text, for a leaf-list they have the same body text; when all their key
    children have body text, for a list they have the same body texts in
    their key children, whatever characters the texts are made of. So two
    entries with body text in all key children that differ in a key value
    never share a key. *)
Theorem put_key_injective (y : yang_stmt) (x1 x2 : cxobj) (xk0 xk : string)
    (Hn1 : plain_name (x_name x1) = true) (Hn2 : plain_name (x_name x2) = true)
    (H1 : put_key x1 y xk0 = Ok xk) (H2 : put_key x2 y xk0 = Ok xk) :
  x_name x1 = x_name x2
  ∧ (ys_keyword y = Y_LEAF_LIST → is_Some (xml_body x1) → is_Some (xml_body x2) →
     xml_body x1 = xml_body x2)
  ∧ (∀ ykey, ys_keyword y = Y_LIST → yang_find y Y_KEY = Some ykey →
       Forall is_Some (key_bodies x1 (yang_arg2cvec ykey " ")) →
       Forall is_Some (key_bodies x2 (yang_arg2cvec ykey " ")) →
       key_bodies x1 (yang_arg2cvec ykey " ") = key_bodies x2 (yang_arg2cvec ykey " ")).
Proof.
  destruct (put_key_same_printed y x1 x2 xk0 xk Hn1 Hn2 H1 H2)
    as (Hname & Hbody & Hkeys).
  split_and!; [done | |].
  - intros Hkw [b1 Hb1] [b2 Hb2]. specialize (Hbody Hkw).
    rewrite Hb1, Hb2 in Hbody |- *. cbn in Hbody. by rewrite Hbody.
  - intros ykey Hkw Hkey Hs1 Hs2. apply cstr_inj; [done | done |].
    rewrite <- !key_values_bodies. by apply Hkeys.
Qed.

Lemma put_key_injective_witness :
  x_name ex_interface_entry = x_name ex_interface_entry2
  ∧ key_bodies ex_interface_entry ["name"] = key_bodies ex_interface_entry2 ["name"].
Proof.
  destruct (put_key_injective ex_interface ex_interface_entry ex_interface_entry2 ""
              "/interface=eth0%2F1%2C2")
    as (Hname & _ & Hvalues); try (vm_compute; reflexivity).
  split; [exact Hname|].
  apply (Hvalues (YangStmt Y_KEY "name" [])); try (vm_compute; reflexivity);
    by_compute.
Defined.

(** ** Reading leaves the database as it is *)

(** X16: [kv_get] changes nothing in the database, whether it succeeds or
    fails; and on a database that holds no key it returns the root [config]
    alone, with the schema attached and no child. *)
Theorem kv_get_reads_only (kh : kv_handle) (db : string) (s : kvstore) :
  snd (kv_get kh db s) = s
  ∧ (∀ f yspec, kv_db2file kh db = Ok f → kh_yangspec kh = Some yspec →
       kv_get kh db ∅ = (Ok (xml_new_spec "config" yspec), ∅)).
Proof.
  split.
  - unfold kv_get. unfold mbind at 1 2 3, dbM_bind, lift.
    destruct (kv_db2file kh db) as [f|e]; [|done].
    destruct (nonnull _ _) as [yspec|e]; [|done].
    destruct (db_regexp_all s) as (pairs & -> & _).
    unfold mbind, dbM_bind, lift. by destruct (kv_get_pairs _ _ _).
  - intros f yspec Hf Hy. unfold kv_get. unfold mbind at 1 2 3, dbM_bind, lift.
    rewrite Hf, Hy. cbn [nonnull]. unfold db_regexp. cbn [regcomp list_ascii_of_string].
    rewrite map_to_list_empty. reflexivity.
Qed.

Lemma kv_get_reads_only_witness :
  snd (kv_get ex_kh "running" ex_unknown_db) = ex_unknown_db
  ∧ kv_get ex_kh "running" ∅ = (Ok (xml_new_spec "config" ex_yspec), ∅).
Proof.
  destruct (kv_get_reads_only ex_kh "running" ex_unknown_db) as [Hsame Hempty].
  split; [exact Hsame|]. by apply (Hempty "/var/db/running_db").
Defined.

(** ** Writing the same tree again *)

Lemma db_set_entries_other (es : list db_pair) (s : kvstore) (k : string) :
  k ∉ es.*1 → db_set_entries es s !! k = s !! k.
Proof.
  revert s. induction es as [|p es IH]; intros s Hk; [done|].
  cbn [fmap list_fmap] in Hk. apply not_elem_of_cons in Hk as [Hne Hk].
  cbn [db_set_entries foldl]. fold (db_set_entries es (<[p.1 := p.2]> s)).
  by rewrite IH, lookup_insert_ne.
Qed.

Lemma db_set_entries_written (es : list db_pair) (s t : kvstore) (k : string) :
  k ∈ es.*1 → db_set_entries es s !! k = db_set_entries es t !! k.
Proof.
  revert s t. induction es as [|p es IH]; intros s t Hk; [by apply elem_of_nil in Hk|].
  cbn [db_set_entries foldl].
  fold (db_set_entries es (<[p.1 := p.2]> s)) (db_set_entries es (<[p.1 := p.2]> t)).
  destruct (decide (k ∈ es.*1)) as [Hin|Hout]; [by apply IH|].
  rewrite !db_set_entries_other by done.
  cbn [fmap list_fmap] in Hk. apply elem_of_cons in Hk as [-> | Hk]; [|done].
  by rewrite !lookup_insert_eq.
Qed.

(** Writing the same entries a second time changes nothing. *)
Lemma db_set_entries_idemp (es : list db_pair) (s : kvstore) :
  db_set_entries es (db_set_entries es s) = db_set_entries es s.
Proof.
  apply map_eq. intros k. destruct (decide (k ∈ es.*1)) as [Hin|Hout].
  - by apply db_set_entries_written.
  - by rewrite db_set_entries_other.
Qed.

Lemma upserts_only_unfold x :
  upserts_only x
  = match xml_find_value x "operation" with
    | Some opstr => bool_decide (opstr ∈ ["merge"; "replace"])
    | None => true
    end && elements_all upserts_only (x_childvec x).
Proof. by destruct x. Qed.

Lemma put_op_upserts xt op op' :
  op ∈ [OP_MERGE; OP_REPLACE] →
  match xml_find_value xt "operation" with
  | Some opstr => bool_decide (opstr ∈ ["merge"; "replace"])
  | None => true
  end = true →
  put_op xt op = Ok op' → op' ∈ [OP_MERGE; OP_REPLACE].
Proof.
  intros Hop Hattr. unfold put_op.
  destruct (xml_find_value xt "operation") as [opstr|]; [|by intros [= <-]].
  apply bool_decide_eq_true in Hattr.
  rewrite !elem_of_cons, elem_of_nil in Hattr.
  destruct Hattr as [-> | [-> | []]]; intros [= <-]; rewrite !elem_of_cons; auto.
Qed.

Lemma put_children_upserts ys op xk xs :
  op ∈ [OP_MERGE; OP_REPLACE] →
  Forall put_upserts xs → elements_all upserts_only xs = true →
  ∃ r es, ∀ s, put_children ys op xk xs s = (r, db_set_entries es s).
Proof.
  intros Hop Hall. induction Hall as [|x xs Hx _ IH]; intros Hw.
  - by exists (Ok ()), [].
  - cbn [elements_all forallb] in Hw. apply andb_true_iff in Hw as [Hwx Hw].
    cbn [put_children]. destruct (x_type x); try (by apply IH).
    unfold mbind at 1 2, dbM_bind, lift.
    destruct (nonnull _ _) as [y|e]; [|by exists (Err e), []].
    destruct (Hx y op xk Hop Hwx) as (r1 & es1 & Hrun1).
    destruct (IH Hw) as (r2 & es2 & Hrun2).
    destruct r1 as [[]|e].
    + exists r2, (es1 ++ es2). intros s.
      by rewrite Hrun1, db_set_entries_app.
    + exists (Err e), es1. intros s. by rewrite Hrun1.
Qed.

Lemma put_upserts_all x : put_upserts x.
Proof.
  induction x as [name type value spec xs IH] using cxobj_forall_ind.
  intros ys op xk0 Hop Hw.
  rewrite upserts_only_unfold in Hw. apply andb_true_iff in Hw as [Hattr Hkids].
  destruct (put_op (Cxobj name type value spec xs) op) as [op'|e] eqn:Hop'.
  2: { exists (Err e), []. intros s. rewrite put_unfold. unfold put_steps.
       by rewrite Hop'. }
  pose proof (put_op_upserts _ _ _ Hop Hattr Hop') as Hups.
  destruct (put_key (Cxobj name type value spec xs) ys xk0) as [xk|e] eqn:Hkey.
  2: { exists (Err e), []. intros s. rewrite put_unfold. unfold put_steps.
       by rewrite Hop', Hkey. }
  destruct (put_children_upserts ys op' xk xs Hups IH Hkids) as (r & es & Hrun).
  exists r, ((xk, xml_body (Cxobj name type value spec xs)) :: es). intros s.
  rewrite put_unfold. unfold put_steps. rewrite Hop', Hkey.
  assert (Hwrite : put_write ys op' xk (xml_body (Cxobj name type value spec xs)) s
                   = (Ok false, <[xk := xml_body (Cxobj name type value spec xs)]> s)).
  { rewrite !elem_of_cons, elem_of_nil in Hups. by destruct Hups as [-> | [-> | []]]. }
  rewrite Hwrite. cbn [x_childvec]. by rewrite Hrun.
Qed.

Lemma kv_put_children_upserts yspec op xs :
  op ∈ [OP_MERGE; OP_REPLACE] → elements_all upserts_only xs = true →
  ∃ r es, ∀ s, kv_put_children yspec op xs s = (r, db_set_entries es s).
Proof.
  intros Hop. induction xs as [|x xs IH]; intros Hw.
  - by exists (Ok ()), [].
  - cbn [elements_all forallb] in Hw. apply andb_true_iff in Hw as [Hwx Hw].
    cbn [kv_put_children]. destruct (x_type x); try (by apply IH).
    unfold mbind at 1 2, dbM_bind, lift.
    destruct (nonnull _ _) as [ys|e]; [|by exists (Err e), []].
    destruct (put_upserts_all x ys op "" Hop Hwx) as (r1 & es1 & Hrun1).
    destruct (IH Hw) as (r2 & es2 & Hrun2).
    destruct r1 as [[]|e].
    + exists r2, (es1 ++ es2). intros s.
      by rewrite Hrun1, db_set_entries_app.
    + exists (Err e), es1. intros s. by rewrite Hrun1.
Qed.

(** X17: merging is idempotent. On a tree in which no "operation" attribute
    selects anything but merge or replace, [put] under merge or replace, and
    [kv_put] under [OP_MERGE], called again on the database the first call
    left, return what the first call returned, success or error, and leave
    that database as it is. *)
Theorem kv_put_merge_idempotent (kh : kv_handle) (db : string) (xt : cxobj)
    (ys : yang_stmt) (op : operation_type) (xk0 : string) (s : kvstore)
    (Hop : op ∈ [OP_MERGE; OP_REPLACE]) :
  (upserts_only xt = true →
   put xt ys op xk0 (snd (put xt ys op xk0 s)) = put xt ys op xk0 s)
  ∧ (elements_all upserts_only (x_childvec xt) = true →
     kv_put kh db OP_MERGE xt (snd (kv_put kh db OP_MERGE xt s))
     = kv_put kh db OP_MERGE xt s).
Proof.
  split.
  - intros Hxt. destruct (put_upserts_all xt ys op xk0 Hop Hxt) as (r & es & Hrun).
    rewrite !Hrun. cbn [snd]. by rewrite db_set_entries_idemp.
  - intros Hxt. unfold kv_put. unfold mbind at 1 2 3 5 6 7, dbM_bind, lift.
    destruct (nonnull _ _) as [yspec|e]; [|done].
    destruct (kv_db2file kh db) as [f|e]; [|done].
    rewrite decide_False by done. unfold mbind, dbM_bind, mret, dbM_ret.
    destruct (kv_put_children_upserts yspec OP_MERGE (x_childvec xt)
                ltac:(rewrite !elem_of_cons; auto) Hxt) as (r & es & Hrun).
    rewrite !Hrun. cbn [snd]. by rewrite db_set_entries_idemp.
Qed.

Lemma kv_put_merge_idempotent_witness :
  put ex_unknown_child ex_system OP_MERGE ""
    (snd (put ex_unknown_child ex_system OP_MERGE "" ex_hosts_db))
  = put ex_unknown_child ex_system OP_MERGE "" ex_hosts_db
  ∧ kv_put ex_kh "running" OP_MERGE ex_two_interfaces
      (snd (kv_put ex_kh "running" OP_MERGE ex_two_interfaces ex_hosts_db))
    = kv_put ex_kh "running" OP_MERGE ex_two_interfaces ex_hosts_db.
Proof.
  split.
  - apply (proj1 (kv_put_merge_idempotent ex_kh "running" ex_unknown_child ex_system
                    OP_MERGE "" ex_hosts_db ltac:(by_compute))).
    vm_compute. reflexivity.
  - apply (proj2 (kv_put_merge_idempotent ex_kh "running" ex_two_interfaces ex_system
                    OP_MERGE "" ex_hosts_db ltac:(by_compute))).
    vm_compute. reflexivity.
Defined.

(** X18: creating is not idempotent. Under a key without pattern operators,
    when [put] under [OP_CREATE] has succeeded for a node without
    "operation" attribute in a tree with plain names, whatever the
    operations selected below the node, the same call on the database it
    left fails with the already-exists error of the node's own key, and
    leaves that database as it is. *)
Theorem put_create_twice (x : cxobj) (ys : yang_stmt) (xk0 xk : string)
    (s s' : kvstore)
    (Hattr : xml_find_value x "operation" = None)
    (Hlit : rx_literal xk0 = true)
    (Hnames : names_plain x = true)
    (Hkey : put_key x ys xk0 = Ok xk)
    (Hput : put x ys OP_CREATE xk0 s = (Ok (), s')) :
  put x ys OP_CREATE xk0 s' = (Err (already_exists xk), s').
Proof.
  assert (Hin : is_Some (s' !! xk)).
  { rewrite names_plain_unfold in Hnames.
    apply andb_true_iff in Hnames as [Hname Hkids].
    pose proof (put_key_literal _ _ _ _ Hlit Hname Hkey) as Hlit'.
    rewrite put_unfold in Hput. unfold put_steps, put_op in Hput.
    rewrite Hattr, Hkey in Hput.
    assert (Hop : OP_CREATE ∈ [OP_CREATE; OP_MERGE; OP_REPLACE])
      by (rewrite !elem_of_cons; auto).
    destruct (put_write_cases ys OP_CREATE xk (xml_body x) s Hop) as [[e He] | Hw];
      rewrite ?He, ?Hw in Hput; [done|].
    pose proof (put_children_shorter ys OP_CREATE xk (x_childvec x) Hlit'
                  ltac:(apply Forall_forall; intros; by apply put_shorter) Hkids
                  (<[xk := xml_body x]> s) xk ltac:(lia)) as Hkeep.
    rewrite Hput in Hkeep. cbn [snd] in Hkeep.
    rewrite Hkeep, lookup_insert_eq. eauto. }
  rewrite put_unfold. unfold put_steps, put_op. rewrite Hattr, Hkey.
  by rewrite put_write_create_exists.
Qed.

Lemma put_create_twice_witness :
  put ex_interface_quiet ex_interface OP_CREATE ""
    (snd (put ex_interface_quiet ex_interface OP_CREATE "" ex_hosts_db))
  = (Err (already_exists "/interface=eth1"),
     snd (put ex_interface_quiet ex_interface OP_CREATE "" ex_hosts_db)).
Proof.
  apply (put_create_twice ex_interface_quiet ex_interface "" "/interface=eth1"
           ex_hosts_db); vm_compute; reflexivity.
Defined.

(** ** The database files of a directory *)

Lemma kv_db2file_other kh db db' f f' :
  kv_db2file kh db = Ok f → kv_db2file kh db' = Ok f' → db' ≠ db → f' ≠ f.
Proof.
  intros Hf Hf' Hne ->. by apply Hne, (kv_db2file_inj kh db' db f).
Qed.

Lemma kv_exists_other kh db' f f' fs fs' :
  kv_db2file kh db' = Ok f' → f' ≠ f →
  (∀ g, g ≠ f → fs' !! g = fs !! g) →
  kv_exists kh db' fs' = kv_exists kh db' fs.
Proof.
  intros Hf' Hne Hsame. unfold kv_exists, lstat. rewrite Hf'.
  cbn [mbind result_bind]. by rewrite Hsame.
Qed.

(** X19: [kv_create], [kv_delete] and [kv_exists] fail only when the name
    does not resolve, with the error of the resolver and nothing changed.
    Otherwise [kv_create] and [kv_delete] succeed; [kv_exists] returns 1 for
    the database after [kv_create] and 0 after [kv_delete], whether the file
    was there before or not; and for any other database name [kv_exists]
    answers after either call as it did before. *)
Theorem kv_create_delete_exists (kh : kv_handle) (db db' : string) (fs : kvfiles) :
  (∀ e, kv_db2file kh db = Err e →
     kv_exists kh db fs = Err e ∧ kv_create kh db fs = (Err e, fs)
     ∧ kv_delete kh db fs = (Err e, fs))
  ∧ (∀ f, kv_db2file kh db = Ok f →
     (∃ fs1, kv_create kh db fs = (Ok (), fs1) ∧ kv_exists kh db fs1 = Ok 1%Z
             ∧ (db' ≠ db → kv_exists kh db' fs1 = kv_exists kh db' fs))
     ∧ (∃ fs2, kv_delete kh db fs = (Ok (), fs2) ∧ kv_exists kh db fs2 = Ok 0%Z
               ∧ (db' ≠ db → kv_exists kh db' fs2 = kv_exists kh db' fs))).
Proof.
  split.
  - intros e He. unfold kv_exists, kv_create, kv_delete. by rewrite He.
  - intros f Hf. unfold kv_create, kv_delete. rewrite Hf.
    unfold db_init_file, db_delete_file, db_init. split; eexists; split_and!; try done.
    + unfold kv_exists, lstat. rewrite Hf. cbn [mbind result_bind].
      by rewrite lookup_insert_eq, bool_decide_eq_true_2.
    + intros Hne. destruct (kv_db2file kh db') as [f'|e] eqn:Hf';
        [|by unfold kv_exists; rewrite Hf'].
      apply (kv_exists_other kh db' f f'); [done | by eapply kv_db2file_other |].
      intros g Hg. by rewrite lookup_insert_ne.
    + unfold kv_exists, lstat. rewrite Hf. cbn [mbind result_bind].
      rewrite lookup_delete_eq, bool_decide_eq_false_2; [done|]. by intros [? ?].
    + intros Hne. destruct (kv_db2file kh db') as [f'|e] eqn:Hf';
        [|by unfold kv_exists; rewrite Hf'].
      apply (kv_exists_other kh db' f f'); [done | by eapply kv_db2file_other |].
      intros g Hg. by rewrite lookup_delete_ne.
Qed.

Lemma kv_create_delete_exists_witness :
  (kv_exists ex_kh "result" ex_files = Err (ClErr OE_XML "No such database: result")
   ∧ kv_create ex_kh "result" ex_files
     = (Err (ClErr OE_XML "No such database: result"), ex_files)
   ∧ kv_delete ex_kh "result" ex_files
     = (Err (ClErr OE_XML "No such database: result"), ex_files))
  ∧ (∃ fs1, kv_create ex_kh "candidate" ex_files = (Ok (), fs1)
            ∧ kv_exists ex_kh "candidate" fs1 = Ok 1%Z
            ∧ kv_exists ex_kh "running" fs1 = kv_exists ex_kh "running" ex_files)
  ∧ (∃ fs2, kv_delete ex_kh "candidate" ex_files = (Ok (), fs2)
            ∧ kv_exists ex_kh "candidate" fs2 = Ok 0%Z
            ∧ kv_exists ex_kh "running" fs2 = kv_exists ex_kh "running" ex_files).
Proof.
  split; [|split].
  - apply (proj1 (kv_create_delete_exists ex_kh "result" "running" ex_files)).
    reflexivity.
  - destruct (proj1 (proj2 (kv_create_delete_exists ex_kh "candidate" "running" ex_files)
                       "/var/db/candidate_db" eq_refl))
      as (fs1 & Hrun & Hexists & Hother).
    exists fs1. split_and!; [exact Hrun | exact Hexists | apply Hother; by_compute].
  - destruct (proj2 (proj2 (kv_create_delete_exists ex_kh "candidate" "running" ex_files)
                       "/var/db/candidate_db" eq_refl))
      as (fs2 & Hrun & Hexists & Hother).
    exists fs2. split_and!; [exact Hrun | exact Hexists | apply Hother; by_compute].
Defined.

Lemma kv_get_same_content kh db1 db2 f1 f2 s :
  kv_db2file kh db1 = Ok f1 → kv_db2file kh db2 = Ok f2 →
  kv_get kh db1 s = kv_get kh db2 s.
Proof. intros H1 H2. unfold kv_get, mbind, dbM_bind, lift. by rewrite H1, H2. Qed.

(** X20: [kv_copy] resolves the source name first, then the target name,
    and fails with the error of the first that does not resolve, nothing
    changed. With two different names that resolve and a source file that is
    there, it succeeds: the target file then holds what the source file
    holds, so that [kv_get] on the target returns what it returns on the
    source; the source file is as it was, and so is the file of any third
    database. *)
Theorem kv_copy_copies (kh : kv_handle) (from to : string) (fs : kvfiles) :
  (∀ e, kv_db2file kh from = Err e → kv_copy kh from to fs = (Err e, fs))
  ∧ (∀ f e, kv_db2file kh from = Ok f → kv_db2file kh to = Err e →
       kv_copy kh from to fs = (Err e, fs))
  ∧ (∀ f1 f2 s, kv_db2file kh from = Ok f1 → kv_db2file kh to = Ok f2 →
       from ≠ to → fs !! f1 = Some s →
       ∃ fs', kv_copy kh from to fs = (Ok (), fs')
              ∧ fs' !! f2 = Some s ∧ fs' !! f1 = Some s
              ∧ kv_get kh to s = kv_get kh from s
              ∧ ∀ db f, db ≠ to → kv_db2file kh db = Ok f → fs' !! f = fs !! f).
Proof.
  unfold kv_copy. split_and!.
  - by intros e ->.
  - by intros f e -> ->.
  - intros f1 f2 s H1 H2 Hne Hs. rewrite H1, H2. unfold clicon_file_copy. rewrite Hs.
    eexists. split_and!; [done | apply lookup_insert_eq | | by eapply kv_get_same_content |].
    + rewrite lookup_insert_ne; [done|].
      by apply not_eq_sym, (kv_db2file_other kh to from f2 f1).
    + intros db f Hdb Hf. rewrite lookup_insert_ne; [done|].
      by apply not_eq_sym, (kv_db2file_other kh to db f2 f).
Qed.

Lemma kv_copy_copies_witness :
  kv_copy ex_kh "result" "candidate" ex_files
  = (Err (ClErr OE_XML "No such database: result"), ex_files)
  ∧ kv_copy ex_kh "running" "result" ex_files
    = (Err (ClErr OE_XML "No such database: result"), ex_files)
  ∧ ∃ fs', kv_copy ex_kh "running" "candidate" ex_files = (Ok (), fs')
           ∧ fs' !! "/var/db/candidate_db" = Some ex_interfaces_db
           ∧ fs' !! "/var/db/running_db" = Some ex_interfaces_db
           ∧ kv_get ex_kh "candidate" ex_interfaces_db
             = kv_get ex_kh "running" ex_interfaces_db
           ∧ ∀ db f, db ≠ "candidate" → kv_db2file ex_kh db = Ok f →
                     fs' !! f = ex_files !! f.
Proof.
  split_and!.
  - apply (proj1 (kv_copy_copies ex_kh "result" "candidate" ex_files)). reflexivity.
  - apply (proj1 (proj2 (kv_copy_copies ex_kh "running" "result" ex_files))
             "/var/db/running_db"); reflexivity.
  - apply (proj2 (proj2 (kv_copy_copies ex_kh "running" "candidate" ex_files))
             "/var/db/running_db" "/var/db/candidate_db" ex_interfaces_db);
      try reflexivity. by_compute.
Defined.

(** ** What a whole [kv_put] may touch *)

Lemma attrs_avoid_unfold bad x :
  attrs_avoid bad x
  = match xml_find_value x "operation" with
    | Some opstr => bool_decide (opstr ∉ bad)
    | None => true
    end && elements_all (attrs_avoid bad) (x_childvec x).
Proof. by destruct x. Qed.

Lemma xml_operation_inv opstr op :
  xml_operation opstr = Ok op →
  (opstr = "merge" ∧ op = OP_MERGE) ∨ (opstr = "replace" ∧ op = OP_REPLACE)
  ∨ (opstr = "create" ∧ op = OP_CREATE) ∨ (opstr = "delete" ∧ op = OP_DELETE)
  ∨ (opstr = "remove" ∧ op = OP_REMOVE) ∨ (opstr = "none" ∧ op = OP_NONE).
Proof.
  unfold xml_operation.
  repeat (match goal with
          | |- context [String.eqb ?a ?b] => destruct (String.eqb_spec a b) as [->|?]
          end; [intros [= <-]; tauto|]).
  done.
Qed.

(** With no attribute that selects a removal, the operation of a node is
    not a removal when the one handed down is not. *)
Lemma put_op_no_removal xt op op' :
  op ∈ [OP_CREATE; OP_MERGE; OP_REPLACE; OP_NONE] →
  match xml_find_value xt "operation" with
  | Some opstr => bool_decide (opstr ∉ ["delete"; "remove"])
  | None => true
  end = true →
  put_op xt op = Ok op' → op' ∈ [OP_CREATE; OP_MERGE; OP_REPLACE; OP_NONE].
Proof.
  intros Hop Hattr. unfold put_op.
  destruct (xml_find_value xt "operation") as [opstr|]; [|by intros [= <-]].
  apply bool_decide_eq_true in Hattr. rewrite !not_elem_of_cons in Hattr.
  destruct Hattr as (Hd & Hr & _).
  intros [[-> ->] | [[-> ->] | [[-> ->] | [[-> ->] | [[-> ->] | [-> ->]]]]]]%xml_operation_inv;
    rewrite !elem_of_cons; tauto.
Qed.

(** With no attribute that selects a write, the operation of a node is not
    a write when the one handed down is not. *)
Lemma put_op_no_write xt op op' :
  op ∈ [OP_DELETE; OP_REMOVE; OP_NONE] →
  match xml_find_value xt "operation" with
  | Some opstr => bool_decide (opstr ∉ ["create"; "merge"; "replace"])
  | None => true
  end = true →
  put_op xt op = Ok op' → op' ∈ [OP_DELETE; OP_REMOVE; OP_NONE].
Proof.
  intros Hop Hattr. unfold put_op.
  destruct (xml_find_value xt "operation") as [opstr|]; [|by intros [= <-]].
  apply bool_decide_eq_true in Hattr. rewrite !not_elem_of_cons in Hattr.
  destruct Hattr as (Hc & Hm & Hr & _).
  intros [[-> ->] | [[-> ->] | [[-> ->] | [[-> ->] | [[-> ->] | [-> ->]]]]]]%xml_operation_inv;
    rewrite !elem_of_cons; tauto.
Qed.

Lemma put_write_keeps ys op xk body s k :
  op ∈ [OP_CREATE; OP_MERGE; OP_REPLACE; OP_NONE] →
  is_Some (s !! k) → is_Some (snd (put_write ys op xk body s) !! k).
Proof.
  intros Hop Hk.
  assert (Hset : is_Some ((<[xk := body]> s) !! k)).
  { destruct (decide (k = xk)) as [->|Hne].
    - rewrite lookup_insert_eq. eauto.
    - by rewrite lookup_insert_ne. }
  rewrite !elem_of_cons, elem_of_nil in Hop.
  destruct Hop as [-> | [-> | [-> | [-> | []]]]]; cbn [put_write];
    unfold mbind, dbM_bind, db_exists, db_set, lift, mret, dbM_ret; try done.
  by case_bool_decide.
Qed.

Lemma put_children_keeps ys op xk xs :
  op ∈ [OP_CREATE; OP_MERGE; OP_REPLACE; OP_NONE] →
  Forall (λ x, ∀ ys op xk0 s k,
            op ∈ [OP_CREATE; OP_MERGE; OP_REPLACE; OP_NONE] →
            attrs_avoid ["delete"; "remove"] x = true →
            is_Some (s !! k) → is_Some (snd (put x ys op xk0 s) !! k)) xs →
  elements_all (attrs_avoid ["delete"; "remove"]) xs = true →
  ∀ s k, is_Some (s !! k) → is_Some (snd (put_children ys op xk xs s) !! k).
Proof.
  intros Hop Hall. induction Hall as [|x xs Hx _ IH]; intros Hw s k Hk; [done|].
  cbn [elements_all forallb] in Hw. apply andb_true_iff in Hw as [Hwx Hw].
  cbn [put_children]. destruct (x_type x); try (by apply IH).
  unfold mbind at 1 2, dbM_bind, lift.
  destruct (nonnull _ _) as [y|e]; [|done].
  specialize (Hx y op xk s k Hop Hwx Hk).
  destruct (put x y op xk s) as [[[]|e] s1]; [|exact Hx].
  by apply IH.
Qed.

(** Without a removal handed down or selected, [put] takes no key out of
    the database. *)
Lemma put_keeps x :
  ∀ ys op xk0 s k,
    op ∈ [OP_CREATE; OP_MERGE; OP_REPLACE; OP_NONE] →
    attrs_avoid ["delete"; "remove"] x = true →
    is_Some (s !! k) → is_Some (snd (put x ys op xk0 s) !! k).
Proof.
  induction x as [name type value spec xs IH] using cxobj_forall_ind.
  intros ys op xk0 s k Hop Hw Hk.
  rewrite attrs_avoid_unfold in Hw. apply andb_true_iff in Hw as [Hattr Hkids].
  rewrite put_unfold. unfold put_steps.
  destruct (put_op _ op) as [op'|e] eqn:Hop'; [|done].
  pose proof (put_op_no_removal _ _ _ Hop Hattr Hop') as Hops.
  destruct (put_key _ ys xk0) as [xk|e]; [|done].
  pose proof (put_write_keeps ys op' xk
                (xml_body (Cxobj name type value spec xs)) s k Hops Hk) as Hwrite.
  destruct (put_write ys op' xk _ s) as [[[|]|e] s1]; try exact Hwrite.
  by apply put_children_keeps.
Qed.

Lemma put_children_adds_nothing ys op xk xs :
  op ∈ [OP_DELETE; OP_REMOVE; OP_NONE] →
  Forall (λ x, ∀ ys op xk0 s,
            op ∈ [OP_DELETE; OP_REMOVE; OP_NONE] →
            attrs_avoid ["create"; "merge"; "replace"] x = true →
            snd (put x ys op xk0 s) ⊆ s) xs →
  elements_all (attrs_avoid ["create"; "merge"; "replace"]) xs = true →
  ∀ s, snd (put_children ys op xk xs s) ⊆ s.
Proof.
  intros Hop Hall. induction Hall as [|x xs Hx _ IH]; intros Hw s; [done|].
  cbn [elements_all forallb] in Hw. apply andb_true_iff in Hw as [Hwx Hw].
  cbn [put_children]. destruct (x_type x); try (by apply IH).
  unfold mbind at 1 2, dbM_bind, lift.
  destruct (nonnull _ _) as [y|e]; [|done].
  specialize (Hx y op xk s Hop Hwx).
  destruct (put x y op xk s) as [[[]|e] s1]; [|exact Hx].
  etrans; [apply (IH Hw s1) | exact Hx].
Qed.

(** Without a write handed down or selected, [put] adds no entry and
    changes the value of none. *)
Lemma put_adds_nothing x :
  ∀ ys op xk0 s,
    op ∈ [OP_DELETE; OP_REMOVE; OP_NONE] →
    attrs_avoid ["create"; "merge"; "replace"] x = true →
    snd (put x ys op xk0 s) ⊆ s.
Proof.
  induction x as [name type value spec xs IH] using cxobj_forall_ind.
  intros ys op xk0 s Hop Hw.
  rewrite attrs_avoid_unfold in Hw. apply andb_true_iff in Hw as [Hattr Hkids].
  rewrite put_unfold. unfold put_steps.
  destruct (put_op _ op) as [op'|e] eqn:Hop'; [|done].
  pose proof (put_op_no_write _ _ _ Hop Hattr Hop') as Hops.
  destruct (put_key _ ys xk0) as [xk|e]; [|done].
  pose proof (put_write_subseteq ys op' xk
                (xml_body (Cxobj name type value spec xs)) s Hops) as Hwrite.
  destruct (put_write ys op' xk _ s) as [[[|]|e] s1]; try exact Hwrite.
  etrans; [by apply put_children_adds_nothing | exact Hwrite].
Qed.

Lemma kv_put_children_keeps yspec op xs :
  op ∈ [OP_CREATE; OP_MERGE; OP_REPLACE; OP_NONE] →
  elements_all (attrs_avoid ["delete"; "remove"]) xs = true →
  ∀ s k, is_Some (s !! k) → is_Some (snd (kv_put_children yspec op xs s) !! k).
Proof.
  intros Hop. induction xs as [|x xs IH]; intros Hw s k Hk; [done|].
  cbn [elements_all forallb] in Hw. apply andb_true_iff in Hw as [Hwx Hw].
  cbn [kv_put_children]. destruct (x_type x); try (by apply IH).
  unfold mbind at 1 2, dbM_bind, lift.
  destruct (nonnull _ _) as [ys|e]; [|done].
  pose proof (put_keeps x ys op "" s k Hop Hwx Hk) as Hkeep.
  destruct (put x ys op "" s) as [[[]|e] s1]; [|exact Hkeep].
  by apply IH.
Qed.

Lemma kv_put_children_adds_nothing yspec op xs :
  op ∈ [OP_DELETE; OP_REMOVE; OP_NONE] →
  elements_all (attrs_avoid ["create"; "merge"; "replace"]) xs = true →
  ∀ s, snd (kv_put_children yspec op xs s) ⊆ s.
Proof.
  intros Hop. induction xs as [|x xs IH]; intros Hw s; [done|].
  cbn [elements_all forallb] in Hw. apply andb_true_iff in Hw as [Hwx Hw].
  cbn [kv_put_children]. destruct (x_type x); try (by apply IH).
  unfold mbind at 1 2, dbM_bind, lift.
  destruct (nonnull _ _) as [ys|e]; [|done].
  pose proof (put_adds_nothing x ys op "" s Hop Hwx) as Hsub.
  destruct (put x ys op "" s) as [[[]|e] s1]; [|exact Hsub].
  etrans; [by apply IH | exact Hsub].
Qed.

(** X21: a whole [kv_put], successful or failing, under [OP_CREATE],
    [OP_MERGE] or [OP_NONE] with no "operation" attribute in the tree that
    has the value [delete] or [remove], takes no key out of the database;
    under [OP_DELETE], [OP_REMOVE] or [OP_NONE] with no "operation" attribute
    that has the value [create], [merge] or [replace], it adds no entry and
    changes the value of none. *)
Theorem kv_put_one_way (kh : kv_handle) (db : string) (op : operation_type)
    (xt : cxobj) (s : kvstore) :
  (op ∈ [OP_CREATE; OP_MERGE; OP_NONE] →
   elements_all (attrs_avoid ["delete"; "remove"]) (x_childvec xt) = true →
   ∀ k, is_Some (s !! k) → is_Some (snd (kv_put kh db op xt s) !! k))
  ∧ (op ∈ [OP_DELETE; OP_REMOVE; OP_NONE] →
     elements_all (attrs_avoid ["create"; "merge"; "replace"]) (x_childvec xt) = true →
     ∀ k v, snd (kv_put kh db op xt s) !! k = Some v → s !! k = Some v).
Proof.
  split.
  - intros Hop Hxt k Hk.
    assert (Hnr : op ≠ OP_REPLACE)
      by (intros ->; rewrite !elem_of_cons, elem_of_nil in Hop;
          by destruct Hop as [? | [? | [? | []]]]).
    assert (Hop' : op ∈ [OP_CREATE; OP_MERGE; OP_REPLACE; OP_NONE])
      by (rewrite !elem_of_cons, elem_of_nil in Hop; rewrite !elem_of_cons; tauto).
    unfold kv_put. unfold mbind at 1 2 3, dbM_bind, lift.
    destruct (nonnull _ _) as [yspec|e]; [|done].
    destruct (kv_db2file kh db) as [f|e]; [|done].
    rewrite decide_False by done.
    unfold mbind, dbM_bind, mret, dbM_ret. by apply kv_put_children_keeps.
  - intros Hop Hxt k v. apply (proj1 (map_subseteq_spec _ _)).
    assert (Hnr : op ≠ OP_REPLACE)
      by (intros ->; rewrite !elem_of_cons, elem_of_nil in Hop;
          by destruct Hop as [? | [? | [? | []]]]).
    unfold kv_put. unfold mbind at 1 2 3, dbM_bind, lift.
    destruct (nonnull _ _) as [yspec|e]; [|done].
    destruct (kv_db2file kh db) as [f|e]; [|done].
    rewrite decide_False by done.
    unfold mbind, dbM_bind, mret, dbM_ret. by apply kv_put_children_adds_nothing.
Qed.

Lemma kv_put_one_way_witness :
  is_Some (snd (kv_put ex_kh "running" OP_MERGE (xml_elem "config" [ex_interface_quiet])
                  ex_hosts_db) !! "/system/host")
  ∧ ex_hosts_db !! "/system/hostname" = Some (Some "b").
Proof.
  split.
  - apply (proj1 (kv_put_one_way ex_kh "running" OP_MERGE
                    (xml_elem "config" [ex_interface_quiet]) ex_hosts_db));
      by_compute.
  - apply (proj2 (kv_put_one_way ex_kh "running" OP_NONE
                    (xml_elem "config" [ex_delete_host]) ex_hosts_db));
      by_compute.
Defined.

(** ** The key of a node at the top of the schema, written and read *)

Lemma index_split_lacks c a : lacks c a = true → index_split c a = (a, None).
Proof.
  induction a as [|x a IH]; intros Ha; [done|].
  rewrite lacks_cons in Ha. apply andb_true_iff in Ha as [Hx Ha].
  apply negb_true_iff, bool_decide_eq_false in Hx.
  cbn [index_split]. rewrite decide_False by done. by rewrite IH.
Qed.

(** X22: the key [put] builds for an element with a plain name whose
    statement, at the top of the schema, is neither a list nor a leaf-list,
    is read back by [get]: on the bare root, [get] with that key creates one
    child of that name for that statement, and a value stored with the key
    becomes its body. *)
Theorem top_node_read_back (yspec : yang_spec) (y : yang_stmt) (xt : cxobj)
    (xk : string) (val : option string)
    (Hy : yang_find_topnode yspec (x_name xt) = Some y)
    (Hkw : ys_keyword y ≠ Y_LIST) (Hll : ys_keyword y ≠ Y_LEAF_LIST)
    (Hname : plain_name (x_name xt) = true)
    (Hxk : put_key xt y "" = Ok xk) :
  get yspec xk val (xml_new_spec "config" yspec)
  = Ok (xml_addsub (xml_new_spec "config" yspec)
          match val with
          | Some v => xml_addsub (xml_new_spec (x_name xt) y) (xml_new_body v)
          | None => xml_new_spec (x_name xt) y
          end).
Proof.
  pose proof (plain_name_lacks "/" _ ltac:(by_compute) Hname) as Hslash.
  pose proof (plain_name_lacks "=" _ ltac:(by_compute) Hname) as Heq.
  assert (Hnew : get_descend (xml_new_spec "config" yspec) None
                   (xml_new_spec (x_name xt) y) (get_vec yspec val (Some y) [])
                 = Ok (xml_addsub (xml_new_spec "config" yspec)
                         match val with
                         | Some v => xml_addsub (xml_new_spec (x_name xt) y) (xml_new_body v)
                         | None => xml_new_spec (x_name xt) y
                         end)) by (by destruct val).
  assert (Hplain : xk = String "/" (x_name xt)).
  { revert Hxk Hkw Hll. unfold put_key.
    destruct (ys_keyword y); intros Hxk ? ?; try done; by injection Hxk as <-. }
  rewrite Hplain. unfold get. rewrite bool_decide_eq_true_2 by done.
  cbn [clicon_strsep]. rewrite decide_True by done.
  rewrite (clicon_strsep_lacks "/" _ Hslash).
  cbn [List.length Nat.ltb Nat.leb tail get_vec].
  rewrite index_split_lacks by done.
  rewrite Hy. cbn [nonnull mbind result_bind].
  unfold xml_find. cbn [xml_new_spec x_childvec list_find].
  revert Hkw Hll. destruct (ys_keyword y); intros ? ?; try done; exact Hnew.
Qed.

Lemma top_node_read_back_witness :
  get ex_yspec "/system" None (xml_new_spec "config" ex_yspec)
  = Ok (xml_addsub (xml_new_spec "config" ex_yspec) (xml_new_spec "system" ex_system)).
Proof.
  apply (top_node_read_back ex_yspec ex_system (xml_elem "system" []) "/system" None);
    try (vm_compute; reflexivity); done.
Defined.
